(** * Deterministic screenshots with Chromium virtual time

    A shallow embedding of [src/index.ts]: the [VirtualTimeController]
    class (virtual-time budget bookkeeping, chunking at animation-frame
    boundaries, deterministic screenshot capture) and the capture loop of
    [run] (frame numbering, file naming, encoding and clean-up).

    The program is embedded twice, with the same names.

    - The first embedding idealises a JavaScript [number] as an exact
      rational ([Q]): [%] is the truncated remainder, [Math.min] is
      [Qmin], [=== 0] is [Qeq_bool _ 0], and nothing is rounded.  It
      serves for the properties of what the program does with its
      callbacks, its requests and its files.
    - The second embedding, the module [B64], takes a [number] for what
      it is, an IEEE-754 double: a finite double is the rational it
      denotes, and every sum, difference, product and quotient is
      rounded to the nearest double, ties to even, with overflow to the
      infinities and with [NaN].  The two zeros are not told apart: the
      program could tell them apart only in [1000 / frameInterval].
      Every property of the numbers that the program computes (chunks,
      elapsed and remaining time, frame times, the frame counter) is
      stated and proved there.

    Modelling conventions of both.
    - A method of the controller is a function from the controller state
      to a result, a new state and the list of effects it performed, in
      order: the requests sent to the browser over the DevTools protocol
      and the invocations of the callbacks it was given.  Callbacks are
      identified by values of an arbitrary type; the client decides what
      they do.
    - Every method runs to completion before the next one starts (the
      awaits on protocol round trips are not interleaving points), and the
      replies of the browser are arguments of the method that reads them. *)

From Stdlib Require Import QArith Qround Qminmax Qabs Qpower Qreduction Lqa.
From Stdlib Require Import ZArith Lia Ascii Floats.
From stdpp Require Import gmap strings pretty list.

Open Scope Q_scope.

(** ** JavaScript numbers *)

Module JS.

(** Rounding towards zero, the integer quotient behind [%]. *)
Definition Qtrunc (x : Q) : Z :=
  if Qle_bool 0 x then Qfloor x else Qceiling x.

(** [x % y].  The divisor is never zero in this program (the constructor
    replaces a zero interval by 16). *)
Definition rem (x y : Q) : Q := x - y * inject_Z (Qtrunc (x / y)).

(** [Math.min(x, y)]. *)
Definition min (x y : Q) : Q := Qmin x y.

(** Truthiness of a number: [if (x)], [x || d]. *)
Definition truthy (x : Q) : bool := negb (Qeq_bool x 0).

(** [x || d] for an optional numeric parameter. *)
Definition or_default (x : option Q) (d : Q) : Q :=
  match x with
  | Some v => if truthy v then v else d
  | None => d
  end.

(** [x > y] and [x < y] as tests. *)
Definition gtb (x y : Q) : bool := negb (Qle_bool x y).
Definition ltb (x y : Q) : bool := negb (Qle_bool y x).

End JS.

(** ** The DevTools protocol as seen by the controller *)

(** [ScreenshotOptions]: the format of a screenshot and, for JPEG, its
    quality. *)
Inductive ScreenshotFormat : Type := jpeg | png.

Record ScreenshotOptions : Type := {
  format : ScreenshotFormat;
  quality : option Q;
}.

(** What a method of the controller does to the outside, in order:
    requests to the browser and invocations of the client's callbacks. *)
Inductive effect {CB : Type} : Type :=
| (** [Emulation.setVirtualTimePolicy({initialVirtualTime, policy: 'pause'})] *)
  Emulation_pause (initialVirtualTime : Q)
| (** [Emulation.setVirtualTimePolicy({policy: 'pauseIfNetworkFetchesPending',
      budget, maxVirtualTimeTaskStarvationCount, waitForNavigation})] *)
  Emulation_setVirtualTimePolicy
    (budget : Q) (maxVirtualTimeTaskStarvationCount : Q)
    (waitForNavigation : bool)
| (** [HeadlessExperimental.beginFrame({frameTimeTicks, noDisplayUpdates,
      screenshot})]; an absent field is [None]. *)
  HeadlessExperimental_beginFrame
    (frameTimeTicks : Q) (noDisplayUpdates : option bool)
    (screenshot : option ScreenshotOptions)
| (** [this.onInstalled_(virtualTimeBase)] *)
  Call_onInstalled (cb : CB) (virtualTimeBase : Q)
| (** [this.onExpired_(totalElapsedTime)] *)
  Call_onExpired (cb : CB) (totalElapsedTime : Q).
Arguments effect : clear implicits.

(** ** The class [VirtualTimeController] *)

Record VirtualTimeController {CB : Type} : Type := {
  animationFrameInterval_ : Q;
  maxTaskStarvationCount_ : Q;
  virtualTimeBase_ : Q;
  remainingBudget_ : Q;
  lastGrantedChunk_ : Q;
  totalElapsedTime_ : Q;
  onInstalled_ : option CB;
  onExpired_ : option CB;
}.
Arguments VirtualTimeController : clear implicits.

Section Controller.
Context {CB : Type}.

(** Assignments to the fields that are not [readonly]. *)
Definition set_virtualTimeBase_ (v : Q) (c : VirtualTimeController CB) : VirtualTimeController CB :=
  {| animationFrameInterval_ := animationFrameInterval_ c;
     maxTaskStarvationCount_ := maxTaskStarvationCount_ c;
     virtualTimeBase_ := v;
     remainingBudget_ := remainingBudget_ c;
     lastGrantedChunk_ := lastGrantedChunk_ c;
     totalElapsedTime_ := totalElapsedTime_ c;
     onInstalled_ := onInstalled_ c;
     onExpired_ := onExpired_ c |}.

Definition set_remainingBudget_ (v : Q) (c : VirtualTimeController CB) : VirtualTimeController CB :=
  {| animationFrameInterval_ := animationFrameInterval_ c;
     maxTaskStarvationCount_ := maxTaskStarvationCount_ c;
     virtualTimeBase_ := virtualTimeBase_ c;
     remainingBudget_ := v;
     lastGrantedChunk_ := lastGrantedChunk_ c;
     totalElapsedTime_ := totalElapsedTime_ c;
     onInstalled_ := onInstalled_ c;
     onExpired_ := onExpired_ c |}.

Definition set_lastGrantedChunk_ (v : Q) (c : VirtualTimeController CB) : VirtualTimeController CB :=
  {| animationFrameInterval_ := animationFrameInterval_ c;
     maxTaskStarvationCount_ := maxTaskStarvationCount_ c;
     virtualTimeBase_ := virtualTimeBase_ c;
     remainingBudget_ := remainingBudget_ c;
     lastGrantedChunk_ := v;
     totalElapsedTime_ := totalElapsedTime_ c;
     onInstalled_ := onInstalled_ c;
     onExpired_ := onExpired_ c |}.

Definition set_totalElapsedTime_ (v : Q) (c : VirtualTimeController CB) : VirtualTimeController CB :=
  {| animationFrameInterval_ := animationFrameInterval_ c;
     maxTaskStarvationCount_ := maxTaskStarvationCount_ c;
     virtualTimeBase_ := virtualTimeBase_ c;
     remainingBudget_ := remainingBudget_ c;
     lastGrantedChunk_ := lastGrantedChunk_ c;
     totalElapsedTime_ := v;
     onInstalled_ := onInstalled_ c;
     onExpired_ := onExpired_ c |}.

Definition set_onInstalled_ (v : option CB) (c : VirtualTimeController CB) : VirtualTimeController CB :=
  {| animationFrameInterval_ := animationFrameInterval_ c;
     maxTaskStarvationCount_ := maxTaskStarvationCount_ c;
     virtualTimeBase_ := virtualTimeBase_ c;
     remainingBudget_ := remainingBudget_ c;
     lastGrantedChunk_ := lastGrantedChunk_ c;
     totalElapsedTime_ := totalElapsedTime_ c;
     onInstalled_ := v;
     onExpired_ := onExpired_ c |}.

Definition set_onExpired_ (v : option CB) (c : VirtualTimeController CB) : VirtualTimeController CB :=
  {| animationFrameInterval_ := animationFrameInterval_ c;
     maxTaskStarvationCount_ := maxTaskStarvationCount_ c;
     virtualTimeBase_ := virtualTimeBase_ c;
     remainingBudget_ := remainingBudget_ c;
     lastGrantedChunk_ := lastGrantedChunk_ c;
     totalElapsedTime_ := totalElapsedTime_ c;
     onInstalled_ := onInstalled_ c;
     onExpired_ := v |}.

(** A method: result, new state and effects, from the state it runs in. *)
Definition M (X : Type) : Type :=
  VirtualTimeController CB -> X * VirtualTimeController CB * list (effect CB).

Definition ret {X : Type} (x : X) : M X := fun c => (x, c, []).

Definition bind {X Y : Type} (m : M X) (k : X -> M Y) : M Y :=
  fun c =>
    match m c with
    | (x, c1, effects1) =>
        match k x c1 with
        | (y, c2, effects2) => (y, c2, effects1 ++ effects2)
        end
    end.

(** [this], an assignment [this.f = v], and a request or a callback call. *)
Definition this : M (VirtualTimeController CB) := fun c => (c, c, []).
Definition assign (f : VirtualTimeController CB -> VirtualTimeController CB)
  : M unit :=
  fun c => (tt, f c, []).
Definition perform (e : effect CB) : M unit := fun c => (tt, c, [e]).

#[export] Instance M_ret : MRet M := @ret.
#[export] Instance M_bind : MBind M := fun X Y k m => bind m k.

(** The body of the constructor, without the registration of the event
    handler, which is [virtualTimeBudgetExpired] below. *)
Definition constructor (animationFrameInterval maxTaskStarvationCount : option Q)
  : VirtualTimeController CB :=
  {| animationFrameInterval_ := JS.or_default animationFrameInterval 16;
     maxTaskStarvationCount_ := JS.or_default maxTaskStarvationCount (100 * 1000);
     virtualTimeBase_ := 0;
     remainingBudget_ := 0;
     lastGrantedChunk_ := 0;
     totalElapsedTime_ := 0;
     onInstalled_ := None;
     onExpired_ := None |}.

Definition scheduleNextChunk_ : M unit :=
  c ← this;
  let lastFrame := JS.rem (totalElapsedTime_ c) (animationFrameInterval_ c) in
  let nextAnimationFrame := animationFrameInterval_ c - lastFrame in
  let chunk := JS.min nextAnimationFrame (remainingBudget_ c) in
  perform (Emulation_setVirtualTimePolicy chunk (maxTaskStarvationCount_ c)
             (Qeq_bool (totalElapsedTime_ c) 0));;
  assign (set_lastGrantedChunk_ chunk);;
  c ← this;
  match onInstalled_ c with
  | Some cb =>
      perform (Call_onInstalled cb (virtualTimeBase_ c));;
      assign (set_onInstalled_ None)
  | None => ret tt
  end.

Definition issueAnimationFrameAndScheduleNextChunk_ : M unit :=
  c ← this;
  (if JS.gtb (totalElapsedTime_ c) 0 && JS.gtb (remainingBudget_ c) 0 then
     let remainder :=
       JS.rem (totalElapsedTime_ c) (animationFrameInterval_ c) in
     if Qeq_bool remainder 0 then
       let frameTimeTicks := virtualTimeBase_ c + totalElapsedTime_ c in
       perform (HeadlessExperimental_beginFrame frameTimeTicks (Some true) None)
     else ret tt
   else ret tt);;
  scheduleNextChunk_.

(** The handler of [Emulation.virtualTimeBudgetExpired] that the
    constructor registers. *)
Definition virtualTimeBudgetExpired : M unit :=
  c ← this;
  assign (set_totalElapsedTime_ (totalElapsedTime_ c + lastGrantedChunk_ c));;
  c ← this;
  assign (set_remainingBudget_ (remainingBudget_ c - lastGrantedChunk_ c));;
  c ← this;
  if Qeq_bool (remainingBudget_ c) 0 then
    match onExpired_ c with
    | Some cb => perform (Call_onExpired cb (totalElapsedTime_ c))
    | None => ret tt
    end
  else issueAnimationFrameAndScheduleNextChunk_.

Definition grantTime (budget : Q) (onExpired : CB) : M unit :=
  assign (set_remainingBudget_ budget);;
  assign (set_onExpired_ (Some onExpired));;
  issueAnimationFrameAndScheduleNextChunk_.

(** [virtualTimeTicksBase] is the browser's reply to the pause request. *)
Definition grantInitialTime (budget initialVirtualTime : Q)
    (onInstalled onExpired : CB) (virtualTimeTicksBase : Q) : M unit :=
  perform (Emulation_pause initialVirtualTime);;
  assign (set_virtualTimeBase_ virtualTimeTicksBase);;
  c ← this;
  perform (HeadlessExperimental_beginFrame (virtualTimeBase_ c) (Some false) None);;
  assign (set_onInstalled_ (Some onInstalled));;
  grantTime budget onExpired.

Definition currentFrameTime (c : VirtualTimeController CB) : Q :=
  virtualTimeBase_ c + totalElapsedTime_ c.

Definition elapsedTime (c : VirtualTimeController CB) : Q := totalElapsedTime_ c.

Definition stopVirtualTimeGracefully : M unit :=
  c ← this;
  if JS.truthy (remainingBudget_ c) then assign (set_remainingBudget_ 0)
  else ret tt.

(** [screenshotData] is the browser's reply to the render request; the
    method returns it as it is ([Buffer.from] only decodes it). *)
Definition captureScreenshot (options : ScreenshotOptions)
    (screenshotData : string) : M string :=
  c ← this;
  let frameTimeTicks := currentFrameTime c in
  perform (HeadlessExperimental_beginFrame frameTimeTicks None (Some options));;
  c ← this;
  assign (set_virtualTimeBase_ (virtualTimeBase_ c + 0.01));;
  ret screenshotData.

End Controller.

(** ** The controller and the browser together *)

(** The controller, the budget the browser is currently consuming (if any)
    and everything the controller has done so far, oldest first. *)
Record world {CB : Type} : Type := {
  controller : VirtualTimeController CB;
  outstanding : option Q;
  trace : list (effect CB);
}.
Arguments world : clear implicits.

(** The calls a client can make on a controller, and the one event the
    browser sends to it. *)
Inductive op {CB : Type} : Type :=
| GrantInitialTime (budget initialVirtualTime : Q) (onInstalled onExpired : CB)
    (virtualTimeTicksBase : Q)
| GrantTime (budget : Q) (onExpired : CB)
| BudgetExpired
| StopVirtualTimeGracefully
| CaptureScreenshot (options : ScreenshotOptions) (screenshotData : string).
Arguments op : clear implicits.

Section World.
Context {CB : Type}.

(** The browser's side of a request: a budget policy replaces the budget
    it is consuming, a pause leaves it with none. *)
Definition browser_receive (o : option Q) (e : effect CB) : option Q :=
  match e with
  | Emulation_pause _ => None
  | Emulation_setVirtualTimePolicy budget _ _ => Some budget
  | _ => o
  end.

(** Running a method of the controller of [w]: the result, the effects and
    the world afterwards. *)
Definition call {X : Type} (m : M X) (w : world CB)
  : X * list (effect CB) * world CB :=
  let r := m (controller w) in
  (fst (fst r), snd r,
   {| controller := snd (fst r);
      outstanding := foldl browser_receive (outstanding w) (snd r);
      trace := trace w ++ snd r |}).

(** The browser has used up the budget it was given. *)
Definition budget_consumed (w : world CB) : world CB :=
  {| controller := controller w; outstanding := None; trace := trace w |}.

Definition exec (o : op CB) (w : world CB) : world CB :=
  match o with
  | GrantInitialTime budget initialVirtualTime onInstalled onExpired base =>
      snd (call (grantInitialTime budget initialVirtualTime
                   onInstalled onExpired base) w)
  | GrantTime budget onExpired => snd (call (grantTime budget onExpired) w)
  | BudgetExpired => snd (call virtualTimeBudgetExpired (budget_consumed w))
  | StopVirtualTimeGracefully => snd (call stopVirtualTimeGracefully w)
  | CaptureScreenshot options data =>
      snd (call (captureScreenshot options data) w)
  end.

Definition exec_all (ops : list (op CB)) (w : world CB) : world CB :=
  foldl (fun w o => exec o w) w ops.

(** [n] budget-expiry events in a row. *)
Definition expire (n : nat) (w : world CB) : world CB :=
  Nat.iter n (exec BudgetExpired) w.

Definition new_world (c : VirtualTimeController CB) : world CB :=
  {| controller := c; outstanding := None; trace := [] |}.

(** Observations of a trace. *)
Definition policy_budget (e : effect CB) : option Q :=
  match e with
  | Emulation_setVirtualTimePolicy budget _ _ => Some budget
  | _ => None
  end.

(** The chunks submitted with [setVirtualTimePolicy], oldest first. *)
Definition chunks (t : list (effect CB)) : list Q := omap policy_budget t.

Definition capture_time (e : effect CB) : option Q :=
  match e with
  | HeadlessExperimental_beginFrame t _ (Some _) => Some t
  | _ => None
  end.

Definition is_onInstalled (e : effect CB) : bool :=
  match e with Call_onInstalled _ _ => true | _ => false end.

Definition is_onExpired (e : effect CB) : bool :=
  match e with Call_onExpired _ _ => true | _ => false end.

(** The budget a call grants. *)
Definition budget_of (o : op CB) : Q :=
  match o with
  | GrantInitialTime budget _ _ _ _ => budget
  | GrantTime budget _ => budget
  | _ => 0
  end.

Definition is_grant (o : op CB) : bool :=
  match o with
  | GrantInitialTime _ _ _ _ _ | GrantTime _ _ => true
  | _ => false
  end.

(** The callback a grant asks to be called when its budget has expired. *)
Definition onExpired_of (o : op CB) : option CB :=
  match o with
  | GrantInitialTime _ _ _ cb _ | GrantTime _ cb => Some cb
  | _ => None
  end.

(** The discipline the controller expects of its client and of the
    browser: budgets are not negative; a budget is granted only once the
    previous one is used up; the initial grant, if there is one, is the
    first thing done with the controller; nothing is revoked while a
    budget remains; and the browser reports the expiry of a budget only if
    it was given one. *)
Definition allowed (w : world CB) (o : op CB) : bool :=
  match o with
  | GrantInitialTime budget _ _ _ _ =>
      Qle_bool 0 budget && Qeq_bool (remainingBudget_ (controller w)) 0
      && match trace w with [] => true | _ :: _ => false end
  | GrantTime budget _ =>
      Qle_bool 0 budget && Qeq_bool (remainingBudget_ (controller w)) 0
  | BudgetExpired => match outstanding w with Some _ => true | None => false end
  | StopVirtualTimeGracefully => Qeq_bool (remainingBudget_ (controller w)) 0
  | CaptureScreenshot _ _ => true
  end.

Fixpoint admissible (w : world CB) (ops : list (op CB)) : bool :=
  match ops with
  | [] => true
  | o :: rest => allowed w o && admissible (exec o w) rest
  end.

End World.

(** ** The capture loop of [run] *)

(** The command-line options ([argv]). *)
Record Argv : Type := {
  width : Q;
  height : Q;
  frameInterval : Q;
  url : string;
  frameCount : Q;
  outputFilename : string;
  screenshotFormat : ScreenshotFormat;
  screenshotJpegQuality : Q;
  noVideo : bool;
  keepFrames : bool;
}.

Definition timeBetweenFramesInMilliseconds (argv : Argv) : Q :=
  frameInterval argv.
Definition targetUrl (argv : Argv) : string := url argv.
Definition totalFramesToCapture (argv : Argv) : Q := frameCount argv.
Definition outputMP4Filename (argv : Argv) : string := outputFilename argv.

Definition screenshotOptions (argv : Argv) : ScreenshotOptions :=
  match screenshotFormat argv with
  | jpeg => {| format := jpeg; quality := Some (screenshotJpegQuality argv) |}
  | png => {| format := png; quality := None |}
  end.

(** The three callbacks [run] hands to the controller: the two arrow
    functions passed to [grantInitialTime] and [timeExpired]. *)
Inductive callback : Type :=
| cb_onInstalled
| cb_onExpired
| cb_timeExpired.

(** What the browser answers: the time base on the pause request and the
    picture of the page at a frame time. *)
Record Browser : Type := {
  virtualTimeTicksBase : Q;
  render : Q -> string;
}.

(** How the encoder ends: its ['error'] or its ['end'] event. *)
Inductive ffmpeg_event : Type :=
| ffmpeg_error (message : string)
| ffmpeg_end.

(** Everything [run] does that can be observed, in order.  The messages
    that print wall-clock durations carry no text. *)
Inductive event : Type :=
| Protocol (e : effect callback)
| Page_navigate (url : string)
| fs_writeFileSync (filename data : string)
| fs_unlinkSync (filename : string)
| console_log (message : string)
| console_log_filenames (filenames : list string)
| console_log_clock_time (virtualTime : Q)
| console_log_encoding_time
| newTarget_close
| cri_close
| launchedChrome_kill
| ffmpeg_save (input : string) (inputFPS : Q) (output : string).

(** The state of a run: the controller and the browser, the variables
    [frameCounter] and [allFrameFilenames] of the capture loop, the files
    on disk, whether an exception escaped, and the events so far. *)
Record session : Type := {
  page : world callback;
  frameCounter : Z;
  allFrameFilenames : list string;
  files : gmap string string;
  threw : bool;
  timeline : list event;
}.

Definition set_page (w : world callback) (s : session) : session :=
  {| page := w; frameCounter := frameCounter s;
     allFrameFilenames := allFrameFilenames s; files := files s;
     threw := threw s; timeline := timeline s |}.

Definition set_frameCounter (n : Z) (s : session) : session :=
  {| page := page s; frameCounter := n;
     allFrameFilenames := allFrameFilenames s; files := files s;
     threw := threw s; timeline := timeline s |}.

Definition set_allFrameFilenames (l : list string) (s : session) : session :=
  {| page := page s; frameCounter := frameCounter s;
     allFrameFilenames := l; files := files s;
     threw := threw s; timeline := timeline s |}.

Definition set_files (f : gmap string string) (s : session) : session :=
  {| page := page s; frameCounter := frameCounter s;
     allFrameFilenames := allFrameFilenames s; files := f;
     threw := threw s; timeline := timeline s |}.

Definition set_threw (b : bool) (s : session) : session :=
  {| page := page s; frameCounter := frameCounter s;
     allFrameFilenames := allFrameFilenames s; files := files s;
     threw := b; timeline := timeline s |}.

Definition record (evs : list event) (s : session) : session :=
  {| page := page s; frameCounter := frameCounter s;
     allFrameFilenames := allFrameFilenames s; files := files s;
     threw := threw s; timeline := timeline s ++ evs |}.

(** [s.padStart(targetLength, c)] for a one-character pad string. *)
Fixpoint repeat_char (n : nat) (c : ascii) : string :=
  match n with
  | O => EmptyString
  | S n' => String c (repeat_char n' c)
  end.

Definition padStart (targetLength : nat) (c : ascii) (s : string) : string :=
  repeat_char (targetLength - String.length s) c +:+ s.

Definition extension (f : ScreenshotFormat) : string :=
  match f with jpeg => "jpg" | png => "png" end.

(** [`frame-${frameCounter.toString().padStart(7, '0')}.${...}`] *)
Definition frameFilename (frameCounter : Z) (f : ScreenshotFormat) : string :=
  "frame-" +:+ padStart 7 "0" (pretty frameCounter) +:+ "." +:+ extension f.

(** [fs.writeFileSync] creates or replaces a file. *)
Definition writeFileSync (filename data : string) (s : session) : session :=
  record [fs_writeFileSync filename data]
    (set_files (<[filename := data]> (files s)) s).

(** [fs.unlinkSync] removes a file and throws if there is none. *)
Definition unlinkSync (filename : string) (s : session) : session :=
  match files s !! filename with
  | Some _ =>
      record [fs_unlinkSync filename] (set_files (delete filename (files s)) s)
  | None => set_threw true s
  end.

(** [filenames.map(fs.unlinkSync)]: an exception ends the loop. *)
Fixpoint unlink_all (filenames : list string) (s : session) : session :=
  match filenames with
  | [] => s
  | f :: rest =>
      let s' := unlinkSync f s in
      if threw s' then s' else unlink_all rest s'
  end.

Section Run.
Variable argv : Argv.
Variable browser : Browser.

(** What the client does on a callback of the controller that it runs at
    once: the first arrow function starts the navigation. *)
Definition react (e : effect callback) : list event :=
  Protocol e ::
  match e with
  | Call_onInstalled cb_onInstalled _ => [Page_navigate (targetUrl argv)]
  | _ => []
  end.

(** A call of a method of the controller from [run]. *)
Definition invoke {X : Type} (m : M X) (s : session) : X * session :=
  let r := call m (page s) in
  (fst (fst r), record (flat_map react (snd (fst r))) (set_page (snd r) s)).

(** The ['error'] and ['end'] handlers of the encoder. *)
Definition on_ffmpeg (ev : ffmpeg_event) (s : session) : session :=
  match ev with
  | ffmpeg_error message =>
      record [console_log ("An error occurred: " +:+ message)] s
  | ffmpeg_end =>
      let s := record [console_log_encoding_time] s in
      if negb (keepFrames argv) then unlink_all (allFrameFilenames s) s else s
  end.

(** The [else] branch of [timeExpired]: the last frame has been captured. *)
Definition finish (s : session) : session :=
  let s := record [console_log "Finished capturing frames."] s in
  let virtualTime := elapsedTime (controller (page s)) in
  let s := record [console_log_clock_time virtualTime] s in
  let s := record [newTarget_close; cri_close; launchedChrome_kill] s in
  let s :=
    if negb (noVideo argv) then
      record [ffmpeg_save
                ("frame-%07d." +:+ extension (format (screenshotOptions argv)))
                (1000 / timeBetweenFramesInMilliseconds argv)
                (outputMP4Filename argv)] s
    else if negb (keepFrames argv) then unlink_all (allFrameFilenames s) s
    else s in
  record [console_log "Finished"] s.

Definition timeExpired (s : session) : session :=
  let frameTimeTicks := currentFrameTime (controller (page s)) in
  let r := invoke (captureScreenshot (screenshotOptions argv)
                     (render browser frameTimeTicks)) s in
  let screen := fst r in
  let s := snd r in
  let name := frameFilename (frameCounter s) (format (screenshotOptions argv)) in
  let s := writeFileSync name screen s in
  let s := set_allFrameFilenames (allFrameFilenames s ++ [name]) s in
  let s := record [console_log_filenames (allFrameFilenames s)] s in
  let counter := frameCounter s in
  let s := set_frameCounter (counter + 1)%Z s in
  if JS.ltb (inject_Z counter) (totalFramesToCapture argv) then
    snd (invoke (grantTime (timeBetweenFramesInMilliseconds argv)
                   cb_timeExpired) s)
  else finish s.

(** The second arrow function passed to [grantInitialTime]. *)
Definition onExpired (s : session) : session :=
  let s := set_frameCounter 1 s in
  let s := set_allFrameFilenames [] s in
  snd (invoke (grantTime (timeBetweenFramesInMilliseconds argv)
                 cb_timeExpired) s).

(** The client's side of [this.onExpired_(...)]. *)
Definition dispatch (s : session) (e : effect callback) : session :=
  match e with
  | Call_onExpired cb_onExpired _ => onExpired s
  | Call_onExpired cb_timeExpired _ => timeExpired s
  | _ => s
  end.

(** The browser reports that the budget has expired, which it does only
    for a budget it was given: the controller's handler runs, and then the
    callback it called, if it called one. *)
Definition budgetExpired (s : session) : session :=
  match outstanding (page s) with
  | None => s
  | Some _ =>
      let r := call virtualTimeBudgetExpired (budget_consumed (page s)) in
      let effects := snd (fst r) in
      foldl dispatch
        (record (flat_map react effects) (set_page (snd r) s)) effects
  end.

(** [run], from the creation of the controller on, with the files [fs]
    on disk. *)
Definition run (fs : gmap string string) : session :=
  let controller := constructor None None in
  let s := {| page := new_world controller; frameCounter := 0;
              allFrameFilenames := []; files := fs; threw := false;
              timeline := [] |} in
  snd (invoke (grantInitialTime 1 10000 cb_onInstalled cb_onExpired
                 (virtualTimeTicksBase browser)) s).

(** The run after [n] budget-expiry events. *)
Definition run_for (n : nat) (fs : gmap string string) : session :=
  Nat.iter n budgetExpired (run fs).

End Run.

(** Observations of a timeline. *)
Definition is_capture (e : event) : bool :=
  match e with
  | Protocol (HeadlessExperimental_beginFrame _ _ (Some _)) => true
  | _ => false
  end.

Definition captures (t : list event) : nat := length (List.filter is_capture t).

Definition written (e : event) : option string :=
  match e with fs_writeFileSync name _ => Some name | _ => None end.

Definition is_kill (e : event) : bool :=
  match e with launchedChrome_kill => true | _ => false end.

(** The run is over once the browser has been shut down. *)
Definition finished (s : session) : bool := existsb is_kill (timeline s).

(** ** Descriptions of states and traces used in the statements *)

Section Descriptions.
Context {CB : Type}.
Implicit Types (c : VirtualTimeController CB) (w : world CB) (o : op CB).

(** The size of the chunk that [scheduleNextChunk_] computes in [c]. *)
Definition next_chunk c : Q :=
  JS.min (animationFrameInterval_ c
          - JS.rem (totalElapsedTime_ c) (animationFrameInterval_ c))
         (remainingBudget_ c).

(** The state it leaves and the effects it has. *)
Definition scheduled c : VirtualTimeController CB :=
  set_onInstalled_ None (set_lastGrantedChunk_ (next_chunk c) c).

Definition installed_call c : list (effect CB) :=
  match onInstalled_ c with
  | Some cb => [Call_onInstalled cb (virtualTimeBase_ c)]
  | None => []
  end.

Definition schedule_effects c : list (effect CB) :=
  Emulation_setVirtualTimePolicy (next_chunk c) (maxTaskStarvationCount_ c)
    (Qeq_bool (totalElapsedTime_ c) 0) :: installed_call c.

(** The animation frame that [issueAnimationFrameAndScheduleNextChunk_]
    issues at a frame boundary. *)
Definition frame_effects c : list (effect CB) :=
  if JS.gtb (totalElapsedTime_ c) 0 && JS.gtb (remainingBudget_ c) 0 then
    if Qeq_bool (JS.rem (totalElapsedTime_ c) (animationFrameInterval_ c)) 0
    then [HeadlessExperimental_beginFrame
            (virtualTimeBase_ c + totalElapsedTime_ c) (Some true) None]
    else []
  else [].

(** The bookkeeping of the expiry handler. *)
Definition advanced c : VirtualTimeController CB :=
  set_remainingBudget_ (remainingBudget_ c - lastGrantedChunk_ c)
    (set_totalElapsedTime_ (totalElapsedTime_ c + lastGrantedChunk_ c) c).

Definition expired_call c : list (effect CB) :=
  match onExpired_ c with
  | Some cb => [Call_onExpired cb (totalElapsedTime_ c)]
  | None => []
  end.

(** The state in which [grantTime] schedules the first chunk. *)
Definition granting (budget : Q) (onExpired : CB) c : VirtualTimeController CB :=
  set_onExpired_ (Some onExpired) (set_remainingBudget_ budget c).

Definition interval w : Q := animationFrameInterval_ (controller w).

Definition elapsed w : Q := totalElapsedTime_ (controller w).

Definition remaining w : Q := remainingBudget_ (controller w).

Definition chunk w : Q := lastGrantedChunk_ (controller w).

Definition timeBase w : Q := virtualTimeBase_ (controller w).

(** A chunk is in flight: the browser is consuming the budget that
    [scheduleNextChunk_] computed from the present state. *)
Definition in_flight w : Prop :=
  outstanding w = Some (chunk w) /\ chunk w = next_chunk (controller w).

(** [completes n w]: a chunk is in flight in [w] and the grant it belongs
    to is used up by the [n]-th budget-expiry event from [w], not before. *)
Inductive completes : nat -> world CB -> Prop :=
| completes_last w :
    in_flight w -> remaining w - chunk w == 0 -> completes 1 w
| completes_more n w :
    in_flight w -> ~ remaining w - chunk w == 0 ->
    0 < chunk w -> chunk w < remaining w ->
    completes n (exec BudgetExpired w) -> completes (S n) w.


Definition is_initial o : bool :=
  match o with GrantInitialTime _ _ _ _ _ => true | _ => false end.


End Descriptions.

(** The number written in decimal at the start of a string; it ends at the
    first character that is not a digit. *)
Definition digit_value (c : ascii) : option N :=
  let code := N_of_ascii c in
  if (48 <=? code)%N && (code <=? 57)%N then Some (code - 48)%N else None.

Fixpoint read_number (acc : N) (s : string) : N :=
  match s with
  | EmptyString => acc
  | String c s' =>
      match digit_value c with
      | Some d => read_number (10 * acc + d) s'
      | None => acc
      end
  end.

Fixpoint drop_chars (n : nat) (s : string) : string :=
  match n, s with
  | O, _ => s
  | S n', String _ s' => drop_chars n' s'
  | S _, EmptyString => EmptyString
  end.

(** The sequence number in the name of a frame file: what ffmpeg's
    [frame-%07d] pattern reads. *)
Definition frame_number (name : string) : N :=
  read_number 0 (drop_chars 6 name).

Definition is_installation (e : event) : bool :=
  match e with
  | Protocol (Call_onInstalled _ _) | Page_navigate _ => true
  | _ => false
  end.

(** Events that are neither a capture, nor the end of the run, nor a file
    written, nor part of the installation. *)
Definition quiet (evs : list event) : Prop :=
  captures evs = 0%nat
  /\ existsb is_kill evs = false
  /\ omap written evs = []
  /\ List.filter is_installation evs = [].

(** The frame times of the screenshot requests of a run, oldest first. *)
Definition run_capture_time (e : event) : option Q :=
  match e with
  | Protocol eff => capture_time eff
  | _ => None
  end.

Definition run_capture_times (t : list event) : list Q :=
  omap run_capture_time t.

(** What is sent to the browser or called by the controller. *)
Definition is_protocol (e : event) : bool :=
  match e with Protocol _ => true | _ => false end.


Section RunDescriptions.
Variable argv : Argv.
Variable browser : Browser.

(** The state of the run once [timeExpired] has captured a frame, written
    it and counted it. *)
Definition captured (s : session) : session :=
  {| page :=
       exec (CaptureScreenshot (screenshotOptions argv)
               (render browser (currentFrameTime (controller (page s)))))
            (page s);
     frameCounter := (frameCounter s + 1)%Z;
     allFrameFilenames :=
       allFrameFilenames s
       ++ [frameFilename (frameCounter s) (format (screenshotOptions argv))];
     files :=
       <[frameFilename (frameCounter s) (format (screenshotOptions argv))
         := render browser (currentFrameTime (controller (page s)))]>
       (files s);
     threw := threw s;
     timeline :=
       ((timeline s
         ++ [Protocol (HeadlessExperimental_beginFrame
                         (currentFrameTime (controller (page s))) None
                         (Some (screenshotOptions argv)))])
        ++ [fs_writeFileSync
              (frameFilename (frameCounter s) (format (screenshotOptions argv)))
              (render browser (currentFrameTime (controller (page s))))])
       ++ [console_log_filenames
             (allFrameFilenames s
              ++ [frameFilename (frameCounter s)
                    (format (screenshotOptions argv))])] |}.

(** The number of frames that a run captures: the frame count asked for,
    rounded up, and one at least. *)
Definition frames_captured : Z :=
  Z.max 1 (Qceiling (totalFramesToCapture argv)).

(** The names of the first [k] frames. *)
Definition frame_names (k : Z) : list string :=
  (fun j => frameFilename j (format (screenshotOptions argv))) <$> seqZ 1 k.

(** The installation, as the events of a run show it. *)
Definition installation : list event :=
  [Protocol (Call_onInstalled cb_onInstalled (virtualTimeTicksBase browser));
   Page_navigate (targetUrl argv)].

(** [k] frames have been captured and the grant that leads to the next
    one is under way. *)
Record capturing (k : Z) (s : session) : Prop := {
  cap_flight : in_flight (page s);
  cap_interval : 0 < interval (page s);
  cap_onExpired : onExpired_ (controller (page s)) = Some cb_timeExpired;
  cap_onInstalled : onInstalled_ (controller (page s)) = None;
  cap_counter : frameCounter s = (k + 1)%Z;
  cap_names : allFrameFilenames s = frame_names k;
  cap_captures : captures (timeline s) = Z.to_nat k;
  cap_finished : finished s = false;
  cap_threw : threw s = false;
  cap_files : forall n, n ∈ frame_names k -> is_Some (files s !! n);
  cap_written : omap written (timeline s) = frame_names k;
  cap_installation : List.filter is_installation (timeline s) = installation;
}.

(** [k] frames have been captured and the run is over. *)
Record completed (k : Z) (s : session) : Prop := {
  done_idle : outstanding (page s) = None;
  done_counter : frameCounter s = (k + 1)%Z;
  done_names : allFrameFilenames s = frame_names k;
  done_captures : captures (timeline s) = Z.to_nat k;
  done_finished : finished s = true;
  done_threw : threw s = false;
  done_written : omap written (timeline s) = frame_names k;
  done_installation : List.filter is_installation (timeline s) = installation;
  done_kept :
    noVideo argv = false \/ keepFrames argv = true ->
    forall n, n ∈ frame_names k -> is_Some (files s !! n);
  done_deleted :
    noVideo argv = true -> keepFrames argv = false ->
    forall n, n ∈ frame_names k -> files s !! n = None;
}.

(** The virtual time at which frame [j] is captured: the time base of the
    browser, the initial millisecond and [j] intervals between frames, and
    0.01 ms for each frame captured before. *)
Definition frame_time (j : Z) : Q :=
  virtualTimeTicksBase browser + inject_Z (j - 1) * 0.01
  + (1 + inject_Z j * timeBetweenFramesInMilliseconds argv).



End RunDescriptions.

(** ** Sample inputs *)

Definition sample_browser : Browser :=
  {| virtualTimeTicksBase := 10000; render := fun _ => "" |}.

(** Frames only, in [png], for a frame count that is not whole. *)
Definition frames_only_argv : Argv :=
  {| width := 300; height := 300; frameInterval := 40;
     url := "http://localhost/"; frameCount := 2.5;
     outputFilename := "output.mp4"; screenshotFormat := png;
     screenshotJpegQuality := 85; noVideo := true; keepFrames := false |}.

(** A session at the end of which frame 2 of three has gone from the
    disk. *)
Definition sample_disk : session :=
  {| page := new_world (constructor None None); frameCounter := 4;
     allFrameFilenames :=
       ["frame-0000001.jpg"; "frame-0000002.jpg"; "frame-0000003.jpg"];
     files := {[ "frame-0000001.jpg" := "1"; "frame-0000003.jpg" := "3" ]};
     threw := false; timeline := [] |}.

(** * The same program over binary64 numbers *)

Module B64.

(** ** JavaScript numbers as IEEE-754 doubles

    A finite double is the rational it denotes, kept in lowest terms; the
    two zeros are not told apart (the program compares numbers with
    [===], [<] and [>], for which they are equal, and sends them as JSON,
    where both are written [0]).  Every arithmetic operation rounds its
    exact result to the nearest double, ties to the even mantissa, and
    overflows to an infinity. *)
Inductive number : Type :=
| Finite (q : Q)
| Infinity (negative : bool)
| NaN.

Definition pow2 (e : Z) : Q := Qpower 2 e.

(** The exponent of the binade of [q]: [2 ^ ilog2 q <= |q| < 2 ^ (ilog2 q + 1)]. *)
Definition ilog2 (q : Q) : Z :=
  let l := (Z.log2 (Z.abs (Qnum q)) - Z.log2 (Zpos (Qden q)))%Z in
  if Qle_bool (pow2 l) (Qabs q) then l else (l - 1)%Z.

(** Rounding to the nearest integer, ties to even. *)
Definition rne (y : Q) : Z :=
  let f := Qfloor y in
  match Qcompare (y - inject_Z f) (1 # 2) with
  | Lt => f
  | Gt => (f + 1)%Z
  | Eq => if Z.even f then f else (f + 1)%Z
  end.

(** The exponent of the last bit of a double in the binade of [q]: 53
    bits of mantissa, subnormal numbers below [2 ^ -1022]. *)
Definition fexp (q : Q) : Z := Z.max (ilog2 q - 52) (-1074).

Definition negative (q : Q) : bool := negb (Qle_bool 0 q).

(** The double nearest to [x]. *)
Definition round (x : Q) : number :=
  let q := Qred x in
  if Qeq_bool q 0 then Finite 0
  else
    let e := fexp q in
    let r := inject_Z (rne (q / pow2 e)) * pow2 e in
    if Qle_bool (pow2 1024) (Qabs r) then Infinity (negative q)
    else Finite (Qred r).

(** A whole number as a double (exact up to [2 ^ 53]). *)
Definition int (z : Z) : number := Finite (inject_Z z).

(** [x + y], [x - y], [x * y], [x / y].  A zero divisor is taken to be
    [+0]: its sign is the one thing that the zeros, not being told
    apart, leave out. *)
Definition add (x y : number) : number :=
  match x, y with
  | NaN, _ | _, NaN => NaN
  | Infinity s, Infinity s' => if Bool.eqb s s' then x else NaN
  | Infinity _, Finite _ => x
  | Finite _, Infinity _ => y
  | Finite a, Finite b => round (a + b)
  end.

Definition sub (x y : number) : number :=
  match x, y with
  | NaN, _ | _, NaN => NaN
  | Infinity s, Infinity s' => if Bool.eqb s s' then NaN else x
  | Infinity _, Finite _ => x
  | Finite _, Infinity s => Infinity (negb s)
  | Finite a, Finite b => round (a - b)
  end.

Definition mul (x y : number) : number :=
  match x, y with
  | NaN, _ | _, NaN => NaN
  | Infinity s, Infinity s' => Infinity (xorb s s')
  | Infinity s, Finite b =>
      if Qeq_bool b 0 then NaN else Infinity (xorb s (negative b))
  | Finite a, Infinity s =>
      if Qeq_bool a 0 then NaN else Infinity (xorb (negative a) s)
  | Finite a, Finite b => round (a * b)
  end.

Definition div (x y : number) : number :=
  match x, y with
  | NaN, _ | _, NaN => NaN
  | Infinity _, Infinity _ => NaN
  | Infinity s, Finite b => Infinity (xorb s (negative b))
  | Finite _, Infinity _ => Finite 0
  | Finite a, Finite b =>
      if Qeq_bool b 0 then
        if Qeq_bool a 0 then NaN else Infinity (negative a)
      else round (a / b)
  end.

(** [x % y]: the remainder of the division truncated towards zero, which
    is exact. *)
Definition rem (x y : number) : number :=
  match x, y with
  | NaN, _ | _, NaN => NaN
  | Infinity _, _ => NaN
  | Finite _, Infinity _ => x
  | Finite a, Finite b =>
      if Qeq_bool b 0 then NaN
      else Finite (Qred (a - b * inject_Z (JS.Qtrunc (a / b))))
  end.

(** The order of two numbers; [NaN] compares with nothing. *)
Definition compare (x y : number) : option comparison :=
  match x, y with
  | NaN, _ | _, NaN => None
  | Infinity s, Infinity s' =>
      Some (if Bool.eqb s s' then Eq else if s then Lt else Gt)
  | Infinity s, Finite _ => Some (if s then Lt else Gt)
  | Finite _, Infinity s => Some (if s then Gt else Lt)
  | Finite a, Finite b => Some (Qcompare a b)
  end.

(** [x === y], [x < y], [x > y]. *)
Definition eqb (x y : number) : bool :=
  match compare x y with Some Eq => true | _ => false end.
Definition ltb (x y : number) : bool :=
  match compare x y with Some Lt => true | _ => false end.
Definition gtb (x y : number) : bool :=
  match compare x y with Some Gt => true | _ => false end.

(** [Math.min(x, y)]. *)
Definition min (x y : number) : number :=
  match compare x y with
  | None => NaN
  | Some Gt => y
  | Some _ => x
  end.

(** Truthiness of a number: [if (x)], [x || d]. *)
Definition truthy (x : number) : bool :=
  match x with
  | Finite q => negb (Qeq_bool q 0)
  | Infinity _ => true
  | NaN => false
  end.

(** [x || d] for an optional numeric parameter. *)
Definition or_default (x : option number) (d : number) : number :=
  match x with
  | Some v => if truthy v then v else d
  | None => d
  end.

(** [x.toString()] for a whole number below [10 ^ 21] in absolute value,
    which is all that [frameCounter] ever is. *)
Definition toString (x : number) : string :=
  match x with
  | Finite q => pretty (Qfloor q)
  | Infinity s => if s then "-Infinity" else "Infinity"
  | NaN => "NaN"
  end.

(** The literal [0.01]: the double nearest to one hundredth. *)
Definition literal_0_01 : number := round (1 # 100).

(** The doubles of Rocq's kernel as numbers. *)
Definition of_SF (x : spec_float) : number :=
  match x with
  | S754_zero _ => Finite 0
  | S754_infinity s => Infinity s
  | S754_nan => NaN
  | S754_finite s m e =>
      Finite (Qred (inject_Z (if s then Zneg m else Zpos m) * pow2 e))
  end.

Definition of_float (f : float) : number := of_SF (Prim2SF f).

(** ** The DevTools protocol as seen by the controller *)

Record ScreenshotOptions : Type := {
  format : ScreenshotFormat;
  quality : option number;
}.

Inductive effect {CB : Type} : Type :=
| (** [Emulation.setVirtualTimePolicy({initialVirtualTime, policy: 'pause'})] *)
  Emulation_pause (initialVirtualTime : number)
| (** [Emulation.setVirtualTimePolicy({policy: 'pauseIfNetworkFetchesPending',
      budget, maxVirtualTimeTaskStarvationCount, waitForNavigation})] *)
  Emulation_setVirtualTimePolicy
    (budget : number) (maxVirtualTimeTaskStarvationCount : number)
    (waitForNavigation : bool)
| (** [HeadlessExperimental.beginFrame({frameTimeTicks, noDisplayUpdates,
      screenshot})]; an absent field is [None]. *)
  HeadlessExperimental_beginFrame
    (frameTimeTicks : number) (noDisplayUpdates : option bool)
    (screenshot : option ScreenshotOptions)
| (** [this.onInstalled_(virtualTimeBase)] *)
  Call_onInstalled (cb : CB) (virtualTimeBase : number)
| (** [this.onExpired_(totalElapsedTime)] *)
  Call_onExpired (cb : CB) (totalElapsedTime : number).
Arguments effect : clear implicits.

(** ** The class [VirtualTimeController] *)

Record VirtualTimeController {CB : Type} : Type := {
  animationFrameInterval_ : number;
  maxTaskStarvationCount_ : number;
  virtualTimeBase_ : number;
  remainingBudget_ : number;
  lastGrantedChunk_ : number;
  totalElapsedTime_ : number;
  onInstalled_ : option CB;
  onExpired_ : option CB;
}.
Arguments VirtualTimeController : clear implicits.

Section Controller.
Context {CB : Type}.

Definition set_virtualTimeBase_ (v : number) (c : VirtualTimeController CB) : VirtualTimeController CB :=
  {| animationFrameInterval_ := animationFrameInterval_ c;
     maxTaskStarvationCount_ := maxTaskStarvationCount_ c;
     virtualTimeBase_ := v;
     remainingBudget_ := remainingBudget_ c;
     lastGrantedChunk_ := lastGrantedChunk_ c;
     totalElapsedTime_ := totalElapsedTime_ c;
     onInstalled_ := onInstalled_ c;
     onExpired_ := onExpired_ c |}.

Definition set_remainingBudget_ (v : number) (c : VirtualTimeController CB) : VirtualTimeController CB :=
  {| animationFrameInterval_ := animationFrameInterval_ c;
     maxTaskStarvationCount_ := maxTaskStarvationCount_ c;
     virtualTimeBase_ := virtualTimeBase_ c;
     remainingBudget_ := v;
     lastGrantedChunk_ := lastGrantedChunk_ c;
     totalElapsedTime_ := totalElapsedTime_ c;
     onInstalled_ := onInstalled_ c;
     onExpired_ := onExpired_ c |}.

Definition set_lastGrantedChunk_ (v : number) (c : VirtualTimeController CB) : VirtualTimeController CB :=
  {| animationFrameInterval_ := animationFrameInterval_ c;
     maxTaskStarvationCount_ := maxTaskStarvationCount_ c;
     virtualTimeBase_ := virtualTimeBase_ c;
     remainingBudget_ := remainingBudget_ c;
     lastGrantedChunk_ := v;
     totalElapsedTime_ := totalElapsedTime_ c;
     onInstalled_ := onInstalled_ c;
     onExpired_ := onExpired_ c |}.

Definition set_totalElapsedTime_ (v : number) (c : VirtualTimeController CB) : VirtualTimeController CB :=
  {| animationFrameInterval_ := animationFrameInterval_ c;
     maxTaskStarvationCount_ := maxTaskStarvationCount_ c;
     virtualTimeBase_ := virtualTimeBase_ c;
     remainingBudget_ := remainingBudget_ c;
     lastGrantedChunk_ := lastGrantedChunk_ c;
     totalElapsedTime_ := v;
     onInstalled_ := onInstalled_ c;
     onExpired_ := onExpired_ c |}.

Definition set_onInstalled_ (v : option CB) (c : VirtualTimeController CB) : VirtualTimeController CB :=
  {| animationFrameInterval_ := animationFrameInterval_ c;
     maxTaskStarvationCount_ := maxTaskStarvationCount_ c;
     virtualTimeBase_ := virtualTimeBase_ c;
     remainingBudget_ := remainingBudget_ c;
     lastGrantedChunk_ := lastGrantedChunk_ c;
     totalElapsedTime_ := totalElapsedTime_ c;
     onInstalled_ := v;
     onExpired_ := onExpired_ c |}.

Definition set_onExpired_ (v : option CB) (c : VirtualTimeController CB) : VirtualTimeController CB :=
  {| animationFrameInterval_ := animationFrameInterval_ c;
     maxTaskStarvationCount_ := maxTaskStarvationCount_ c;
     virtualTimeBase_ := virtualTimeBase_ c;
     remainingBudget_ := remainingBudget_ c;
     lastGrantedChunk_ := lastGrantedChunk_ c;
     totalElapsedTime_ := totalElapsedTime_ c;
     onInstalled_ := onInstalled_ c;
     onExpired_ := v |}.

Definition M (X : Type) : Type :=
  VirtualTimeController CB -> X * VirtualTimeController CB * list (effect CB).

Definition ret {X : Type} (x : X) : M X := fun c => (x, c, []).

Definition bind {X Y : Type} (m : M X) (k : X -> M Y) : M Y :=
  fun c =>
    match m c with
    | (x, c1, effects1) =>
        match k x c1 with
        | (y, c2, effects2) => (y, c2, effects1 ++ effects2)
        end
    end.

Definition this : M (VirtualTimeController CB) := fun c => (c, c, []).
Definition assign (f : VirtualTimeController CB -> VirtualTimeController CB)
  : M unit :=
  fun c => (tt, f c, []).
Definition perform (e : effect CB) : M unit := fun c => (tt, c, [e]).

#[export] Instance M_ret : MRet M := @ret.
#[export] Instance M_bind : MBind M := fun X Y k m => bind m k.

Definition constructor (animationFrameInterval maxTaskStarvationCount : option number)
  : VirtualTimeController CB :=
  {| animationFrameInterval_ := or_default animationFrameInterval (int 16);
     maxTaskStarvationCount_ :=
       or_default maxTaskStarvationCount (mul (int 100) (int 1000));
     virtualTimeBase_ := int 0;
     remainingBudget_ := int 0;
     lastGrantedChunk_ := int 0;
     totalElapsedTime_ := int 0;
     onInstalled_ := None;
     onExpired_ := None |}.

Definition scheduleNextChunk_ : M unit :=
  c ← this;
  let lastFrame := rem (totalElapsedTime_ c) (animationFrameInterval_ c) in
  let nextAnimationFrame := sub (animationFrameInterval_ c) lastFrame in
  let chunk := min nextAnimationFrame (remainingBudget_ c) in
  perform (Emulation_setVirtualTimePolicy chunk (maxTaskStarvationCount_ c)
             (eqb (totalElapsedTime_ c) (int 0)));;
  assign (set_lastGrantedChunk_ chunk);;
  c ← this;
  match onInstalled_ c with
  | Some cb =>
      perform (Call_onInstalled cb (virtualTimeBase_ c));;
      assign (set_onInstalled_ None)
  | None => ret tt
  end.

Definition issueAnimationFrameAndScheduleNextChunk_ : M unit :=
  c ← this;
  (if gtb (totalElapsedTime_ c) (int 0) && gtb (remainingBudget_ c) (int 0) then
     let remainder :=
       rem (totalElapsedTime_ c) (animationFrameInterval_ c) in
     if eqb remainder (int 0) then
       let frameTimeTicks := add (virtualTimeBase_ c) (totalElapsedTime_ c) in
       perform (HeadlessExperimental_beginFrame frameTimeTicks (Some true) None)
     else ret tt
   else ret tt);;
  scheduleNextChunk_.

(** The handler of [Emulation.virtualTimeBudgetExpired] that the
    constructor registers. *)
Definition virtualTimeBudgetExpired : M unit :=
  c ← this;
  assign (set_totalElapsedTime_ (add (totalElapsedTime_ c) (lastGrantedChunk_ c)));;
  c ← this;
  assign (set_remainingBudget_ (sub (remainingBudget_ c) (lastGrantedChunk_ c)));;
  c ← this;
  if eqb (remainingBudget_ c) (int 0) then
    match onExpired_ c with
    | Some cb => perform (Call_onExpired cb (totalElapsedTime_ c))
    | None => ret tt
    end
  else issueAnimationFrameAndScheduleNextChunk_.

Definition grantTime (budget : number) (onExpired : CB) : M unit :=
  assign (set_remainingBudget_ budget);;
  assign (set_onExpired_ (Some onExpired));;
  issueAnimationFrameAndScheduleNextChunk_.

Definition grantInitialTime (budget initialVirtualTime : number)
    (onInstalled onExpired : CB) (virtualTimeTicksBase : number) : M unit :=
  perform (Emulation_pause initialVirtualTime);;
  assign (set_virtualTimeBase_ virtualTimeTicksBase);;
  c ← this;
  perform (HeadlessExperimental_beginFrame (virtualTimeBase_ c) (Some false) None);;
  assign (set_onInstalled_ (Some onInstalled));;
  grantTime budget onExpired.

Definition currentFrameTime (c : VirtualTimeController CB) : number :=
  add (virtualTimeBase_ c) (totalElapsedTime_ c).

Definition elapsedTime (c : VirtualTimeController CB) : number :=
  totalElapsedTime_ c.

Definition stopVirtualTimeGracefully : M unit :=
  c ← this;
  if truthy (remainingBudget_ c) then assign (set_remainingBudget_ (int 0))
  else ret tt.

(** [screenshotData] is the picture in the reply of the browser, if the
    reply carries one; without one [Buffer.from] throws, which is the
    result [None]: the time base has been moved all the same. *)
Definition captureScreenshot (options : ScreenshotOptions)
    (screenshotData : option string) : M (option string) :=
  c ← this;
  let frameTimeTicks := currentFrameTime c in
  perform (HeadlessExperimental_beginFrame frameTimeTicks None (Some options));;
  c ← this;
  assign (set_virtualTimeBase_ (add (virtualTimeBase_ c) literal_0_01));;
  ret screenshotData.

End Controller.

(** ** The controller and the browser together *)

Record world {CB : Type} : Type := {
  controller : VirtualTimeController CB;
  outstanding : option number;
  trace : list (effect CB);
}.
Arguments world : clear implicits.

Inductive op {CB : Type} : Type :=
| GrantInitialTime (budget initialVirtualTime : number) (onInstalled onExpired : CB)
    (virtualTimeTicksBase : number)
| GrantTime (budget : number) (onExpired : CB)
| BudgetExpired
| StopVirtualTimeGracefully
| CaptureScreenshot (options : ScreenshotOptions)
    (screenshotData : option string).
Arguments op : clear implicits.

Section World.
Context {CB : Type}.

Definition browser_receive (o : option number) (e : effect CB) : option number :=
  match e with
  | Emulation_pause _ => None
  | Emulation_setVirtualTimePolicy budget _ _ => Some budget
  | _ => o
  end.

Definition call {X : Type} (m : M X) (w : world CB)
  : X * list (effect CB) * world CB :=
  let r := m (controller w) in
  (fst (fst r), snd r,
   {| controller := snd (fst r);
      outstanding := foldl browser_receive (outstanding w) (snd r);
      trace := trace w ++ snd r |}).

Definition budget_consumed (w : world CB) : world CB :=
  {| controller := controller w; outstanding := None; trace := trace w |}.

Definition exec (o : op CB) (w : world CB) : world CB :=
  match o with
  | GrantInitialTime budget initialVirtualTime onInstalled onExpired base =>
      snd (call (grantInitialTime budget initialVirtualTime
                   onInstalled onExpired base) w)
  | GrantTime budget onExpired => snd (call (grantTime budget onExpired) w)
  | BudgetExpired => snd (call virtualTimeBudgetExpired (budget_consumed w))
  | StopVirtualTimeGracefully => snd (call stopVirtualTimeGracefully w)
  | CaptureScreenshot options data =>
      snd (call (captureScreenshot options data) w)
  end.

Definition exec_all (ops : list (op CB)) (w : world CB) : world CB :=
  foldl (fun w o => exec o w) w ops.

Definition expire (n : nat) (w : world CB) : world CB :=
  Nat.iter n (exec BudgetExpired) w.

Definition new_world (c : VirtualTimeController CB) : world CB :=
  {| controller := c; outstanding := None; trace := [] |}.

Definition policy_budget (e : effect CB) : option number :=
  match e with
  | Emulation_setVirtualTimePolicy budget _ _ => Some budget
  | _ => None
  end.

Definition chunks (t : list (effect CB)) : list number := omap policy_budget t.

Definition capture_time (e : effect CB) : option number :=
  match e with
  | HeadlessExperimental_beginFrame t _ (Some _) => Some t
  | _ => None
  end.

Definition capture_times (t : list (effect CB)) : list number :=
  omap capture_time t.

Definition is_onInstalled (e : effect CB) : bool :=
  match e with Call_onInstalled _ _ => true | _ => false end.

Definition is_onExpired (e : effect CB) : bool :=
  match e with Call_onExpired _ _ => true | _ => false end.

Definition is_grant (o : op CB) : bool :=
  match o with
  | GrantInitialTime _ _ _ _ _ | GrantTime _ _ => true
  | _ => false
  end.

Definition budget_of (o : op CB) : number :=
  match o with
  | GrantInitialTime budget _ _ _ _ => budget
  | GrantTime budget _ => budget
  | _ => int 0
  end.

Definition onExpired_of (o : op CB) : option CB :=
  match o with
  | GrantInitialTime _ _ _ cb _ | GrantTime _ cb => Some cb
  | _ => None
  end.

End World.

(** ** Descriptions of states and traces used in the statements *)

Section Descriptions.
Context {CB : Type}.
Implicit Types (c : VirtualTimeController CB) (w : world CB) (o : op CB).

(** The size of the chunk that [scheduleNextChunk_] computes in [c]. *)
Definition next_chunk c : number :=
  min (sub (animationFrameInterval_ c)
           (rem (totalElapsedTime_ c) (animationFrameInterval_ c)))
      (remainingBudget_ c).

Definition scheduled c : VirtualTimeController CB :=
  set_onInstalled_ None (set_lastGrantedChunk_ (next_chunk c) c).

Definition installed_call c : list (effect CB) :=
  match onInstalled_ c with
  | Some cb => [Call_onInstalled cb (virtualTimeBase_ c)]
  | None => []
  end.

Definition schedule_effects c : list (effect CB) :=
  Emulation_setVirtualTimePolicy (next_chunk c) (maxTaskStarvationCount_ c)
    (eqb (totalElapsedTime_ c) (int 0)) :: installed_call c.

Definition frame_effects c : list (effect CB) :=
  if gtb (totalElapsedTime_ c) (int 0) && gtb (remainingBudget_ c) (int 0) then
    if eqb (rem (totalElapsedTime_ c) (animationFrameInterval_ c)) (int 0)
    then [HeadlessExperimental_beginFrame
            (add (virtualTimeBase_ c) (totalElapsedTime_ c)) (Some true) None]
    else []
  else [].

(** The bookkeeping of the expiry handler. *)
Definition advanced c : VirtualTimeController CB :=
  set_remainingBudget_ (sub (remainingBudget_ c) (lastGrantedChunk_ c))
    (set_totalElapsedTime_ (add (totalElapsedTime_ c) (lastGrantedChunk_ c)) c).

Definition expired_call c : list (effect CB) :=
  match onExpired_ c with
  | Some cb => [Call_onExpired cb (totalElapsedTime_ c)]
  | None => []
  end.

Definition granting (budget : number) (onExpired : CB) c
  : VirtualTimeController CB :=
  set_onExpired_ (Some onExpired) (set_remainingBudget_ budget c).

Definition interval w : number := animationFrameInterval_ (controller w).
Definition elapsed w : number := totalElapsedTime_ (controller w).
Definition remaining w : number := remainingBudget_ (controller w).
Definition chunk w : number := lastGrantedChunk_ (controller w).
Definition timeBase w : number := virtualTimeBase_ (controller w).

(** A chunk is in flight: the browser is consuming the budget that
    [scheduleNextChunk_] computed from the present state. *)
Definition in_flight w : Prop :=
  outstanding w = Some (chunk w) /\ chunk w = next_chunk (controller w).

(** [completes n w]: a chunk is in flight in [w] and the handler finds
    the remaining budget [=== 0] at the [n]-th budget-expiry event from
    [w], not before. *)
Inductive completes : nat -> world CB -> Prop :=
| completes_last w :
    in_flight w -> eqb (sub (remaining w) (chunk w)) (int 0) = true ->
    completes 1 w
| completes_more n w :
    in_flight w -> eqb (sub (remaining w) (chunk w)) (int 0) = false ->
    completes n (exec BudgetExpired w) -> completes (S n) w.

(** The chunks in flight in [w] and after each of the next [n - 1]
    expiries. *)
Fixpoint flight_chunks (n : nat) w : list number :=
  match n with
  | O => []
  | S n' => chunk w :: flight_chunks n' (exec BudgetExpired w)
  end.

Definition is_initial o : bool :=
  match o with GrantInitialTime _ _ _ _ _ => true | _ => false end.

Definition is_capture_call o : bool :=
  match o with CaptureScreenshot _ _ => true | _ => false end.

(** The whole number that a double is, if it is one. *)
Definition whole (x : number) : option Z :=
  match x with
  | Finite (z # 1) => Some z
  | _ => None
  end.

(** The chunk that [scheduleNextChunk_] computes for whole numbers:
    interval [A], elapsed time [e], remaining budget [r]. *)
Definition whole_chunk (A e r : Z) : Z := Z.min (A - e mod A) r.

(** The sum of a list of whole numbers. *)
Definition total (l : list Z) : Z := foldr Z.add 0%Z l.

(** The chunks of a grant on whole numbers, the one in flight first. *)
Fixpoint whole_chunks (fuel : nat) (A e r : Z) : list Z :=
  match fuel with
  | O => []
  | S fuel' =>
      let c := whole_chunk A e r in
      c :: (if (r - c =? 0)%Z then []
            else whole_chunks fuel' A (e + c) (r - c))
  end.

(** A grant under way on whole numbers that stay below [2 ^ 53]:
    interval [A], elapsed time [e] and remaining budget [r], with the
    chunk computed from them in flight. *)
Record whole_flight (A e r : Z) w : Prop := {
  whole_interval : interval w = int A;
  whole_elapsed : elapsed w = int e;
  whole_remaining : remaining w = int r;
  whole_in_flight : in_flight w;
  whole_A : (0 < A <= 2 ^ 53)%Z;
  whole_e : (0 <= e)%Z;
  whole_r : (0 <= r)%Z;
  whole_sum : (e + r <= 2 ^ 53)%Z;
}.

(** The discipline of a client that deals in whole milliseconds: a
    budget is a whole number that is not negative, and it is granted only
    once the previous one is used up; nothing is revoked while a budget
    remains; and the browser reports the expiry of a budget only if it
    was given one.  Screenshots may be taken at any time. *)
Definition allowed w o : bool :=
  match o with
  | GrantInitialTime budget _ _ _ _ | GrantTime budget _ =>
      match whole budget with
      | Some b => (0 <=? b)%Z
      | None => false
      end
      && eqb (remaining w) (int 0)
  | BudgetExpired => match outstanding w with Some _ => true | None => false end
  | StopVirtualTimeGracefully => eqb (remaining w) (int 0)
  | CaptureScreenshot _ _ => true
  end.

Fixpoint admissible w (ops : list (op CB)) : bool :=
  match ops with
  | [] => true
  | o :: rest => allowed w o && admissible (exec o w) rest
  end.

(** The budget a call grants, as a whole number. *)
Definition whole_budget o : Z :=
  match whole (budget_of o) with Some b => b | None => 0%Z end.

(** The cumulative sum of the budgets granted by a sequence of calls. *)
Definition granted (ops : list (op CB)) : Z := total (map whole_budget ops).

(** What the discipline maintains on whole numbers. *)
Record whole_sound (A e r : Z) w : Prop := {
  sound_interval : interval w = int A;
  sound_elapsed : elapsed w = int e;
  sound_remaining : remaining w = int r;
  sound_flight : forall b, outstanding w = Some b -> in_flight w;
  sound_A : (0 < A <= 2 ^ 53)%Z;
  sound_e : (0 <= e)%Z;
  sound_r : (0 <= r)%Z;
  sound_sum : (e + r <= 2 ^ 53)%Z;
}.

(** A grant of [10 ^ 18] ms under way with the default interval: the
    remaining budget is what was granted, or is no number any more. *)
Definition stalled w : Prop :=
  in_flight w /\ interval w = int 16
  /\ (remaining w = NaN
      \/ (remaining w = int (10 ^ 18)
          /\ (chunk w = NaN
              \/ exists q c : Q,
                   elapsed w = Finite q /\ chunk w = Finite c
                   /\ Qabs c <= 34))).

End Descriptions.

(** ** The capture loop of [run] *)

(** The command-line options ([argv]). *)
Record Argv : Type := {
  width : number;
  height : number;
  frameInterval : number;
  url : string;
  frameCount : number;
  outputFilename : string;
  screenshotFormat : ScreenshotFormat;
  screenshotJpegQuality : number;
  noVideo : bool;
  keepFrames : bool;
}.

Definition timeBetweenFramesInMilliseconds (argv : Argv) : number :=
  frameInterval argv.
Definition targetUrl (argv : Argv) : string := url argv.
Definition totalFramesToCapture (argv : Argv) : number := frameCount argv.
Definition outputMP4Filename (argv : Argv) : string := outputFilename argv.

Definition screenshotOptions (argv : Argv) : ScreenshotOptions :=
  match screenshotFormat argv with
  | jpeg => {| format := jpeg; quality := Some (screenshotJpegQuality argv) |}
  | png => {| format := png; quality := None |}
  end.

(** What the browser answers: the time base on the pause request and, on
    a screenshot request, the picture of the page at the frame time, if
    it sends one. *)
Record Browser : Type := {
  virtualTimeTicksBase : number;
  render : number -> option string;
}.

(** Everything [run] does that can be observed, in order.  The messages
    that print wall-clock durations carry no text. *)
Inductive event : Type :=
| Protocol (e : effect callback)
| Page_navigate (url : string)
| fs_writeFileSync (filename data : string)
| fs_unlinkSync (filename : string)
| console_log (message : string)
| console_log_filenames (filenames : list string)
| console_log_clock_time (virtualTime : number)
| console_log_encoding_time
| newTarget_close
| cri_close
| launchedChrome_kill
| ffmpeg_save (input : string) (inputFPS : number) (output : string).

(** The state of a run: the controller and the browser, the variables
    [frameCounter] and [allFrameFilenames] of the capture loop, the files
    on disk, whether an exception escaped, and the events so far. *)
Record session : Type := {
  page : world callback;
  frameCounter : number;
  allFrameFilenames : list string;
  files : gmap string string;
  threw : bool;
  timeline : list event;
}.

Definition set_page (w : world callback) (s : session) : session :=
  {| page := w; frameCounter := frameCounter s;
     allFrameFilenames := allFrameFilenames s; files := files s;
     threw := threw s; timeline := timeline s |}.

Definition set_frameCounter (n : number) (s : session) : session :=
  {| page := page s; frameCounter := n;
     allFrameFilenames := allFrameFilenames s; files := files s;
     threw := threw s; timeline := timeline s |}.

Definition set_allFrameFilenames (l : list string) (s : session) : session :=
  {| page := page s; frameCounter := frameCounter s;
     allFrameFilenames := l; files := files s;
     threw := threw s; timeline := timeline s |}.

Definition set_files (f : gmap string string) (s : session) : session :=
  {| page := page s; frameCounter := frameCounter s;
     allFrameFilenames := allFrameFilenames s; files := f;
     threw := threw s; timeline := timeline s |}.

Definition set_threw (b : bool) (s : session) : session :=
  {| page := page s; frameCounter := frameCounter s;
     allFrameFilenames := allFrameFilenames s; files := files s;
     threw := b; timeline := timeline s |}.

Definition record (evs : list event) (s : session) : session :=
  {| page := page s; frameCounter := frameCounter s;
     allFrameFilenames := allFrameFilenames s; files := files s;
     threw := threw s; timeline := timeline s ++ evs |}.

(** [`frame-${frameCounter.toString().padStart(7, '0')}.${...}`] *)
Definition frameFilename (frameCounter : number) (f : ScreenshotFormat)
  : string :=
  "frame-" +:+ padStart 7 "0" (toString frameCounter) +:+ "." +:+ extension f.

(** [fs.writeFileSync] creates or replaces a file. *)
Definition writeFileSync (filename data : string) (s : session) : session :=
  record [fs_writeFileSync filename data]
    (set_files (<[filename := data]> (files s)) s).

(** [fs.unlinkSync] removes a file and throws if there is none. *)
Definition unlinkSync (filename : string) (s : session) : session :=
  match files s !! filename with
  | Some _ =>
      record [fs_unlinkSync filename] (set_files (delete filename (files s)) s)
  | None => set_threw true s
  end.

(** [filenames.map(fs.unlinkSync)]: an exception ends the loop. *)
Fixpoint unlink_all (filenames : list string) (s : session) : session :=
  match filenames with
  | [] => s
  | f :: rest =>
      let s' := unlinkSync f s in
      if threw s' then s' else unlink_all rest s'
  end.

Section Run.
Variable argv : Argv.
Variable browser : Browser.

(** What the client does on a callback of the controller that it runs at
    once: the first arrow function starts the navigation. *)
Definition react (e : effect callback) : list event :=
  Protocol e ::
  match e with
  | Call_onInstalled cb_onInstalled _ => [Page_navigate (targetUrl argv)]
  | _ => []
  end.

(** A call of a method of the controller from [run]. *)
Definition invoke {X : Type} (m : M X) (s : session) : X * session :=
  let r := call m (page s) in
  (fst (fst r), record (flat_map react (snd (fst r))) (set_page (snd r) s)).

(** The ['error'] and ['end'] handlers of the encoder. *)
Definition on_ffmpeg (ev : ffmpeg_event) (s : session) : session :=
  match ev with
  | ffmpeg_error message =>
      record [console_log ("An error occurred: " +:+ message)] s
  | ffmpeg_end =>
      let s := record [console_log_encoding_time] s in
      if negb (keepFrames argv) then unlink_all (allFrameFilenames s) s else s
  end.

(** The [else] branch of [timeExpired]: the last frame has been
    captured.  An exception of [fs.unlinkSync] ends it before the last
    message. *)
Definition finish (s : session) : session :=
  let s := record [console_log "Finished capturing frames."] s in
  let virtualTime := elapsedTime (controller (page s)) in
  let s := record [console_log_clock_time virtualTime] s in
  let s := record [newTarget_close; cri_close; launchedChrome_kill] s in
  if negb (noVideo argv) then
    let s :=
      record [ffmpeg_save
                ("frame-%07d." +:+ extension (format (screenshotOptions argv)))
                (div (int 1000) (timeBetweenFramesInMilliseconds argv))
                (outputMP4Filename argv)] s in
    record [console_log "Finished"] s
  else if negb (keepFrames argv) then
    let s := unlink_all (allFrameFilenames s) s in
    if threw s then s else record [console_log "Finished"] s
  else record [console_log "Finished"] s.

(** A reply of the browser without a picture makes [captureScreenshot]
    throw, and [timeExpired] goes no further. *)
Definition timeExpired (s : session) : session :=
  let frameTimeTicks := currentFrameTime (controller (page s)) in
  let r := invoke (captureScreenshot (screenshotOptions argv)
                     (render browser frameTimeTicks)) s in
  match fst r with
  | None => set_threw true (snd r)
  | Some screen =>
      let s := snd r in
      let name :=
        frameFilename (frameCounter s) (format (screenshotOptions argv)) in
      let s := writeFileSync name screen s in
      let s := set_allFrameFilenames (allFrameFilenames s ++ [name]) s in
      let s := record [console_log_filenames (allFrameFilenames s)] s in
      let counter := frameCounter s in
      let s := set_frameCounter (add counter (int 1)) s in
      if ltb counter (totalFramesToCapture argv) then
        snd (invoke (grantTime (timeBetweenFramesInMilliseconds argv)
                       cb_timeExpired) s)
      else finish s
  end.

(** The second arrow function passed to [grantInitialTime]. *)
Definition onExpired (s : session) : session :=
  let s := set_frameCounter (int 1) s in
  let s := set_allFrameFilenames [] s in
  snd (invoke (grantTime (timeBetweenFramesInMilliseconds argv)
                 cb_timeExpired) s).

(** The client's side of [this.onExpired_(...)]. *)
Definition dispatch (s : session) (e : effect callback) : session :=
  match e with
  | Call_onExpired cb_onExpired _ => onExpired s
  | Call_onExpired cb_timeExpired _ => timeExpired s
  | _ => s
  end.

(** The browser reports that the budget has expired, which it does only
    for a budget it was given: the controller's handler runs, and then the
    callback it called, if it called one. *)
Definition budgetExpired (s : session) : session :=
  match outstanding (page s) with
  | None => s
  | Some _ =>
      let r := call virtualTimeBudgetExpired (budget_consumed (page s)) in
      let effects := snd (fst r) in
      foldl dispatch
        (record (flat_map react effects) (set_page (snd r) s)) effects
  end.

(** [run], from the creation of the controller on, with the files [fs]
    on disk. *)
Definition run (fs : gmap string string) : session :=
  let controller := constructor None None in
  let s := {| page := new_world controller; frameCounter := int 0;
              allFrameFilenames := []; files := fs; threw := false;
              timeline := [] |} in
  snd (invoke (grantInitialTime (int 1) (int 10000) cb_onInstalled cb_onExpired
                 (virtualTimeTicksBase browser)) s).

(** The run after [n] budget-expiry events. *)
Definition run_for (n : nat) (fs : gmap string string) : session :=
  Nat.iter n budgetExpired (run fs).

End Run.

(** Observations of a timeline. *)
Definition is_capture (e : event) : bool :=
  match e with
  | Protocol (HeadlessExperimental_beginFrame _ _ (Some _)) => true
  | _ => false
  end.

Definition captures (t : list event) : nat := length (List.filter is_capture t).

Definition written (e : event) : option string :=
  match e with fs_writeFileSync name _ => Some name | _ => None end.

Definition is_kill (e : event) : bool :=
  match e with launchedChrome_kill => true | _ => false end.

(** The run is over once the browser has been shut down. *)
Definition finished (s : session) : bool := existsb is_kill (timeline s).

Definition is_installation (e : event) : bool :=
  match e with
  | Protocol (Call_onInstalled _ _) | Page_navigate _ => true
  | _ => false
  end.

(** Events that are neither a capture, nor the end of the run, nor a file
    written, nor part of the installation. *)
Definition quiet (evs : list event) : Prop :=
  captures evs = 0%nat
  /\ existsb is_kill evs = false
  /\ omap written evs = []
  /\ List.filter is_installation evs = [].

(** The frame times of the screenshot requests of a run, oldest first. *)
Definition run_capture_time (e : event) : option number :=
  match e with
  | Protocol eff => capture_time eff
  | _ => None
  end.

Definition run_capture_times (t : list event) : list number :=
  omap run_capture_time t.

(** What is sent to the browser or called by the controller. *)
Definition is_protocol (e : event) : bool :=
  match e with Protocol _ => true | _ => false end.

Section RunDescriptions.
Variable argv : Argv.
Variable browser : Browser.

(** The state of the run once [timeExpired] has captured a frame with
    the picture [screen], written it and counted it. *)
Definition captured (screen : string) (s : session) : session :=
  {| page :=
       exec (CaptureScreenshot (screenshotOptions argv)
               (render browser (currentFrameTime (controller (page s)))))
            (page s);
     frameCounter := add (frameCounter s) (int 1);
     allFrameFilenames :=
       allFrameFilenames s
       ++ [frameFilename (frameCounter s) (format (screenshotOptions argv))];
     files :=
       <[frameFilename (frameCounter s) (format (screenshotOptions argv))
         := screen]>
       (files s);
     threw := threw s;
     timeline :=
       ((timeline s
         ++ [Protocol (HeadlessExperimental_beginFrame
                         (currentFrameTime (controller (page s))) None
                         (Some (screenshotOptions argv)))])
        ++ [fs_writeFileSync
              (frameFilename (frameCounter s) (format (screenshotOptions argv)))
              screen])
       ++ [console_log_filenames
             (allFrameFilenames s
              ++ [frameFilename (frameCounter s)
                    (format (screenshotOptions argv))])] |}.

(** The number of frames that a run captures when it is asked for [q]:
    [q] rounded up, and one at least. *)
Definition frames_captured (q : Q) : Z := Z.max 1 (Qceiling q).

(** The names of the first [k] frames. *)
Definition frame_names (k : Z) : list string :=
  (fun j => frameFilename (int j) (format (screenshotOptions argv)))
    <$> seqZ 1 k.

(** The installation, as the events of a run show it. *)
Definition installation : list event :=
  [Protocol (Call_onInstalled cb_onInstalled (virtualTimeTicksBase browser));
   Page_navigate (targetUrl argv)].

(** The time base once [k] frames have been captured: [0.01] has been
    added [k] times to the time base of the browser, each sum rounded. *)
Definition time_base_after (k : nat) : number :=
  Nat.iter k (fun t => add t literal_0_01) (virtualTimeTicksBase browser).

(** The virtual time at which frame [j] is captured when the frames are
    [F] ms apart: the time base after [j - 1] frames plus the initial
    millisecond and [j] intervals, rounded. *)
Definition frame_time (F : Z) (j : Z) : number :=
  add (time_base_after (Z.to_nat (j - 1))) (int (1 + j * F)).

(** [k] frames, [F] ms apart, have been captured at their times and are
    on disk with the pictures the browser sent, the other files are as
    they were in [fs], and the grant that leads to the next frame is
    under way. *)
Record capturing (fs : gmap string string) (F k : Z) (s : session) : Prop := {
  cap_flight : whole_flight 16 (1 + k * F) F (page s);
  cap_base : timeBase (page s) = time_base_after (Z.to_nat k);
  cap_onExpired : onExpired_ (controller (page s)) = Some cb_timeExpired;
  cap_onInstalled : onInstalled_ (controller (page s)) = None;
  cap_counter : frameCounter s = int (k + 1);
  cap_names : allFrameFilenames s = frame_names k;
  cap_captures : captures (timeline s) = Z.to_nat k;
  cap_finished : finished s = false;
  cap_threw : threw s = false;
  cap_written : omap written (timeline s) = frame_names k;
  cap_installation : List.filter is_installation (timeline s) = installation;
  cap_times :
    run_capture_times (timeline s) = frame_time F <$> seqZ 1 k;
  cap_other : forall x, x ∉ frame_names k -> files s !! x = fs !! x;
  cap_files :
    forall j, (1 <= j <= k)%Z ->
      files s !! frameFilename (int j) (format (screenshotOptions argv))
      = render browser (frame_time F j);
}.

(** [k] frames have been captured and counted, and no grant is under
    way: the state in which [timeExpired] decides how to go on. *)
Record shot (fs : gmap string string) (F k : Z) (s : session) : Prop := {
  shot_idle : outstanding (page s) = None;
  shot_interval : interval (page s) = int 16;
  shot_elapsed : elapsed (page s) = int (1 + k * F);
  shot_base : timeBase (page s) = time_base_after (Z.to_nat k);
  shot_onInstalled : onInstalled_ (controller (page s)) = None;
  shot_counter : frameCounter s = int (k + 1);
  shot_names : allFrameFilenames s = frame_names k;
  shot_captures : captures (timeline s) = Z.to_nat k;
  shot_finished : finished s = false;
  shot_threw : threw s = false;
  shot_written : omap written (timeline s) = frame_names k;
  shot_installation : List.filter is_installation (timeline s) = installation;
  shot_times :
    run_capture_times (timeline s) = frame_time F <$> seqZ 1 k;
  shot_other : forall x, x ∉ frame_names k -> files s !! x = fs !! x;
  shot_files :
    forall j, (1 <= j <= k)%Z ->
      files s !! frameFilename (int j) (format (screenshotOptions argv))
      = render browser (frame_time F j);
}.

(** [k] frames have been captured and the run is over, the browser shut
    down after the last frame was written and the elapsed time logged. *)
Record completed (fs : gmap string string) (F k : Z) (s : session) : Prop := {
  done_idle : outstanding (page s) = None;
  done_elapsed : elapsed (page s) = int (1 + k * F);
  done_counter : frameCounter s = int (k + 1);
  done_names : allFrameFilenames s = frame_names k;
  done_captures : captures (timeline s) = Z.to_nat k;
  done_finished : finished s = true;
  done_threw : threw s = false;
  done_written : omap written (timeline s) = frame_names k;
  done_installation : List.filter is_installation (timeline s) = installation;
  done_times :
    run_capture_times (timeline s) = frame_time F <$> seqZ 1 k;
  done_other : forall x, x ∉ frame_names k -> files s !! x = fs !! x;
  done_kept :
    noVideo argv = false \/ keepFrames argv = true ->
    forall j, (1 <= j <= k)%Z ->
      files s !! frameFilename (int j) (format (screenshotOptions argv))
      = render browser (frame_time F j);
  done_deleted :
    noVideo argv = true -> keepFrames argv = false ->
    forall n, n ∈ frame_names k -> files s !! n = None;
  done_shutdown :
    exists t1 t2 : list event,
      timeline s
      = t1 ++ [console_log_clock_time (int (1 + k * F)); newTarget_close;
               cri_close; launchedChrome_kill] ++ t2
      /\ captures t1 = Z.to_nat k
      /\ omap written t1 = frame_names k
      /\ List.filter is_protocol t2 = []
      /\ omap written t2 = []
      /\ (noVideo argv = false ->
          t2 = [ffmpeg_save
                  ("frame-%07d." +:+ extension (format (screenshotOptions argv)))
                  (div (int 1000) (timeBetweenFramesInMilliseconds argv))
                  (outputMP4Filename argv);
                console_log "Finished"])
      /\ (noVideo argv = true -> keepFrames argv = false ->
          t2 = map fs_unlinkSync (frame_names k) ++ [console_log "Finished"])
      /\ (noVideo argv = true -> keepFrames argv = true ->
          t2 = [console_log "Finished"]);
}.

End RunDescriptions.

(** ** Sample inputs *)

Definition sample_options : ScreenshotOptions :=
  {| format := png; quality := None |}.

(** A session of a new controller with the default interval: a
    screenshot, the initial grant of 1 ms, two screenshots in a row once
    it has expired, then a grant of 20 ms that takes two chunks, and a
    fourth screenshot. *)
Definition sample_session : list (op nat) :=
  [CaptureScreenshot sample_options (Some "");
   GrantInitialTime (int 1) (int 10000) 1%nat 2%nat (int 10000);
   BudgetExpired;
   CaptureScreenshot sample_options (Some "");
   CaptureScreenshot sample_options (Some "");
   GrantTime (int 20) 3%nat;
   BudgetExpired;
   BudgetExpired;
   CaptureScreenshot sample_options (Some "")].

(** The options of the command line as they are by default, for a page
    that is given, and a browser that starts at time base 10000 and
    sends a picture on every request. *)
Definition default_argv (frames : number) : Argv :=
  {| width := int 300; height := int 300; frameInterval := int 1000;
     url := "http://localhost/"; frameCount := frames;
     outputFilename := "output.mp4"; screenshotFormat := jpeg;
     screenshotJpegQuality := int 85; noVideo := false; keepFrames := false |}.

Definition sample_browser : Browser :=
  {| virtualTimeTicksBase := int 10000; render := fun _ => Some "" |}.

(** A browser whose replies carry no picture. *)
Definition silent_browser : Browser :=
  {| virtualTimeTicksBase := int 10000; render := fun _ => None |}.

(** Frames only, in [png], 40 ms apart, for a frame count that is not
    whole. *)
Definition frames_only_argv : Argv :=
  {| width := int 300; height := int 300; frameInterval := int 40;
     url := "http://localhost/"; frameCount := Finite (5 # 2);
     outputFilename := "output.mp4"; screenshotFormat := png;
     screenshotJpegQuality := int 85; noVideo := true; keepFrames := false |}.

(** A new controller with the default interval and a grant of 100 ms
    under way. *)
Definition sample_grant : world nat :=
  exec (GrantTime (int 100) 7%nat) (new_world (constructor None None)).

(** A controller whose browser reported a time base of [10 ^ 15], once
    the initial grant has expired. *)
Definition late_session : list (op nat) :=
  [GrantInitialTime (int 1) (int 10000) 1%nat 2%nat (int (10 ^ 15));
   BudgetExpired].

End B64.

(** * Properties of the program over exact rationals *)

(** ** The remainder *)

#[export] Instance Qtrunc_proper : Proper (Qeq ==> eq) JS.Qtrunc.
Proof.
intros x y Hxy. unfold JS.Qtrunc.
rewrite (Qleb_comp 0 0 (Qeq_refl 0) x y Hxy).
destruct (Qle_bool 0 y).
- now apply Qfloor_comp.
- now apply Qceiling_comp.
Qed.

#[export] Instance rem_proper : Proper (Qeq ==> Qeq ==> Qeq) JS.rem.
Proof.
intros x x' Hx y y' Hy. unfold JS.rem.
assert (Hq : x / y == x' / y') by now rewrite Hx, Hy.
rewrite (Qtrunc_proper _ _ Hq), Hx, Hy. reflexivity.
Qed.


Lemma Qtrunc_above (q : Q) : q - 1 < inject_Z (JS.Qtrunc q).
Proof.
unfold JS.Qtrunc. destruct (Qle_bool 0 q).
- pose proof (Qlt_floor q) as H.
  rewrite inject_Z_plus in H. change (inject_Z 1) with 1 in H. lra.
- pose proof (Qle_ceiling q). lra.
Qed.

Section Remainder.
Variable A : Q.
Hypothesis A_pos : 0 < A.

Lemma div_mul_cancel (x : Q) : A * (x / A) == x.
Proof. field. lra. Qed.

(** The remainder is always below the divisor... *)
Lemma rem_lt (x : Q) : JS.rem x A < A.
Proof.
  unfold JS.rem.
  pose proof (Qtrunc_above (x / A)) as H.
  apply (Qmult_lt_l _ _ A A_pos) in H.
  pose proof (div_mul_cancel x) as E.
  assert (E2 : A * (x / A - 1) == x - A) by (rewrite <- E at 2; ring).
  rewrite E2 in H. lra.
Qed.


End Remainder.

#[export] Instance min_proper : Proper (Qeq ==> Qeq ==> Qeq) JS.min.
Proof. intros x x' Hx y y' Hy. unfold JS.min. now rewrite Hx, Hy. Qed.

Lemma min_cases (x y : Q) :
  (x < y /\ JS.min x y == x) \/ (y <= x /\ JS.min x y == y).
Proof. unfold JS.min. apply Q.min_spec. Qed.



Lemma truthy_false (x : Q) : JS.truthy x = false <-> x == 0.
Proof.
  unfold JS.truthy. rewrite negb_false_iff. apply Qeq_bool_iff.
Qed.

(** ** The methods, one by one *)

Section Methods.
Context {CB : Type}.
Implicit Types (c : VirtualTimeController CB) (w : world CB).

Ltac step_method :=
  cbv beta iota delta [mbind mret M_bind M_ret bind ret this assign perform].

Lemma scheduleNextChunk_run c :
  scheduleNextChunk_ c = (tt, scheduled c, schedule_effects c).
Proof.
  unfold scheduleNextChunk_. step_method.
  unfold scheduled, schedule_effects, installed_call, next_chunk.
  cbn [onInstalled_ set_lastGrantedChunk_ virtualTimeBase_].
  destruct c as [A S tb r lc e [cb|] ex]; reflexivity.
Qed.

Lemma issueAnimationFrameAndScheduleNextChunk_run c :
  issueAnimationFrameAndScheduleNextChunk_ c
  = (tt, scheduled c, frame_effects c ++ schedule_effects c).
Proof.
  unfold issueAnimationFrameAndScheduleNextChunk_, frame_effects.
  step_method.
  destruct (JS.gtb (totalElapsedTime_ c) 0 && JS.gtb (remainingBudget_ c) 0);
    [destruct (Qeq_bool _ 0)|];
    rewrite scheduleNextChunk_run; reflexivity.
Qed.

Lemma virtualTimeBudgetExpired_run c :
  virtualTimeBudgetExpired c
  = if Qeq_bool (remainingBudget_ (advanced c)) 0
    then (tt, advanced c, expired_call (advanced c))
    else (tt, scheduled (advanced c),
          frame_effects (advanced c) ++ schedule_effects (advanced c)).
Proof.
  unfold virtualTimeBudgetExpired. step_method.
  destruct c as [A S tb r lc e i ex].
  unfold advanced, expired_call.
  cbn [set_totalElapsedTime_ set_remainingBudget_ animationFrameInterval_
       maxTaskStarvationCount_ virtualTimeBase_ remainingBudget_
       lastGrantedChunk_ totalElapsedTime_ onInstalled_ onExpired_].
  destruct (Qeq_bool (r - lc) 0).
  - destruct ex; reflexivity.
  - rewrite issueAnimationFrameAndScheduleNextChunk_run. reflexivity.
Qed.

Lemma grantTime_run budget onExpired c :
  grantTime budget onExpired c
  = (tt, scheduled (granting budget onExpired c),
     frame_effects (granting budget onExpired c)
     ++ schedule_effects (granting budget onExpired c)).
Proof.
  unfold grantTime. step_method.
  change (set_onExpired_ (Some onExpired) (set_remainingBudget_ budget c))
    with (granting budget onExpired c).
  rewrite issueAnimationFrameAndScheduleNextChunk_run. reflexivity.
Qed.

Lemma grantInitialTime_run budget initialVirtualTime onInstalled onExpired base c :
  grantInitialTime budget initialVirtualTime onInstalled onExpired base c
  = (tt,
     scheduled (granting budget onExpired
                  (set_onInstalled_ (Some onInstalled)
                     (set_virtualTimeBase_ base c))),
     Emulation_pause initialVirtualTime
     :: HeadlessExperimental_beginFrame base (Some false) None
     :: frame_effects (granting budget onExpired
                         (set_onInstalled_ (Some onInstalled)
                            (set_virtualTimeBase_ base c)))
        ++ schedule_effects (granting budget onExpired
                               (set_onInstalled_ (Some onInstalled)
                                  (set_virtualTimeBase_ base c)))).
Proof.
  unfold grantInitialTime. step_method.
  rewrite grantTime_run. reflexivity.
Qed.

Lemma stopVirtualTimeGracefully_run c :
  stopVirtualTimeGracefully c
  = (tt, if JS.truthy (remainingBudget_ c) then set_remainingBudget_ 0 c else c,
     []).
Proof.
  unfold stopVirtualTimeGracefully. step_method.
  destruct (JS.truthy (remainingBudget_ c)); reflexivity.
Qed.

End Methods.

(** ** One call or event at a time *)

Section Steps.
Context {CB : Type}.
Implicit Types (c : VirtualTimeController CB) (w : world CB).

Lemma browser_after_schedule (o : option Q) c :
  foldl browser_receive o (frame_effects c ++ schedule_effects c)
  = Some (next_chunk c).
Proof.
  rewrite foldl_app. unfold schedule_effects, installed_call. cbn [foldl].
  destruct (onInstalled_ c); reflexivity.
Qed.

Lemma chunks_app (t1 t2 : list (effect CB)) :
  chunks (t1 ++ t2) = chunks t1 ++ chunks t2.
Proof. apply omap_app. Qed.

Lemma chunks_frame_effects c : chunks (frame_effects c) = [].
Proof.
  unfold frame_effects.
  destruct (_ && _); [destruct (Qeq_bool _ _)|]; reflexivity.
Qed.

Lemma chunks_schedule_effects c : chunks (schedule_effects c) = [next_chunk c].
Proof.
  unfold schedule_effects, installed_call. destruct (onInstalled_ c); reflexivity.
Qed.

Lemma exec_GrantTime budget onExpired w :
  exec (GrantTime budget onExpired) w
  = let c := granting budget onExpired (controller w) in
    {| controller := scheduled c;
       outstanding := Some (next_chunk c);
       trace := trace w ++ frame_effects c ++ schedule_effects c |}.
Proof.
  unfold exec, call. rewrite grantTime_run. cbn [fst snd].
  rewrite browser_after_schedule. reflexivity.
Qed.

Lemma exec_GrantInitialTime budget initialVirtualTime onInstalled onExpired base w :
  exec (GrantInitialTime budget initialVirtualTime onInstalled onExpired base) w
  = let c := granting budget onExpired
               (set_onInstalled_ (Some onInstalled)
                  (set_virtualTimeBase_ base (controller w))) in
    {| controller := scheduled c;
       outstanding := Some (next_chunk c);
       trace := trace w
                ++ Emulation_pause initialVirtualTime
                   :: HeadlessExperimental_beginFrame base (Some false) None
                   :: frame_effects c ++ schedule_effects c |}.
Proof.
  unfold exec, call. rewrite grantInitialTime_run. cbn [fst snd foldl].
  rewrite browser_after_schedule. reflexivity.
Qed.

Lemma exec_BudgetExpired w :
  exec BudgetExpired w
  = let c := advanced (controller w) in
    if Qeq_bool (remainingBudget_ c) 0
    then {| controller := c; outstanding := None;
            trace := trace w ++ expired_call c |}
    else {| controller := scheduled c;
            outstanding := Some (next_chunk c);
            trace := trace w ++ frame_effects c ++ schedule_effects c |}.
Proof.
  unfold exec, call, budget_consumed. cbn [controller outstanding trace].
  rewrite virtualTimeBudgetExpired_run. cbn zeta.
  destruct (Qeq_bool (remainingBudget_ (advanced (controller w))) 0);
    cbn [fst snd].
  - unfold expired_call. destruct (onExpired_ _); reflexivity.
  - rewrite browser_after_schedule. reflexivity.
Qed.

Lemma exec_StopVirtualTimeGracefully w :
  exec StopVirtualTimeGracefully w
  = {| controller := if JS.truthy (remaining w)
                     then set_remainingBudget_ 0 (controller w)
                     else controller w;
       outstanding := outstanding w;
       trace := trace w ++ [] |}.
Proof.
  unfold exec, call. rewrite stopVirtualTimeGracefully_run. reflexivity.
Qed.

Lemma exec_CaptureScreenshot options data w :
  exec (CaptureScreenshot options data) w
  = {| controller := set_virtualTimeBase_ (timeBase w + 0.01) (controller w);
       outstanding := outstanding w;
       trace := trace w
                ++ [HeadlessExperimental_beginFrame
                      (currentFrameTime (controller w)) None (Some options)] |}.
Proof. reflexivity. Qed.

(** The expiry handler splits on whether the chunk that expired was the
    last one of the grant. *)
Lemma expired_last w :
  remaining w - chunk w == 0 ->
  exec BudgetExpired w
  = {| controller := advanced (controller w); outstanding := None;
       trace := trace w ++ expired_call (advanced (controller w)) |}.
Proof.
  intros H. rewrite exec_BudgetExpired. cbn zeta.
  apply Qeq_bool_iff in H.
  change (remainingBudget_ (advanced (controller w)))
    with (remaining w - chunk w).
  now rewrite H.
Qed.

Lemma expired_more w :
  ~ remaining w - chunk w == 0 ->
  exec BudgetExpired w
  = let c := advanced (controller w) in
    {| controller := scheduled c;
       outstanding := Some (next_chunk c);
       trace := trace w ++ frame_effects c ++ schedule_effects c |}.
Proof.
  intros H. rewrite exec_BudgetExpired. cbn zeta.
  change (remainingBudget_ (advanced (controller w)))
    with (remaining w - chunk w).
  destruct (Qeq_bool (remaining w - chunk w) 0) eqn:E; [|reflexivity].
  apply Qeq_bool_iff in E. contradiction.
Qed.

Lemma in_flight_scheduled c t :
  in_flight {| controller := scheduled c; outstanding := Some (next_chunk c);
               trace := t |}.
Proof. split; reflexivity. Qed.

Lemma expire_S n w : expire (S n) w = expire n (exec BudgetExpired w).
Proof. unfold expire. apply Nat.iter_succ_r. Qed.

End Steps.

(** ** The chunking loop *)

Section Chunking.
Context {CB : Type}.
Implicit Types (c : VirtualTimeController CB) (w : world CB).


Lemma expired_remaining w :
  remaining (exec BudgetExpired w) = remaining w - chunk w.
Proof.
  rewrite exec_BudgetExpired. cbn zeta. destruct (Qeq_bool _ 0); reflexivity.
Qed.

Lemma expired_interval w : interval (exec BudgetExpired w) = interval w.
Proof.
  rewrite exec_BudgetExpired. cbn zeta. destruct (Qeq_bool _ 0); reflexivity.
Qed.


Lemma expired_onExpired w :
  onExpired_ (controller (exec BudgetExpired w)) = onExpired_ (controller w).
Proof.
  rewrite exec_BudgetExpired. cbn zeta. destruct (Qeq_bool _ 0); reflexivity.
Qed.

Lemma expired_in_flight w :
  ~ remaining w - chunk w == 0 -> in_flight (exec BudgetExpired w).
Proof. intros H. rewrite (expired_more w H). apply in_flight_scheduled. Qed.

(** The chunk in flight is the distance to the next frame boundary or the
    whole remaining budget, whichever is smaller. *)
Lemma chunk_cases w :
  0 < interval w -> in_flight w ->
  0 < interval w - JS.rem (elapsed w) (interval w)
  /\ ((interval w - JS.rem (elapsed w) (interval w) < remaining w
       /\ chunk w == interval w - JS.rem (elapsed w) (interval w))
      \/ (remaining w <= interval w - JS.rem (elapsed w) (interval w)
          /\ chunk w == remaining w)).
Proof.
  intros HA [_ Hc]. split.
  - pose proof (rem_lt (interval w) HA (elapsed w)). lra.
  - rewrite Hc. unfold next_chunk. apply min_cases.
Qed.



Lemma expired_more_chunks w :
  ~ remaining w - chunk w == 0 ->
  chunks (trace (exec BudgetExpired w))
  = chunks (trace w) ++ [chunk (exec BudgetExpired w)].
Proof.
  intros H. rewrite (expired_more w H). cbn [trace].
  now rewrite !chunks_app, chunks_frame_effects, chunks_schedule_effects.
Qed.


Lemma expire_onExpired j w :
  onExpired_ (controller (expire j w)) = onExpired_ (controller w).
Proof.
  revert w. induction j as [|j IH]; intros w; [reflexivity|].
  now rewrite expire_S, IH, expired_onExpired.
Qed.

End Chunking.

(** ** Termination of the chunking loop *)

Section Termination.
Context {CB : Type}.
Implicit Types (w : world CB).



End Termination.

(** ** Grants *)

Section Grants.
Context {CB : Type}.
Implicit Types (w : world CB) (o : op CB).

Lemma filter_onExpired_schedule (c : VirtualTimeController CB) :
  List.filter is_onExpired (frame_effects c ++ schedule_effects c) = [].
Proof.
  rewrite List.filter_app. unfold frame_effects, schedule_effects, installed_call.
  destruct (_ && _); [destruct (Qeq_bool _ _)|];
    destruct (onInstalled_ c); reflexivity.
Qed.

(** The state a grant leaves: its first chunk is in flight. *)
Lemma grant_starts o w :
  is_grant o = true ->
  in_flight (exec o w)
  /\ remaining (exec o w) = budget_of o
  /\ elapsed (exec o w) = elapsed w
  /\ interval (exec o w) = interval w
  /\ onExpired_ (controller (exec o w)) = onExpired_of o
  /\ chunks (trace (exec o w)) = chunks (trace w) ++ [chunk (exec o w)]
  /\ List.filter is_onExpired (trace (exec o w)) = List.filter is_onExpired (trace w).
Proof.
  destruct o as [b v i e base|b e| | |]; try discriminate; intros _.
  - rewrite exec_GrantInitialTime. cbn zeta.
    repeat split; cbn [trace].
    + rewrite chunks_app. f_equal.
      change (chunks (_ :: _ :: ?t)) with (chunks t).
      now rewrite chunks_app, chunks_frame_effects, chunks_schedule_effects.
    + rewrite List.filter_app. cbn [List.filter is_onExpired].
      rewrite filter_onExpired_schedule. now rewrite app_nil_r.
  - rewrite exec_GrantTime. cbn zeta.
    repeat split; cbn [trace].
    + now rewrite !chunks_app, chunks_frame_effects, chunks_schedule_effects.
    + rewrite List.filter_app, filter_onExpired_schedule. now rewrite app_nil_r.
Qed.

End Grants.

(** ** Sessions that keep to the discipline *)

Section Sessions.
Context {CB : Type}.
Implicit Types (w : world CB) (o : op CB).





Lemma exec_all_cons o ops w : exec_all (o :: ops) w = exec_all ops (exec o w).
Proof. reflexivity. Qed.


End Sessions.

(** ** Stopping, capturing and granting, one call at a time *)

Section Calls.
Context {CB : Type}.
Implicit Types (w : world CB) (o : op CB).

Lemma stop_busy w :
  ~ remaining w == 0 ->
  exec StopVirtualTimeGracefully w
  = {| controller := set_remainingBudget_ 0 (controller w);
       outstanding := outstanding w;
       trace := trace w |}.
Proof.
  intros H. rewrite exec_StopVirtualTimeGracefully.
  destruct (JS.truthy (remaining w)) eqn:E.
  - now rewrite app_nil_r.
  - apply truthy_false in E. contradiction.
Qed.

(** C3, what the code does.  When [stopVirtualTimeGracefully] is called
    while a chunk of a grant is in flight and budget remains, it sets the
    remaining budget to zero; but the expiry of the chunk in flight then
    leaves a remaining budget of minus that chunk, which is not zero: the
    handler does not call [onExpired] and submits one more chunk, of
    negative size. *)
Theorem stop_in_flight_schedules_negative_chunk w :
  0 < interval w -> in_flight w -> 0 < remaining w ->
  remaining (exec StopVirtualTimeGracefully w) = 0
  /\ outstanding (exec StopVirtualTimeGracefully w) = Some (chunk w)
  /\ List.filter is_onExpired
       (trace (exec BudgetExpired (exec StopVirtualTimeGracefully w)))
     = List.filter is_onExpired (trace w)
  /\ chunks (trace (exec BudgetExpired (exec StopVirtualTimeGracefully w)))
     = chunks (trace w)
       ++ [chunk (exec BudgetExpired (exec StopVirtualTimeGracefully w))]
  /\ outstanding (exec BudgetExpired (exec StopVirtualTimeGracefully w))
     = Some (chunk (exec BudgetExpired (exec StopVirtualTimeGracefully w)))
  /\ chunk (exec BudgetExpired (exec StopVirtualTimeGracefully w))
     == - chunk w
  /\ chunk (exec BudgetExpired (exec StopVirtualTimeGracefully w)) < 0
  /\ remaining (exec BudgetExpired (exec StopVirtualTimeGracefully w)) < 0.
Proof.
  intros HA Hf Hr.
  assert (Hpos : 0 < chunk w).
  { destruct (chunk_cases w HA Hf) as [Hd [[_ ->]|[_ ->]]]; lra. }
  assert (Hne : ~ remaining w == 0) by lra.
  rewrite (stop_busy w Hne).
  set (w1 := {| controller := set_remainingBudget_ 0 (controller w);
                outstanding := outstanding w; trace := trace w |}).
  assert (Hc1 : chunk w1 = chunk w) by reflexivity.
  assert (Hr1 : remaining w1 = 0) by reflexivity.
  assert (Hne1 : ~ remaining w1 - chunk w1 == 0) by (rewrite Hc1, Hr1; lra).
  pose proof (expired_in_flight w1 Hne1) as [Hout Hnext].
  assert (HA1 : 0 < interval (exec BudgetExpired w1))
    by (rewrite expired_interval; exact HA).
  assert (Hf1 : in_flight (exec BudgetExpired w1)) by (split; assumption).
  assert (Hrem : remaining (exec BudgetExpired w1) == - chunk w).
  { rewrite expired_remaining, Hc1, Hr1. lra. }
  assert (Hchunk : chunk (exec BudgetExpired w1) == - chunk w).
  { destruct (chunk_cases _ HA1 Hf1) as [Hd [[Hlt _]|[_ ->]]]; [lra|exact Hrem]. }
  split; [reflexivity|]. split; [apply Hf|].
  split; [|split; [|split; [|split; [|split]]]].
  - rewrite (expired_more w1 Hne1). cbn [trace].
    now rewrite List.filter_app, filter_onExpired_schedule, app_nil_r.
  - exact (expired_more_chunks w1 Hne1).
  - exact Hout.
  - exact Hchunk.
  - lra.
  - lra.
Qed.

Lemma expire_trace_callbacks (cb2 : CB) n w :
  onExpired_ (controller w) = Some cb2 ->
  forall cb t,
    In (Call_onExpired cb t) (trace (expire n w)) ->
    In (Call_onExpired cb t) (trace w) \/ cb = cb2.
Proof.
  intros Hcb. induction n as [|n IH]; intros cb t Hin; [now left|].
  change (expire (S n) w) with (exec BudgetExpired (expire n w)) in Hin.
  rewrite exec_BudgetExpired in Hin. cbn zeta in Hin.
  destruct (Qeq_bool _ 0); cbn [trace] in Hin;
    apply in_app_or in Hin as [Hin|Hin].
  - now apply IH.
  - right. unfold expired_call in Hin.
    change (onExpired_ (advanced (controller (expire n w))))
      with (onExpired_ (controller (expire n w))) in Hin.
    rewrite expire_onExpired, Hcb in Hin.
    destruct Hin as [Hin|[]]. now injection Hin as <- _.
  - now apply IH.
  - exfalso.
    assert (Hin' : In (Call_onExpired cb t)
                     (List.filter is_onExpired
                        (frame_effects (advanced (controller (expire n w)))
                         ++ schedule_effects
                              (advanced (controller (expire n w)))))).
    { apply List.filter_In. split; [exact Hin|reflexivity]. }
    now rewrite filter_onExpired_schedule in Hin'.
Qed.

(** C9.  [grantTime(B2, cb2)] needs nothing of the state it is called in:
    whatever budget remained and whatever callback was stored, afterwards
    the remaining budget is [B2] and the stored callback is [cb2]; the call
    itself calls no [onExpired], elapsed time is as before, and every
    [onExpired] call that later expiries make is a call of [cb2]: the
    earlier callback is never called for the budget it lost. *)
Theorem grantTime_overwrites (budget2 : Q) (cb2 : CB) w :
  remainingBudget_ (controller (exec (GrantTime budget2 cb2) w)) = budget2
  /\ onExpired_ (controller (exec (GrantTime budget2 cb2) w)) = Some cb2
  /\ totalElapsedTime_ (controller (exec (GrantTime budget2 cb2) w))
     = totalElapsedTime_ (controller w)
  /\ List.filter is_onExpired (trace (exec (GrantTime budget2 cb2) w))
     = List.filter is_onExpired (trace w)
  /\ outstanding (exec (GrantTime budget2 cb2) w)
     = Some (JS.min (animationFrameInterval_ (controller w)
                     - JS.rem (totalElapsedTime_ (controller w))
                         (animationFrameInterval_ (controller w)))
                    budget2)
  /\ forall n cb t,
       In (Call_onExpired cb t) (trace (expire n (exec (GrantTime budget2 cb2) w))) ->
       In (Call_onExpired cb t) (trace w) \/ cb = cb2.
Proof.
  destruct (grant_starts (GrantTime budget2 cb2) w eq_refl)
    as (_ & Hr & He & _ & Hcb & _ & Hfil).
  split; [exact Hr|]. split; [exact Hcb|]. split; [exact He|].
  split; [exact Hfil|]. split.
  - rewrite exec_GrantTime. reflexivity.
  - intros n cb t Hin.
    destruct (expire_trace_callbacks cb2 n _ Hcb cb t Hin) as [Hold|Heq];
      [|now right].
    left.
    assert (Hf : In (Call_onExpired cb t)
                   (List.filter is_onExpired
                      (trace (exec (GrantTime budget2 cb2) w)))).
    { apply List.filter_In. split; [exact Hold|reflexivity]. }
    rewrite Hfil in Hf. now apply List.filter_In in Hf.
Qed.

End Calls.

Lemma stop_in_flight_schedules_negative_chunk_witness :
  0 < interval (exec (GrantTime 100 1%nat) (new_world (constructor None None)))
  /\ in_flight (exec (GrantTime 100 1%nat) (new_world (constructor None None)))
  /\ 0 < remaining (exec (GrantTime 100 1%nat)
                      (new_world (constructor None None)))
  /\ List.filter is_onExpired
       (trace (exec BudgetExpired
                 (exec StopVirtualTimeGracefully
                    (exec (GrantTime 100 1%nat)
                       (new_world (constructor None None))))))
     = []
  /\ chunk (exec BudgetExpired
              (exec StopVirtualTimeGracefully
                 (exec (GrantTime 100 1%nat)
                    (new_world (constructor None None))))) < 0.
Proof.
  assert (HA : 0 < interval (exec (GrantTime 100 1%nat)
                               (new_world (constructor None None))))
    by reflexivity.
  assert (Hf : in_flight (exec (GrantTime 100 1%nat)
                            (new_world (constructor None None))))
    by (split; reflexivity).
  assert (Hr : 0 < remaining (exec (GrantTime 100 1%nat)
                                (new_world (constructor None None))))
    by reflexivity.
  split; [exact HA|]. split; [exact Hf|]. split; [exact Hr|].
  destruct (stop_in_flight_schedules_negative_chunk _ HA Hf Hr)
    as (_ & _ & H3 & _ & _ & _ & H7 & _).
  split; [exact H3|exact H7].
Defined.

(** ** The initial grant *)

Section Installation.
Context {CB : Type}.
Implicit Types (w : world CB) (o : op CB).

Lemma filter_onInstalled_frame (c : VirtualTimeController CB) :
  List.filter is_onInstalled (frame_effects c) = [].
Proof.
  unfold frame_effects.
  destruct (_ && _); [destruct (Qeq_bool _ _)|]; reflexivity.
Qed.

Lemma filter_onInstalled_schedule (c : VirtualTimeController CB) :
  onInstalled_ c = None ->
  List.filter is_onInstalled (frame_effects c ++ schedule_effects c) = [].
Proof.
  intros H. rewrite List.filter_app.
  unfold frame_effects, schedule_effects, installed_call. rewrite H.
  destruct (_ && _); [destruct (Qeq_bool _ _)|]; reflexivity.
Qed.

(** Once the callback has been called it is forgotten: no later call or
    event other than another initial grant calls it again. *)
Lemma installed_step o w :
  onInstalled_ (controller w) = None -> is_initial o = false ->
  onInstalled_ (controller (exec o w)) = None
  /\ List.filter is_onInstalled (trace (exec o w))
     = List.filter is_onInstalled (trace w).
Proof.
  intros Hi Ho. destruct o as [b v i e base|b e| | |opts data];
    [discriminate| | | |].
  - rewrite exec_GrantTime. cbn zeta. split; [reflexivity|]. cbn [trace].
    rewrite List.filter_app, filter_onInstalled_schedule by exact Hi.
    now rewrite app_nil_r.
  - rewrite exec_BudgetExpired. cbn zeta.
    destruct (Qeq_bool _ 0); cbn [trace controller];
      (split; [try exact Hi; reflexivity|]); rewrite List.filter_app.
    + unfold expired_call. destruct (onExpired_ _); cbn; now rewrite app_nil_r.
    + rewrite filter_onInstalled_schedule by exact Hi. now rewrite app_nil_r.
  - rewrite exec_StopVirtualTimeGracefully. cbn [trace controller].
    rewrite app_nil_r. split; [|reflexivity].
    destruct (JS.truthy (remaining w)); exact Hi.
  - rewrite exec_CaptureScreenshot. cbn [trace controller]. split; [exact Hi|].
    rewrite List.filter_app. cbn. now rewrite app_nil_r.
Qed.

Lemma installed_steps ops w :
  onInstalled_ (controller w) = None ->
  forallb (fun o => negb (is_initial o)) ops = true ->
  onInstalled_ (controller (exec_all ops w)) = None
  /\ List.filter is_onInstalled (trace (exec_all ops w))
     = List.filter is_onInstalled (trace w).
Proof.
  revert w. induction ops as [|o ops IH]; intros w Hi Hops; [now split|].
  cbn [forallb] in Hops. apply andb_true_iff in Hops as [Ho Hops].
  apply negb_true_iff in Ho.
  destruct (installed_step o w Hi Ho) as [Hi' Hf].
  rewrite exec_all_cons. destruct (IH (exec o w) Hi' Hops) as [Hi'' Hf'].
  split; [exact Hi''|]. now rewrite Hf'.
Qed.

Lemma trace_grows o w : exists effects, trace (exec o w) = trace w ++ effects.
Proof.
  destruct o as [b v i e base|b e| | |opts data].
  - rewrite exec_GrantInitialTime. cbn zeta. now eexists.
  - rewrite exec_GrantTime. cbn zeta. now eexists.
  - rewrite exec_BudgetExpired. cbn zeta.
    destruct (Qeq_bool _ 0); now eexists.
  - rewrite exec_StopVirtualTimeGracefully. now eexists.
  - rewrite exec_CaptureScreenshot. now eexists.
Qed.

Lemma trace_grows_all ops w :
  exists effects, trace (exec_all ops w) = trace w ++ effects.
Proof.
  revert w. induction ops as [|o ops IH]; intros w.
  - exists []. now rewrite app_nil_r.
  - rewrite exec_all_cons.
    destruct (trace_grows o w) as [e1 H1].
    destruct (IH (exec o w)) as [e2 H2].
    exists (e1 ++ e2). now rewrite H2, H1, app_assoc.
Qed.

(** What [grantInitialTime] does, in order: the pause request, the full
    frame at the time base the browser answered, the first chunk, and the
    call of [onInstalled] with that time base; whatever follows, short of
    another initial grant, does not call [onInstalled]. *)
Lemma initial_grant_trace budget v (i e : CB) base w ops :
  forallb (fun o => negb (is_initial o)) ops = true ->
  exists before chunk0 starvation wait after,
    trace (exec_all ops (exec (GrantInitialTime budget v i e base) w))
    = trace w
      ++ before
      ++ [Emulation_setVirtualTimePolicy chunk0 starvation wait;
          Call_onInstalled i base]
      ++ after
    /\ trace (exec (GrantInitialTime budget v i e base) w)
       = trace w
         ++ before
         ++ [Emulation_setVirtualTimePolicy chunk0 starvation wait;
             Call_onInstalled i base]
    /\ List.filter is_onInstalled before = []
    /\ chunks before = []
    /\ List.filter is_onInstalled after = []
    /\ onInstalled_
         (controller (exec_all ops (exec (GrantInitialTime budget v i e base) w)))
       = None.
Proof.
  intros Hops.
  set (w1 := exec (GrantInitialTime budget v i e base) w).
  assert (Hi1 : onInstalled_ (controller w1) = None).
  { unfold w1. rewrite exec_GrantInitialTime. reflexivity. }
  destruct (installed_steps ops w1 Hi1 Hops) as [Hi Hf].
  destruct (trace_grows_all ops w1) as [after Hafter].
  set (c := granting budget e
              (set_onInstalled_ (Some i)
                 (set_virtualTimeBase_ base (controller w)))).
  assert (Ht1 : trace w1
                = trace w
                  ++ (Emulation_pause v
                      :: HeadlessExperimental_beginFrame base (Some false) None
                      :: frame_effects c)
                  ++ [Emulation_setVirtualTimePolicy (next_chunk c)
                        (maxTaskStarvationCount_ c)
                        (Qeq_bool (totalElapsedTime_ c) 0);
                      Call_onInstalled i base]).
  { unfold w1. rewrite exec_GrantInitialTime. cbn zeta. cbn [trace].
    f_equal. }
  exists (Emulation_pause v
          :: HeadlessExperimental_beginFrame base (Some false) None
          :: frame_effects c),
    (next_chunk c), (maxTaskStarvationCount_ c),
    (Qeq_bool (totalElapsedTime_ c) 0), after.
  pose proof (filter_onInstalled_frame c) as Hfe.
  split; [|split; [|split; [|split; [|split]]]].
  - rewrite Hafter, Ht1, <- !app_assoc. reflexivity.
  - exact Ht1.
  - cbn [List.filter is_onInstalled]. exact Hfe.
  - change (chunks (_ :: _ :: ?t)) with (chunks t). apply chunks_frame_effects.
  - rewrite Hafter, Ht1, !List.filter_app in Hf.
    cbn [List.filter is_onInstalled] in Hf. rewrite Hfe in Hf.
    cbn [app] in Hf.
    apply (f_equal (@length _)) in Hf. rewrite !length_app in Hf.
    cbn [length] in Hf.
    destruct (List.filter is_onInstalled after); [reflexivity|].
    cbn [length] in Hf. lia.
  - exact Hi.
Qed.

End Installation.

(** ** The capture loop, one callback at a time *)

Section RunSteps.
Variable argv : Argv.
Variable browser : Browser.

Lemma invoke_grantTime (budget : Q) (cb : callback) (s : session) :
  snd (invoke argv (grantTime budget cb) s)
  = {| page := exec (GrantTime budget cb) (page s);
       frameCounter := frameCounter s;
       allFrameFilenames := allFrameFilenames s;
       files := files s;
       threw := threw s;
       timeline :=
         timeline s
         ++ flat_map (react argv)
              (frame_effects (granting budget cb (controller (page s)))
               ++ schedule_effects (granting budget cb (controller (page s))))
    |}.
Proof.
  unfold invoke, exec, call. rewrite grantTime_run. reflexivity.
Qed.

Lemma timeExpired_run (s : session) :
  timeExpired argv browser s
  = if JS.ltb (inject_Z (frameCounter s)) (totalFramesToCapture argv)
    then snd (invoke argv (grantTime (timeBetweenFramesInMilliseconds argv)
                        cb_timeExpired) (captured argv browser s))
    else finish argv (captured argv browser s).
Proof. reflexivity. Qed.

Lemma dispatch_none (effects : list (effect callback)) (s : session) :
  List.filter is_onExpired effects = [] ->
  foldl (dispatch argv browser) s effects = s.
Proof.
  revert s. induction effects as [|e effects IH]; intros s H; [reflexivity|].
  cbn [foldl]. destruct e; cbn [List.filter is_onExpired] in H;
    try discriminate; cbn [dispatch]; now apply IH.
Qed.

Lemma budgetExpired_idle (s : session) :
  outstanding (page s) = None -> budgetExpired argv browser s = s.
Proof. intros H. unfold budgetExpired. now rewrite H. Qed.

(** An expiry in the middle of a grant only concerns the controller. *)
Lemma budgetExpired_more (s : session) :
  is_Some (outstanding (page s)) ->
  ~ remaining (page s) - chunk (page s) == 0 ->
  budgetExpired argv browser s
  = {| page := exec BudgetExpired (page s);
       frameCounter := frameCounter s;
       allFrameFilenames := allFrameFilenames s;
       files := files s;
       threw := threw s;
       timeline :=
         timeline s
         ++ flat_map (react argv)
              (frame_effects (advanced (controller (page s)))
               ++ schedule_effects (advanced (controller (page s)))) |}.
Proof.
  intros [b Hb] Hne. unfold budgetExpired. rewrite Hb.
  rewrite (expired_more (page s) Hne). cbn zeta.
  unfold call, budget_consumed. cbn [controller outstanding trace].
  rewrite virtualTimeBudgetExpired_run.
  change (remainingBudget_ (advanced (controller (page s))))
    with (remaining (page s) - chunk (page s)).
  destruct (Qeq_bool (remaining (page s) - chunk (page s)) 0) eqn:E.
  { apply Qeq_bool_iff in E. contradiction. }
  cbn [fst snd]. rewrite dispatch_none by apply filter_onExpired_schedule.
  rewrite browser_after_schedule. reflexivity.
Qed.

(** The expiry that uses up the grant calls the callback stored with it. *)
Lemma budgetExpired_last (s : session) (cb : callback) :
  is_Some (outstanding (page s)) ->
  remaining (page s) - chunk (page s) == 0 ->
  onExpired_ (controller (page s)) = Some cb ->
  budgetExpired argv browser s
  = dispatch argv browser
      {| page := exec BudgetExpired (page s);
         frameCounter := frameCounter s;
         allFrameFilenames := allFrameFilenames s;
         files := files s;
         threw := threw s;
         timeline :=
           timeline s
           ++ [Protocol (Call_onExpired cb
                           (elapsed (page s) + chunk (page s)))] |}
      (Call_onExpired cb (elapsed (page s) + chunk (page s))).
Proof.
  intros [b Hb] He Hcb. unfold budgetExpired. rewrite Hb.
  rewrite (expired_last (page s) He).
  unfold call, budget_consumed. cbn [controller outstanding trace].
  rewrite virtualTimeBudgetExpired_run.
  change (remainingBudget_ (advanced (controller (page s))))
    with (remaining (page s) - chunk (page s)).
  apply Qeq_bool_iff in He. rewrite He. cbn [fst snd].
  unfold expired_call.
  change (onExpired_ (advanced (controller (page s))))
    with (onExpired_ (controller (page s))).
  rewrite Hcb. reflexivity.
Qed.

End RunSteps.

(** ** Frame file names *)

Lemma digit_value_pretty (d : N) :
  (d < 10)%N -> digit_value (pretty_N_char d) = Some d.
Proof.
  intros H.
  assert (d = 0 \/ d = 1 \/ d = 2 \/ d = 3 \/ d = 4 \/ d = 5 \/ d = 6
          \/ d = 7 \/ d = 8 \/ d = 9)%N as Hd by lia.
  repeat destruct Hd as [->|Hd]; try reflexivity. now subst.
Qed.

(** [pretty_N_go x s] writes the digits of [x] in front of [s]. *)
Lemma read_pretty_N_go (x : N) :
  exists m : N, forall (acc : N) (s : string),
    read_number acc (pretty_N_go x s) = read_number (acc * 10 ^ m + x) s.
Proof.
  induction (N.lt_wf_0 x) as [x _ IH].
  destruct (decide (x = 0%N)) as [->|Hx].
  - exists 0%N. intros acc s. rewrite pretty_N_go_0. f_equal. lia.
  - assert (Hpos : (0 < x)%N) by lia.
    destruct (IH (x `div` 10)%N) as [m Hm].
    { apply N.div_lt; lia. }
    exists (m + 1)%N. intros acc s.
    rewrite pretty_N_go_step by exact Hpos. rewrite Hm.
    cbn [read_number].
    rewrite digit_value_pretty by (apply N.mod_lt; lia).
    f_equal. rewrite N.pow_add_r, N.pow_1_r.
    pose proof (N.div_mod x 10). lia.
Qed.

Lemma pretty_N_go_app (x : N) (s t : string) :
  pretty_N_go x s +:+ t = pretty_N_go x (s +:+ t).
Proof.
  revert s. induction (N.lt_wf_0 x) as [x _ IH]; intros s.
  destruct (decide (x = 0%N)) as [->|Hx].
  - now rewrite !pretty_N_go_0.
  - assert (Hpos : (0 < x)%N) by lia.
    rewrite (pretty_N_go_step x s), (pretty_N_go_step x (s +:+ t))
      by exact Hpos.
    rewrite IH by (apply N.div_lt; lia). reflexivity.
Qed.


Lemma pretty_Z_pos (k : Z) :
  (1 <= k)%Z -> pretty k = pretty_N_go (Z.to_N k) "".
Proof.
  intros Hk. destruct k as [|p|p]; try lia. reflexivity.
Qed.

Lemma read_repeat_zero (n : nat) (s : string) :
  read_number 0 (repeat_char n "0" +:+ s) = read_number 0 s.
Proof. induction n as [|n IH]; [reflexivity|exact IH]. Qed.


Lemma append_cons (c : ascii) (s t : string) :
  String c s +:+ t = String c (s +:+ t).
Proof. reflexivity. Qed.


Lemma append_assoc (s t u : string) : (s +:+ t) +:+ u = s +:+ (t +:+ u).
Proof.
  induction s as [|c s IH]; [reflexivity|].
  rewrite !append_cons. now f_equal.
Qed.


(** The sequence number can be read back from the name of the file. *)
Lemma frame_number_frameFilename (k : Z) (f : ScreenshotFormat) :
  (1 <= k)%Z -> frame_number (frameFilename k f) = Z.to_N k.
Proof.
  intros Hk. unfold frame_number.
  change (drop_chars 6 (frameFilename k f))
    with (padStart 7 "0" (pretty k) +:+ "." +:+ extension f).
  unfold padStart.
  rewrite append_assoc, read_repeat_zero, (pretty_Z_pos k Hk), pretty_N_go_app.
  destruct (read_pretty_N_go (Z.to_N k)) as [m Hm]. rewrite Hm.
  destruct f; reflexivity.
Qed.



(** ** Deleting the frames *)

Lemma unlink_all_cons (f d : string) (names : list string) (s : session) :
  files s !! f = Some d -> threw s = false ->
  unlink_all (f :: names) s
  = unlink_all names
      (record [fs_unlinkSync f] (set_files (delete f (files s)) s)).
Proof.
  intros Hd Ht. cbn [unlink_all]. unfold unlinkSync. rewrite Hd.
  cbn zeta. cbn [threw record set_files]. now rewrite Ht.
Qed.

Lemma unlink_all_cons_missing (f : string) (names : list string) (s : session) :
  files s !! f = None -> unlink_all (f :: names) s = set_threw true s.
Proof.
  intros Hd. cbn [unlink_all]. unfold unlinkSync. now rewrite Hd.
Qed.

Lemma unlink_all_present (names : list string) (s : session) :
  threw s = false -> NoDup names ->
  (forall n, n ∈ names -> is_Some (files s !! n)) ->
  threw (unlink_all names s) = false
  /\ (forall n, n ∈ names -> files (unlink_all names s) !! n = None)
  /\ (forall n, n ∉ names -> files (unlink_all names s) !! n = files s !! n)
  /\ timeline (unlink_all names s) = timeline s ++ map fs_unlinkSync names
  /\ page (unlink_all names s) = page s
  /\ frameCounter (unlink_all names s) = frameCounter s
  /\ allFrameFilenames (unlink_all names s) = allFrameFilenames s.
Proof.
  revert s. induction names as [|f names IH]; intros s Ht Hnd Hin.
  - cbn [unlink_all map]. rewrite app_nil_r.
    repeat split; try assumption; try reflexivity.
    intros n Hn. now apply elem_of_nil in Hn.
  - apply NoDup_cons in Hnd as [Hf Hnd].
    destruct (Hin f) as [d Hd]; [apply elem_of_cons; now left|].
    rewrite (unlink_all_cons f d names s Hd Ht).
    set (s1 := record [fs_unlinkSync f] (set_files (delete f (files s)) s)).
    assert (Ht1 : threw s1 = false) by exact Ht.
    destruct (IH s1 Ht1 Hnd) as (H1 & H2 & H3 & H4 & H5 & H6 & H7).
    { intros n Hn. change (files s1) with (delete f (files s)).
      rewrite lookup_delete_ne by (intros ->; contradiction).
      apply Hin, elem_of_cons. now right. }
    split; [exact H1|]. split; [|split; [|split; [|repeat split]]];
      try assumption.
    + intros n Hn. apply elem_of_cons in Hn as [->|Hn]; [|now apply H2].
      rewrite H3 by exact Hf. apply lookup_delete_eq.
    + intros n Hn. apply not_elem_of_cons in Hn as [Hne Hn].
      rewrite H3 by exact Hn. change (files s1) with (delete f (files s)).
      now apply lookup_delete_ne.
    + rewrite H4. change (timeline s1) with (timeline s ++ [fs_unlinkSync f]).
      now rewrite <- app_assoc.
Qed.

(** [fs.unlinkSync] throws on a file that is not there, and the frames
    after it in the list are left on disk. *)
Lemma unlink_all_missing (before after : list string) (f : string)
    (s : session) :
  threw s = false -> NoDup (before ++ f :: after) ->
  (forall n, n ∈ before -> is_Some (files s !! n)) ->
  files s !! f = None ->
  threw (unlink_all (before ++ f :: after) s) = true
  /\ (forall n, n ∈ after ->
        files (unlink_all (before ++ f :: after) s) !! n = files s !! n).
Proof.
  intros Ht Hnd Hin Hf.
  assert (Hnd' := Hnd). apply NoDup_app in Hnd' as (Hb & Hdisj & Ha).
  destruct (unlink_all_present before s Ht Hb Hin)
    as (H1 & _ & H3 & _ & _ & _ & _).
  assert (Hgo : forall l2 s0, threw (unlink_all before s0) = false ->
            unlink_all (before ++ l2) s0
            = unlink_all l2 (unlink_all before s0)).
  { clear. induction before as [|b before IH]; intros l2 s0 H0; [reflexivity|].
    cbn [unlink_all app] in *.
    destruct (threw (unlinkSync b s0)) eqn:E.
    - rewrite E in H0. discriminate.
    - now apply IH. }
  assert (Hfb : f ∉ before).
  { intros Hfb. apply (Hdisj f Hfb). apply elem_of_cons. now left. }
  rewrite (Hgo _ _ H1), unlink_all_cons_missing
    by (rewrite (H3 f Hfb); exact Hf).
  cbn [threw set_threw]. split; [reflexivity|].
  intros n Hn. cbn [files set_threw]. apply H3.
  intros Hnb. apply (Hdisj n Hnb). apply elem_of_cons. now right.
Qed.

(** ** What the events of a run show *)

Lemma captures_app (t1 t2 : list event) :
  captures (t1 ++ t2) = (captures t1 + captures t2)%nat.
Proof. unfold captures. now rewrite List.filter_app, length_app. Qed.

Lemma quiet_app (t1 t2 : list event) : quiet t1 -> quiet t2 -> quiet (t1 ++ t2).
Proof.
  intros (A1 & A2 & A3 & A4) (B1 & B2 & B3 & B4). unfold quiet.
  rewrite captures_app, existsb_app, omap_app, List.filter_app.
  rewrite A1, A2, A3, A4, B1, B2, B3, B4. now repeat split.
Qed.

Lemma quiet_nil : quiet [].
Proof. now repeat split. Qed.

Lemma quiet_schedule (argv : Argv) (c : VirtualTimeController callback) :
  onInstalled_ c = None ->
  quiet (flat_map (react argv) (frame_effects c ++ schedule_effects c)).
Proof.
  intros H. unfold frame_effects, schedule_effects, installed_call.
  rewrite H.
  destruct (_ && _); [destruct (Qeq_bool _ _)|]; now repeat split.
Qed.

Lemma unlink_all_client (names : list string) (s : session) :
  page (unlink_all names s) = page s
  /\ frameCounter (unlink_all names s) = frameCounter s
  /\ allFrameFilenames (unlink_all names s) = allFrameFilenames s
  /\ exists evs,
       timeline (unlink_all names s) = timeline s ++ evs /\ quiet evs.
Proof.
  revert s. induction names as [|f names IH]; intros s.
  - repeat split. exists []. split; [now rewrite app_nil_r|apply quiet_nil].
  - destruct (files s !! f) as [d|] eqn:Hd.
    + destruct (threw s) eqn:Ht.
      * cbn [unlink_all]. unfold unlinkSync. rewrite Hd. cbn zeta.
        cbn [threw record set_files]. rewrite Ht. repeat split.
        exists [fs_unlinkSync f]. split; [reflexivity|now repeat split].
      * rewrite (unlink_all_cons f d names s Hd Ht).
        destruct (IH (record [fs_unlinkSync f]
                        (set_files (delete f (files s)) s)))
          as (H1 & H2 & H3 & evs & H4 & H5).
        split; [exact H1|]. split; [exact H2|]. split; [exact H3|].
        exists ([fs_unlinkSync f] ++ evs). split.
        -- rewrite H4. cbn [timeline record set_files].
           now rewrite <- app_assoc.
        -- apply quiet_app; [now repeat split|exact H5].
    + rewrite (unlink_all_cons_missing f names s Hd). repeat split.
      exists []. split; [now rewrite app_nil_r|apply quiet_nil].
Qed.

(** ** The capture loop as a whole *)

Section RunLoop.
Variable argv : Argv.
Variable browser : Browser.

(** The end of the run: the browser is shut down, and the frames are
    deleted only if no video is made and they are not to be kept. *)
Lemma finish_client (s : session) :
  page (finish argv s) = page s
  /\ frameCounter (finish argv s) = frameCounter s
  /\ allFrameFilenames (finish argv s) = allFrameFilenames s
  /\ exists evs,
       timeline (finish argv s) = timeline s ++ evs
       /\ captures evs = 0%nat
       /\ existsb is_kill evs = true
       /\ omap written evs = []
       /\ List.filter is_installation evs = [].
Proof.
  unfold finish. cbn zeta.
  destruct (noVideo argv); cbn [negb]; [destruct (keepFrames argv)|];
    cbn [negb].
  - repeat split. eexists. split.
    + cbn [timeline record]. rewrite <- !app_assoc. reflexivity.
    + now repeat split.
  - match goal with
    | |- context [unlink_all ?l ?s0] =>
        destruct (unlink_all_client l s0) as (H1 & H2 & H3 & evs & H4 & H5)
    end.
    cbn [page frameCounter allFrameFilenames timeline record] in *.
    split; [exact H1|]. split; [exact H2|]. split; [exact H3|].
    eexists. split.
    + rewrite H4, <- !app_assoc. reflexivity.
    + destruct H5 as (Q1 & Q2 & Q3 & Q4).
      rewrite !captures_app, !existsb_app, !omap_app, !List.filter_app.
      rewrite Q1, Q2, Q3, Q4. now repeat split.
  - repeat split. eexists. split.
    + cbn [timeline record]. rewrite <- !app_assoc. reflexivity.
    + now repeat split.
Qed.

Lemma finish_files_kept (s : session) :
  noVideo argv = false \/ keepFrames argv = true ->
  files (finish argv s) = files s /\ threw (finish argv s) = threw s.
Proof.
  intros H. unfold finish. cbn zeta.
  destruct (noVideo argv); cbn [negb]; [destruct (keepFrames argv)|];
    cbn [negb]; try (now split).
  destruct H; discriminate.
Qed.

Lemma finish_files_deleted (s : session) :
  noVideo argv = true -> keepFrames argv = false ->
  threw s = false -> NoDup (allFrameFilenames s) ->
  (forall n, n ∈ allFrameFilenames s -> is_Some (files s !! n)) ->
  threw (finish argv s) = false
  /\ (forall n, n ∈ allFrameFilenames s -> files (finish argv s) !! n = None)
  /\ (forall n, n ∉ allFrameFilenames s ->
        files (finish argv s) !! n = files s !! n).
Proof.
  intros Hv Hk Ht Hnd Hin. unfold finish. cbn zeta. rewrite Hv, Hk.
  cbn [negb].
  match goal with
  | |- context [unlink_all ?l ?s0] =>
      destruct (unlink_all_present l s0 Ht Hnd Hin) as (H1 & H2 & H3 & _)
  end.
  cbn [threw files record]. now repeat split.
Qed.

(** The handlers of the encoder's events. *)
Lemma on_ffmpeg_error (message : string) (s : session) :
  on_ffmpeg argv (ffmpeg_error message) s
  = record [console_log ("An error occurred: " +:+ message)] s.
Proof. reflexivity. Qed.

End RunLoop.

Section CaptureLoop.
Variable argv : Argv.
Variable browser : Browser.





End CaptureLoop.

Section CaptureLoopSteps.
Variable argv : Argv.
Variable browser : Browser.


Ltac observe :=
  rewrite ?captures_app, ?existsb_app, ?omap_app, ?List.filter_app.


End CaptureLoopSteps.

(** ** The whole run *)

Section WholeRun.
Variable argv : Argv.
Variable browser : Browser.

Ltac observe :=
  rewrite ?captures_app, ?existsb_app, ?omap_app, ?List.filter_app.

(** What [run] has done when [grantInitialTime] returns. *)
Lemma run_timeline (fs : gmap string string) :
  timeline (run argv browser fs)
  = [Protocol (Emulation_pause 10000);
     Protocol (HeadlessExperimental_beginFrame (virtualTimeTicksBase browser)
                 (Some false) None);
     Protocol (Emulation_setVirtualTimePolicy 1 100000 true);
     Protocol (Call_onInstalled cb_onInstalled (virtualTimeTicksBase browser));
     Page_navigate (targetUrl argv)].
Proof. reflexivity. Qed.



End WholeRun.

(** ** The installation in a run *)

Section RunInstallation.
Variable argv : Argv.
Variable browser : Browser.

Ltac observe :=
  rewrite ?captures_app, ?existsb_app, ?omap_app, ?List.filter_app.

Lemma invoke_grantTime_installation (budget : Q) (cb : callback) (s : session) :
  onInstalled_ (controller (page s)) = None ->
  onInstalled_ (controller (page (snd (invoke argv (grantTime budget cb) s))))
  = None
  /\ List.filter is_installation
       (timeline (snd (invoke argv (grantTime budget cb) s)))
     = List.filter is_installation (timeline s).
Proof.
  intros Hi. rewrite invoke_grantTime. cbn [page timeline]. split.
  - rewrite exec_GrantTime. reflexivity.
  - observe.
    destruct (quiet_schedule argv (granting budget cb (controller (page s))) Hi)
      as (_ & _ & _ & ->).
    now rewrite app_nil_r.
Qed.

(** No callback of the run and no expiry calls [onInstalled] or navigates
    again. *)
Lemma budgetExpired_installation (s : session) :
  onInstalled_ (controller (page s)) = None ->
  onInstalled_ (controller (page (budgetExpired argv browser s))) = None
  /\ List.filter is_installation (timeline (budgetExpired argv browser s))
     = List.filter is_installation (timeline s).
Proof.
  intros Hi.
  destruct (outstanding (page s)) as [b|] eqn:Ho;
    [|now rewrite budgetExpired_idle].
  assert (Hsome : is_Some (outstanding (page s))) by (rewrite Ho; now eexists).
  destruct (installed_step BudgetExpired (page s) Hi eq_refl) as [Hi' _].
  destruct (Qeq_bool (remaining (page s) - chunk (page s)) 0) eqn:E.
  - apply Qeq_bool_iff in E.
    destruct (onExpired_ (controller (page s))) as [cb|] eqn:Hcb.
    + rewrite (budgetExpired_last argv browser s cb Hsome E Hcb).
      destruct cb; cbn [dispatch].
      * cbn [page timeline]. split; [exact Hi'|]. observe.
        now rewrite app_nil_r.
      * unfold onExpired.
        match goal with
        | |- context [invoke argv (grantTime ?b ?c) ?s0] =>
            destruct (invoke_grantTime_installation b c s0 Hi') as [-> ->]
        end.
        split; [reflexivity|].
        cbn [timeline set_allFrameFilenames set_frameCounter]. observe.
        now rewrite app_nil_r.
      * rewrite timeExpired_run.
        match goal with
        | |- context [captured argv browser ?s0] => set (s1 := s0)
        end.
        assert (Hc : onInstalled_ (controller (page (captured argv browser s1)))
                     = None) by exact Hi'.
        assert (Ht : List.filter is_installation
                       (timeline (captured argv browser s1))
                     = List.filter is_installation (timeline s)).
        { unfold captured, s1. cbn [timeline]. observe.
          now rewrite !app_nil_r. }
        destruct (JS.ltb _ _).
        -- destruct (invoke_grantTime_installation
                       (timeBetweenFramesInMilliseconds argv) cb_timeExpired
                       (captured argv browser s1) Hc) as [-> ->].
           now split.
        -- destruct (finish_client argv (captured argv browser s1))
             as (-> & _ & _ & fev & -> & _ & _ & _ & F8).
           split; [exact Hc|]. observe. now rewrite F8, app_nil_r.
    + unfold budgetExpired. rewrite Ho.
      unfold call, budget_consumed. cbn [controller outstanding trace].
      rewrite virtualTimeBudgetExpired_run.
      change (remainingBudget_ (advanced (controller (page s))))
        with (remaining (page s) - chunk (page s)).
      apply Qeq_bool_iff in E. rewrite E. cbn [fst snd].
      unfold expired_call.
      change (onExpired_ (advanced (controller (page s))))
        with (onExpired_ (controller (page s))).
      rewrite Hcb. cbn [flat_map foldl page timeline record set_page controller].
      split; [exact Hi|]. now rewrite app_nil_r.
  - assert (Hne : ~ remaining (page s) - chunk (page s) == 0).
    { intros H. apply Qeq_bool_iff in H. congruence. }
    rewrite (budgetExpired_more argv browser s Hsome Hne).
    cbn [page timeline]. split; [exact Hi'|]. observe.
    destruct (quiet_schedule argv (advanced (controller (page s))) Hi)
      as (_ & _ & _ & ->).
    now rewrite app_nil_r.
Qed.

Lemma run_for_installation (n : nat) (fs : gmap string string) :
  onInstalled_ (controller (page (run_for argv browser n fs))) = None
  /\ List.filter is_installation (timeline (run_for argv browser n fs))
     = installation argv browser.
Proof.
  induction n as [|n [IH1 IH2]].
  - split; reflexivity.
  - change (run_for argv browser (S n) fs)
      with (budgetExpired argv browser (run_for argv browser n fs)).
    destruct (budgetExpired_installation _ IH1) as [-> ->].
    now split.
Qed.

End RunInstallation.

(** ** The claims about the run *)

(** C6.  Whatever the state of the controller, [grantInitialTime] sends
    the pause request and the full frame, submits the first chunk and then
    calls [onInstalled] with the time base the browser answered, in the
    same call; after that call [onInstalled] is forgotten, and no later
    grant, expiry, capture or stop calls it again.  In [run] the call is
    followed at once by the navigation, nothing navigates before it, and
    neither happens a second time however long the run goes on. *)
Theorem onInstalled_called_once :
  (forall (CB : Type) (budget v : Q) (i e : CB) (base : Q) (w : world CB)
          (ops : list (op CB)),
      forallb (fun o => negb (is_initial o)) ops = true ->
      exists before chunk0 starvation wait after,
        trace (exec_all ops (exec (GrantInitialTime budget v i e base) w))
        = trace w
          ++ before
          ++ [Emulation_setVirtualTimePolicy chunk0 starvation wait;
              Call_onInstalled i base]
          ++ after
        /\ trace (exec (GrantInitialTime budget v i e base) w)
           = trace w
             ++ before
             ++ [Emulation_setVirtualTimePolicy chunk0 starvation wait;
                 Call_onInstalled i base]
        /\ List.filter is_onInstalled before = []
        /\ chunks before = []
        /\ List.filter is_onInstalled after = []
        /\ onInstalled_
             (controller
                (exec_all ops (exec (GrantInitialTime budget v i e base) w)))
           = None)
  /\ (forall (argv : Argv) (browser : Browser) (fs : gmap string string),
        timeline (run argv browser fs)
        = [Protocol (Emulation_pause 10000);
           Protocol (HeadlessExperimental_beginFrame
                       (virtualTimeTicksBase browser) (Some false) None);
           Protocol (Emulation_setVirtualTimePolicy 1 100000 true);
           Protocol (Call_onInstalled cb_onInstalled
                       (virtualTimeTicksBase browser));
           Page_navigate (targetUrl argv)])
  /\ (forall (argv : Argv) (browser : Browser) (fs : gmap string string)
             (n : nat),
        List.filter is_installation (timeline (run_for argv browser n fs))
        = [Protocol (Call_onInstalled cb_onInstalled
                       (virtualTimeTicksBase browser));
           Page_navigate (targetUrl argv)]).
Proof.
  split; [|split].
  - intros CB budget v i e base w ops Hops.
    apply initial_grant_trace. exact Hops.
  - intros. apply run_timeline.
  - intros argv browser fs n.
    now destruct (run_for_installation argv browser n fs).
Qed.

(** C8.  The ['error'] handler of the encoder reports the failure on the
    console and touches no file, whatever [keepFrames] says; when a video
    is to be made, [timeExpired] starts the encoder and deletes nothing
    itself.  Frames that are all on disk are deleted, every one of them
    and nothing else, in two cases only, both with [keepFrames] false:
    by the ['end'] handler, when the encoder has succeeded, and at the end
    of the capture loop, when no video is made.  With [keepFrames] true
    neither deletes anything. *)
Theorem encoder_failure_keeps_frames (argv : Argv) (s : session) :
  (forall message,
     files (on_ffmpeg argv (ffmpeg_error message) s) = files s
     /\ threw (on_ffmpeg argv (ffmpeg_error message) s) = threw s
     /\ timeline (on_ffmpeg argv (ffmpeg_error message) s)
        = timeline s ++ [console_log ("An error occurred: " +:+ message)])
  /\ (noVideo argv = false ->
      files (finish argv s) = files s
      /\ exists evs,
           timeline (finish argv s)
           = timeline s ++ evs
             ++ [ffmpeg_save
                   ("frame-%07d." +:+ extension (format (screenshotOptions argv)))
                   (1000 / timeBetweenFramesInMilliseconds argv)
                   (outputMP4Filename argv);
                 console_log "Finished"])
  /\ (keepFrames argv = true ->
      files (on_ffmpeg argv ffmpeg_end s) = files s
      /\ files (finish argv s) = files s)
  /\ (keepFrames argv = false ->
      threw s = false -> NoDup (allFrameFilenames s) ->
      (forall n, n ∈ allFrameFilenames s -> is_Some (files s !! n)) ->
      (forall n, n ∈ allFrameFilenames s ->
         files (on_ffmpeg argv ffmpeg_end s) !! n = None)
      /\ (forall n, n ∉ allFrameFilenames s ->
            files (on_ffmpeg argv ffmpeg_end s) !! n = files s !! n)
      /\ threw (on_ffmpeg argv ffmpeg_end s) = false
      /\ (noVideo argv = true ->
          (forall n, n ∈ allFrameFilenames s -> files (finish argv s) !! n = None)
          /\ (forall n, n ∉ allFrameFilenames s ->
                files (finish argv s) !! n = files s !! n))).
Proof.
  split; [|split; [|split]].
  - intros message. rewrite on_ffmpeg_error. now repeat split.
  - intros Hv. split.
    + now destruct (finish_files_kept argv s (or_introl Hv)).
    + exists [console_log "Finished capturing frames.";
              console_log_clock_time (elapsedTime (controller (page s)));
              newTarget_close; cri_close; launchedChrome_kill].
      unfold finish. rewrite Hv. cbn zeta. cbn [negb timeline record page].
      rewrite <- !app_assoc. reflexivity.
  - intros Hk. split.
    + unfold on_ffmpeg. rewrite Hk. reflexivity.
    + now destruct (finish_files_kept argv s (or_intror Hk)).
  - intros Hk Ht Hnd Hin.
    assert (Hend : on_ffmpeg argv ffmpeg_end s
                   = unlink_all (allFrameFilenames s)
                       (record [console_log_encoding_time] s)).
    { unfold on_ffmpeg. rewrite Hk. reflexivity. }
    rewrite Hend.
    destruct (unlink_all_present (allFrameFilenames s)
                (record [console_log_encoding_time] s) Ht Hnd Hin)
      as (H1 & H2 & H3 & _).
    split; [exact H2|]. split; [exact H3|]. split; [exact H1|].
    intros Hv.
    destruct (finish_files_deleted argv s Hv Hk Ht Hnd Hin) as (_ & D1 & D2).
    now split.
Qed.

(** * Further properties of the controller *)

Section ControllerProperties.
Context {CB : Type}.
Implicit Types (w : world CB) (o : op CB).












End ControllerProperties.

(** * Further properties of the run *)






Section RunTimes.
Variable argv : Argv.
Variable browser : Browser.
Variable fs : gmap string string.













End RunTimes.

(** ** The run as a whole *)

Section RunProperties.
Variable argv : Argv.
Variable browser : Browser.
Variable fs : gmap string string.




End RunProperties.

(** ** The properties at sample inputs *)


Lemma unlink_all_missing_witness :
  threw (unlink_all (allFrameFilenames sample_disk) sample_disk) = true
  /\ files (unlink_all (allFrameFilenames sample_disk) sample_disk)
     !! "frame-0000003.jpg" = Some "3".
Proof.
  destruct (unlink_all_missing ["frame-0000001.jpg"] ["frame-0000003.jpg"]
              "frame-0000002.jpg" sample_disk) as [H1 H2].
  - reflexivity.
  - apply (bool_decide_unpack _). vm_compute. exact I.
  - intros n Hn. apply list_elem_of_singleton in Hn. subst n.
    exists "1". vm_compute. reflexivity.
  - vm_compute. reflexivity.
  - split; [exact H1|].
    etransitivity;
      [exact (H2 "frame-0000003.jpg"
                (proj2 (list_elem_of_singleton _ _) eq_refl))|].
    vm_compute. reflexivity.
Defined.


(** * Binary64 arithmetic *)

Section Binary64.
Import B64.

Lemma pow2_pos e : 0 < pow2 e.
Proof. apply Qpower_0_lt. reflexivity. Qed.

Lemma pow2_add a b : pow2 (a + b) == pow2 a * pow2 b.
Proof. apply Qpower_plus. discriminate. Qed.

Lemma pow2_le a b : (a <= b)%Z -> pow2 a <= pow2 b.
Proof. intros H. apply Qpower_le_compat_l; [exact H|discriminate]. Qed.

Lemma pow2_lt a b : (a < b)%Z -> pow2 a < pow2 b.
Proof. intros H. apply Qpower_lt_compat_l; [exact H|reflexivity]. Qed.

Lemma pow2_Z e : (0 <= e)%Z -> pow2 e == inject_Z (2 ^ e).
Proof. intros H. symmetry. apply (Zpower_Qpower 2 e H). Qed.

Lemma pow2_opp e : pow2 (- e) == / pow2 e.
Proof. apply Qpower_opp. Qed.

Lemma pow2_cancel e : pow2 e * pow2 (- e) == 1.
Proof. rewrite <- pow2_add, Z.add_opp_diag_r. reflexivity. Qed.

Lemma Qabs_fraction (q : Q) :
  Qabs q * inject_Z (Zpos (Qden q)) == inject_Z (Z.abs (Qnum q)).
Proof.
  destruct q as [n d]. cbn [Qnum Qden Qabs].
  unfold Qeq, Qmult, inject_Z. cbn. lia.
Qed.

Lemma ilog2_spec (q : Q) :
  ~ q == 0 -> pow2 (ilog2 q) <= Qabs q /\ Qabs q < pow2 (ilog2 q + 1).
Proof.
  intros Hq.
  assert (Hn : (0 < Z.abs (Qnum q))%Z).
  { destruct q as [n d]. unfold Qeq in Hq. cbn in *. lia. }
  pose proof (Z.log2_spec _ Hn) as [Ha1 Ha2].
  pose proof (Z.log2_spec (Zpos (Qden q)) (Pos2Z.is_pos _)) as [Hb1 Hb2].
  pose proof (Z.log2_nonneg (Z.abs (Qnum q))) as Ha0.
  pose proof (Z.log2_nonneg (Zpos (Qden q))) as Hb0.
  pose proof (Qabs_fraction q) as Hf.
  pose proof (Qabs_nonneg q) as H0.
  set (a := Z.log2 (Z.abs (Qnum q))) in *.
  set (b := Z.log2 (Zpos (Qden q))) in *.
  rewrite Zle_Qle, <- pow2_Z in Ha1, Hb1 by assumption.
  rewrite <- Z.add_1_r in Ha2, Hb2.
  rewrite Zlt_Qlt, <- pow2_Z in Ha2, Hb2 by lia.
  set (N := inject_Z (Z.abs (Qnum q))) in *.
  set (D := inject_Z (Zpos (Qden q))) in *.
  set (X := Qabs q) in *.
  assert (HD : 0 < D) by (pose proof (pow2_pos b); lra).
  assert (Hup : X < pow2 (a - b + 1)).
  { assert (E : pow2 (a - b + 1) * pow2 b == pow2 (a + 1))
      by (rewrite <- pow2_add; now replace (a - b + 1 + b)%Z with (a + 1)%Z by lia).
    pose proof (pow2_pos (a - b + 1)). nra. }
  assert (Hlo : pow2 (a - b - 1) < X).
  { assert (E : pow2 (a - b - 1) * pow2 (b + 1) == pow2 a)
      by (rewrite <- pow2_add; now replace (a - b - 1 + (b + 1))%Z with a by lia).
    pose proof (pow2_pos (a - b - 1)). nra. }
  unfold ilog2. fold a b X.
  destruct (Qle_bool (pow2 (a - b)) X) eqn:E.
  - apply Qle_bool_iff in E. split; assumption.
  - replace (a - b - 1 + 1)%Z with (a - b)%Z by lia. split; [lra|].
    apply Qnot_le_lt. intros H. apply Qle_bool_iff in H. congruence.
Qed.

Lemma ilog2_lt (q : Q) (K : Z) :
  ~ q == 0 -> Qabs q < pow2 K -> (ilog2 q < K)%Z.
Proof.
  intros Hq Hlt. destruct (ilog2_spec q Hq) as [H1 _].
  apply (Qpower_lt_compat_l_inv 2); [|reflexivity]. fold (pow2 (ilog2 q)) (pow2 K). lra.
Qed.

Lemma ilog2_ge (q : Q) (K : Z) :
  ~ q == 0 -> pow2 K <= Qabs q -> (K <= ilog2 q)%Z.
Proof.
  intros Hq Hle. destruct (ilog2_spec q Hq) as [_ H2].
  assert (K < ilog2 q + 1)%Z; [|lia].
  apply (Qpower_lt_compat_l_inv 2); [|reflexivity]. fold (pow2 (ilog2 q + 1)) (pow2 K). lra.
Qed.

Lemma rne_error (y : Q) : Qabs (inject_Z (rne y) - y) <= 1 # 2.
Proof.
  unfold rne. pose proof (Qfloor_le y) as H1. pose proof (Qlt_floor y) as H2.
  rewrite inject_Z_plus in H2. change (inject_Z 1) with 1 in H2.
  destruct (Qcompare_spec (y - inject_Z (Qfloor y)) (1 # 2)) as [E|E|E];
    [destruct (Z.even (Qfloor y))| |];
    rewrite ?inject_Z_plus; change (inject_Z 1) with 1;
    apply Qabs_Qle_condition; lra.
Qed.

Lemma rne_int (y : Q) (n : Z) : y == inject_Z n -> rne y = n.
Proof.
  intros H. unfold rne. rewrite (Qfloor_comp _ _ H), Qfloor_Z.
  assert (E : Qcompare (y - inject_Z n) (1 # 2) = Lt).
  { apply Qlt_alt. rewrite H. unfold Qminus. rewrite Qplus_opp_r. reflexivity. }
  now rewrite E.
Qed.

Lemma Qred_int (z : Z) : Qred (inject_Z z) = inject_Z z.
Proof.
  unfold Qred, inject_Z.
  pose proof (Z.ggcd_gcd z 1) as Hg.
  pose proof (Z.ggcd_correct_divisors z 1) as Hd.
  destruct (Z.ggcd z 1) as [g [aa bb]]. cbn [fst snd] in *.
  rewrite Z.gcd_1_r in Hg. subst g. destruct Hd as [-> Hb].
  assert (bb = 1%Z) by lia. subst bb. f_equal. lia.
Qed.

Lemma round_comp (x y : Q) : x == y -> round x = round y.
Proof. intros H. unfold round. now rewrite (Qred_complete _ _ H). Qed.

Lemma round_int (z : Z) : (Z.abs z <= 2 ^ 53)%Z -> round (inject_Z z) = int z.
Proof.
  intros Hz. unfold round. rewrite Qred_int.
  destruct (Qeq_bool (inject_Z z) 0) eqn:E0.
  - apply Qeq_bool_iff in E0. unfold int. f_equal.
    unfold Qeq in E0. cbn in E0. assert (z = 0%Z) by lia. now subst.
  - assert (Hne : ~ inject_Z z == 0).
    { intros H. apply Qeq_bool_iff in H. congruence. }
    assert (Hz0 : z <> 0%Z).
    { intros ->. now apply Hne. }
    assert (Habs : Qabs (inject_Z z) == inject_Z (Z.abs z)).
    { unfold inject_Z. now rewrite <- Zabs_Qabs. }
    assert (Hlo : (0 <= ilog2 (inject_Z z))%Z).
    { apply ilog2_ge; [exact Hne|]. rewrite Habs.
      change (pow2 0) with (inject_Z 1). rewrite <- Zle_Qle. lia. }
    set (k := ilog2 (inject_Z z)) in *.
    assert (He : fexp (inject_Z z) = (k - 52)%Z) by (unfold fexp; fold k; lia).
    rewrite He.
    destruct (ilog2_spec _ Hne) as [Hk1 Hk2]. fold k in Hk1, Hk2.
    rewrite Habs in Hk1, Hk2.
    assert (Hk53 : (k <= 53)%Z).
    { apply (Qpower_le_compat_l_inv 2); [|reflexivity].
      fold (pow2 k) (pow2 53). rewrite (pow2_Z 53) by lia.
      apply Qle_trans with (1 := Hk1). rewrite <- Zle_Qle. exact Hz. }
    assert (Hm : exists m : Z, inject_Z z / pow2 (k - 52) == inject_Z m
                               /\ inject_Z m * pow2 (k - 52) == inject_Z z).
    { destruct (Z.eq_dec k 53%Z) as [->|Hk].
      - assert (Hzz : (Z.abs z = 2 ^ 53)%Z).
        { rewrite (pow2_Z 53) in Hk1 by lia. rewrite <- Zle_Qle in Hk1. lia. }
        exists (z / 2)%Z. change (pow2 (53 - 52)) with 2.
        assert (Hz2 : z = (2 * (z / 2))%Z).
        { destruct (Z.abs_eq_or_opp z) as [Hc|Hc]; rewrite Hc in Hzz.
          - rewrite Hzz. reflexivity.
          - assert (z = (- 2 ^ 53)%Z) by lia. subst z. reflexivity. }
        rewrite Hz2 at 1 4. rewrite inject_Z_mult. change (inject_Z 2) with 2.
        split; field.
      - exists (z * 2 ^ (52 - k))%Z.
        rewrite inject_Z_mult, <- (pow2_Z (52 - k)) by lia.
        pose proof (pow2_cancel (k - 52)) as Hc.
        replace (- (k - 52))%Z with (52 - k)%Z in Hc by lia.
        split.
        + replace (52 - k)%Z with (- (k - 52))%Z by lia.
          now rewrite pow2_opp.
        + rewrite <- Qmult_assoc, (Qmult_comm (pow2 (52 - k))), Hc. ring. }
    destruct Hm as (m & Hm1 & Hm2).
    rewrite (rne_int _ m Hm1).
    assert (Hov : Qle_bool (pow2 1024) (Qabs (inject_Z m * pow2 (k - 52))) = false).
    { destruct (Qle_bool _ _) eqn:E; [|reflexivity].
      apply Qle_bool_iff in E. rewrite Hm2, Habs in E.
      assert (pow2 53 < pow2 1024) by (apply pow2_lt; lia).
      rewrite (pow2_Z 53) in H by lia.
      assert (inject_Z (Z.abs z) <= inject_Z (2 ^ 53)) by (rewrite <- Zle_Qle; exact Hz).
      lra. }
    rewrite Hov. unfold int. f_equal.
    rewrite <- (Qred_int z). now apply Qred_complete.
Qed.

(** The error of rounding a number below [2 ^ K] in absolute value. *)
Lemma round_error (K : Z) (x : Q) :
  (-1021 <= K <= 1023)%Z -> Qabs x < pow2 K ->
  exists r, round x = Finite r /\ Qabs (r - x) <= pow2 (K - 54).
Proof.
  intros HK Hx. unfold round.
  pose proof (Qred_correct x) as Hr.
  set (q := Qred x) in *.
  assert (Hq : Qabs q < pow2 K) by now rewrite Hr.
  destruct (Qeq_bool q 0) eqn:E0.
  - apply Qeq_bool_iff in E0. exists 0. split; [reflexivity|].
    rewrite <- Hr, E0. change (Qabs (0 - 0)) with 0.
    apply Qlt_le_weak, pow2_pos.
  - assert (Hne : ~ q == 0).
    { intros H. apply Qeq_bool_iff in H. congruence. }
    pose proof (ilog2_lt q K Hne Hq) as Hk.
    set (e := fexp q).
    assert (He : (e <= K - 53)%Z) by (unfold e, fexp; lia).
    set (y := q / pow2 e).
    pose proof (rne_error y) as Hy.
    pose proof (pow2_pos e) as Hpe.
    assert (Hdiff : Qabs (inject_Z (rne y) * pow2 e - q) <= pow2 (K - 54)).
    { assert (Eq1 : inject_Z (rne y) * pow2 e - q
                    == (inject_Z (rne y) - y) * pow2 e).
      { unfold y. field. lra. }
      rewrite Eq1, Qabs_Qmult, (Qabs_pos (pow2 e)) by lra.
      assert (Hp : pow2 e <= pow2 (K - 53)) by now apply pow2_le.
      assert (Hh : pow2 (K - 53) == 2 * pow2 (K - 54)).
      { replace (K - 53)%Z with (1 + (K - 54))%Z by lia.
        now rewrite pow2_add. }
      pose proof (Qabs_nonneg (inject_Z (rne y) - y)).
      pose proof (pow2_pos (K - 54)). nra. }
    assert (Hov : Qle_bool (pow2 1024) (Qabs (inject_Z (rne y) * pow2 e)) = false).
    { destruct (Qle_bool _ _) eqn:E; [|reflexivity].
      apply Qle_bool_iff in E.
      pose proof (Qabs_triangle_reverse (inject_Z (rne y) * pow2 e) q) as Ht.
      assert (H1 : pow2 K <= pow2 1023) by (apply pow2_le; lia).
      assert (H2 : pow2 (K - 54) <= pow2 1023) by (apply pow2_le; lia).
      assert (H3 : pow2 1024 == 2 * pow2 1023) by (change 1024%Z with (1 + 1023)%Z; now rewrite pow2_add).
      lra. }
    rewrite Hov. eexists. split; [reflexivity|].
    now rewrite Qred_correct, <- Hr.
Qed.

(** ** Whole numbers: the operations are exact up to [2 ^ 53] *)

Lemma inject_Z_add (a b : Z) : inject_Z a + inject_Z b == inject_Z (a + b).
Proof. now rewrite inject_Z_plus. Qed.

Lemma inject_Z_sub (a b : Z) : inject_Z a - inject_Z b == inject_Z (a - b).
Proof. unfold Z.sub. rewrite inject_Z_plus, inject_Z_opp. reflexivity. Qed.

Lemma add_int (a b : Z) :
  (Z.abs (a + b) <= 2 ^ 53)%Z -> add (int a) (int b) = int (a + b).
Proof.
  intros H. cbn [add int].
  rewrite (round_comp _ _ (inject_Z_add a b)). now apply round_int.
Qed.

Lemma sub_int (a b : Z) :
  (Z.abs (a - b) <= 2 ^ 53)%Z -> sub (int a) (int b) = int (a - b).
Proof.
  intros H. cbn [sub int].
  rewrite (round_comp _ _ (inject_Z_sub a b)). now apply round_int.
Qed.

Lemma Qcompare_int (a b : Z) : Qcompare (inject_Z a) (inject_Z b) = Z.compare a b.
Proof. unfold Qcompare, inject_Z. cbn. now rewrite !Z.mul_1_r. Qed.

Lemma compare_int (a b : Z) : compare (int a) (int b) = Some (Z.compare a b).
Proof. cbn [compare int]. now rewrite Qcompare_int. Qed.

Lemma eqb_int (a b : Z) : eqb (int a) (int b) = (a =? b)%Z.
Proof.
  unfold eqb. rewrite compare_int, Z.eqb_compare.
  destruct (Z.compare a b); reflexivity.
Qed.

Lemma gtb_int (a b : Z) : gtb (int a) (int b) = (b <? a)%Z.
Proof.
  unfold gtb. rewrite compare_int, Z.ltb_antisym, Z.leb_compare.
  destruct (Z.compare a b); reflexivity.
Qed.

Lemma ltb_int (a b : Z) : ltb (int a) (int b) = (a <? b)%Z.
Proof.
  unfold ltb, Z.ltb. rewrite compare_int.
  destruct (Z.compare a b); reflexivity.
Qed.

Lemma min_int (a b : Z) : min (int a) (int b) = int (Z.min a b).
Proof.
  unfold min, Z.min. rewrite compare_int.
  destruct (Z.compare a b); reflexivity.
Qed.

Lemma truthy_int (a : Z) : truthy (int a) = negb (a =? 0)%Z.
Proof.
  cbn [truthy int]. f_equal.
  destruct (Z.eqb_spec a 0) as [->|Hne]; [reflexivity|].
  destruct (Qeq_bool (inject_Z a) 0) eqn:E; [|reflexivity].
  apply Qeq_bool_iff in E. unfold Qeq in E. cbn in E. lia.
Qed.

Lemma int_inj (a b : Z) : int a = int b -> a = b.
Proof. now intros [= H]. Qed.

Lemma rem_int (a b : Z) :
  (0 <= a)%Z -> (0 < b)%Z -> rem (int a) (int b) = int (a mod b).
Proof.
  intros Ha Hb. cbn [rem int].
  assert (Hb0 : Qeq_bool (inject_Z b) 0 = false).
  { destruct (Qeq_bool (inject_Z b) 0) eqn:E; [|reflexivity].
    apply Qeq_bool_iff in E. unfold Qeq in E. cbn in E. lia. }
  rewrite Hb0. cbv iota. unfold int. f_equal.
  assert (Hq : 0 <= inject_Z a / inject_Z b).
  { apply Qle_shift_div_l.
    - change 0 with (inject_Z 0). rewrite <- Zlt_Qlt. exact Hb.
    - rewrite Qmult_0_l. change 0 with (inject_Z 0). rewrite <- Zle_Qle. exact Ha. }
  unfold JS.Qtrunc. apply Qle_bool_iff in Hq. rewrite Hq.
  rewrite <- Zdiv_Qdiv.
  transitivity (Qred (inject_Z (a mod b))); [|apply Qred_int].
  apply Qred_complete.
  rewrite <- inject_Z_mult, inject_Z_sub.
  rewrite Z.mod_eq by lia. reflexivity.
Qed.

Lemma whole_int (a : Z) : whole (int a) = Some a.
Proof. reflexivity. Qed.

Lemma whole_Some (x : number) (a : Z) : whole x = Some a -> x = int a.
Proof.
  destruct x as [[n [d|d|]]| |]; try discriminate. now intros [= ->].
Qed.

Lemma mul_100_1000 : mul (int 100) (int 1000) = int 100000.
Proof. vm_compute. reflexivity. Qed.

(** The chunk for whole numbers. *)
Lemma whole_chunk_bounds (A e r : Z) :
  (0 < A)%Z -> (0 <= r)%Z ->
  (0 <= whole_chunk A e r <= r)%Z /\ (whole_chunk A e r <= A)%Z
  /\ ((0 < r)%Z -> (0 < whole_chunk A e r)%Z).
Proof.
  intros HA Hr. unfold whole_chunk.
  pose proof (Z.mod_pos_bound e A HA). lia.
Qed.

End Binary64.

(** ** The rounding on samples *)

Section Validation.
Import B64.

(** The rounding agrees with the doubles of the kernel. *)
Example round_like_the_kernel :
  add (of_float 0x1.999999999999ap-4) (of_float 0x1.999999999999ap-3)
  = of_float (0x1.999999999999ap-4 + 0x1.999999999999ap-3)%float
  /\ sub (of_float 0x1.bc16d674ec8p+59) (of_float 0x1p+4)
     = of_float (0x1.bc16d674ec8p+59 - 0x1p+4)%float
  /\ add (of_float 0x1.c6bf52634p+49) (of_float 0x1.47ae147ae147bp-7)
     = of_float (0x1.c6bf52634p+49 + 0x1.47ae147ae147bp-7)%float
  /\ literal_0_01 = of_float 0x1.47ae147ae147bp-7
  /\ add (of_float 0x1p+53) (of_float 0x1p+0)
     = of_float (0x1p+53 + 0x1p+0)%float
  /\ div (of_float 0x1p+0) (of_float 0x1.8p+1)
     = of_float (0x1p+0 / 0x1.8p+1)%float
  /\ mul (of_float 0x1.999999999999ap-4) (of_float 0x1.8p+1)
     = of_float (0x1.999999999999ap-4 * 0x1.8p+1)%float
  /\ mul (of_float 0x1p+1000) (of_float 0x1p+1000)
     = of_float (0x1p+1000 * 0x1p+1000)%float
  /\ mul (of_float 0x1.8p-1000) (of_float 0x1.8p-70)
     = of_float (0x1.8p-1000 * 0x1.8p-70)%float
  /\ add (add (add (of_float 0x1p+0) (of_float 0x1.999999999999ap-4))
            (of_float 0x1.999999999999ap-4)) (of_float 0x1.999999999999ap-4)
     = of_float 0x1.4cccccccccccep+0.
Proof. vm_compute. repeat split. Qed.

End Validation.

(** * The controller over binary64 numbers *)

(** ** The methods, one by one *)

Section Methods64.
Import B64.
Context {CB : Type}.
Implicit Types (c : VirtualTimeController CB) (w : world CB).

Ltac step_method :=
  cbv beta iota delta [mbind mret M_bind M_ret bind ret this assign perform].

Lemma scheduleNextChunk_run64 c :
  scheduleNextChunk_ c = (tt, scheduled c, schedule_effects c).
Proof.
  unfold scheduleNextChunk_. step_method.
  unfold scheduled, schedule_effects, installed_call, next_chunk.
  cbn [onInstalled_ set_lastGrantedChunk_ virtualTimeBase_].
  destruct c as [A S tb r lc e [cb|] ex]; reflexivity.
Qed.

Lemma issueAnimationFrameAndScheduleNextChunk_run64 c :
  issueAnimationFrameAndScheduleNextChunk_ c
  = (tt, scheduled c, frame_effects c ++ schedule_effects c).
Proof.
  unfold issueAnimationFrameAndScheduleNextChunk_, frame_effects.
  step_method.
  destruct (gtb (totalElapsedTime_ c) (int 0) && gtb (remainingBudget_ c) (int 0));
    [destruct (eqb _ (int 0))|];
    rewrite scheduleNextChunk_run64; reflexivity.
Qed.

Lemma virtualTimeBudgetExpired_run64 c :
  virtualTimeBudgetExpired c
  = if eqb (remainingBudget_ (advanced c)) (int 0)
    then (tt, advanced c, expired_call (advanced c))
    else (tt, scheduled (advanced c),
          frame_effects (advanced c) ++ schedule_effects (advanced c)).
Proof.
  unfold virtualTimeBudgetExpired. step_method.
  destruct c as [A S tb r lc e i ex].
  unfold advanced, expired_call.
  cbn [set_totalElapsedTime_ set_remainingBudget_ animationFrameInterval_
       maxTaskStarvationCount_ virtualTimeBase_ remainingBudget_
       lastGrantedChunk_ totalElapsedTime_ onInstalled_ onExpired_].
  destruct (eqb (sub r lc) (int 0)).
  - destruct ex; reflexivity.
  - rewrite issueAnimationFrameAndScheduleNextChunk_run64. reflexivity.
Qed.

Lemma grantTime_run64 budget onExpired c :
  grantTime budget onExpired c
  = (tt, scheduled (granting budget onExpired c),
     frame_effects (granting budget onExpired c)
     ++ schedule_effects (granting budget onExpired c)).
Proof.
  unfold grantTime. step_method.
  change (set_onExpired_ (Some onExpired) (set_remainingBudget_ budget c))
    with (granting budget onExpired c).
  rewrite issueAnimationFrameAndScheduleNextChunk_run64. reflexivity.
Qed.

Lemma grantInitialTime_run64 budget initialVirtualTime onInstalled onExpired base c :
  grantInitialTime budget initialVirtualTime onInstalled onExpired base c
  = (tt,
     scheduled (granting budget onExpired
                  (set_onInstalled_ (Some onInstalled)
                     (set_virtualTimeBase_ base c))),
     Emulation_pause initialVirtualTime
     :: HeadlessExperimental_beginFrame base (Some false) None
     :: frame_effects (granting budget onExpired
                         (set_onInstalled_ (Some onInstalled)
                            (set_virtualTimeBase_ base c)))
        ++ schedule_effects (granting budget onExpired
                               (set_onInstalled_ (Some onInstalled)
                                  (set_virtualTimeBase_ base c)))).
Proof.
  unfold grantInitialTime. step_method.
  rewrite grantTime_run64. reflexivity.
Qed.

Lemma stopVirtualTimeGracefully_run64 c :
  stopVirtualTimeGracefully c
  = (tt, if truthy (remainingBudget_ c) then set_remainingBudget_ (int 0) c else c,
     []).
Proof.
  unfold stopVirtualTimeGracefully. step_method.
  destruct (truthy (remainingBudget_ c)); reflexivity.
Qed.

Lemma captureScreenshot_run64 options data c :
  captureScreenshot options data c
  = (data, set_virtualTimeBase_ (add (virtualTimeBase_ c) literal_0_01) c,
     [HeadlessExperimental_beginFrame (currentFrameTime c) None (Some options)]).
Proof. reflexivity. Qed.

End Methods64.

(** ** One call or event at a time *)

Section Steps64.
Import B64.
Context {CB : Type}.
Implicit Types (c : VirtualTimeController CB) (w : world CB).

Lemma browser_after_schedule64 (o : option number) c :
  foldl browser_receive o (frame_effects c ++ schedule_effects c)
  = Some (next_chunk c).
Proof.
  rewrite foldl_app. unfold schedule_effects, installed_call. cbn [foldl].
  destruct (onInstalled_ c); reflexivity.
Qed.

Lemma chunks_app64 (t1 t2 : list (effect CB)) :
  chunks (t1 ++ t2) = chunks t1 ++ chunks t2.
Proof. apply omap_app. Qed.

Lemma chunks_frame_effects64 c : chunks (frame_effects c) = [].
Proof.
  unfold frame_effects.
  destruct (_ && _); [destruct (eqb _ _)|]; reflexivity.
Qed.

Lemma chunks_schedule_effects64 c : chunks (schedule_effects c) = [next_chunk c].
Proof.
  unfold schedule_effects, installed_call. destruct (onInstalled_ c); reflexivity.
Qed.

Lemma chunks_expired_call64 c : chunks (expired_call c) = [].
Proof. unfold expired_call. destruct (onExpired_ c); reflexivity. Qed.

Lemma exec_GrantTime64 budget onExpired w :
  exec (GrantTime budget onExpired) w
  = let c := granting budget onExpired (controller w) in
    {| controller := scheduled c;
       outstanding := Some (next_chunk c);
       trace := trace w ++ frame_effects c ++ schedule_effects c |}.
Proof.
  unfold exec, call. rewrite grantTime_run64. cbn [fst snd].
  rewrite browser_after_schedule64. reflexivity.
Qed.

Lemma exec_GrantInitialTime64 budget initialVirtualTime onInstalled onExpired base w :
  exec (GrantInitialTime budget initialVirtualTime onInstalled onExpired base) w
  = let c := granting budget onExpired
               (set_onInstalled_ (Some onInstalled)
                  (set_virtualTimeBase_ base (controller w))) in
    {| controller := scheduled c;
       outstanding := Some (next_chunk c);
       trace := trace w
                ++ Emulation_pause initialVirtualTime
                   :: HeadlessExperimental_beginFrame base (Some false) None
                   :: frame_effects c ++ schedule_effects c |}.
Proof.
  unfold exec, call. rewrite grantInitialTime_run64. cbn [fst snd foldl].
  rewrite browser_after_schedule64. reflexivity.
Qed.

Lemma exec_BudgetExpired64 w :
  exec BudgetExpired w
  = let c := advanced (controller w) in
    if eqb (remainingBudget_ c) (int 0)
    then {| controller := c; outstanding := None;
            trace := trace w ++ expired_call c |}
    else {| controller := scheduled c;
            outstanding := Some (next_chunk c);
            trace := trace w ++ frame_effects c ++ schedule_effects c |}.
Proof.
  unfold exec, call, budget_consumed. cbn [controller outstanding trace].
  rewrite virtualTimeBudgetExpired_run64. cbn zeta.
  destruct (eqb (remainingBudget_ (advanced (controller w))) (int 0));
    cbn [fst snd].
  - unfold expired_call. destruct (onExpired_ _); reflexivity.
  - rewrite browser_after_schedule64. reflexivity.
Qed.

Lemma exec_StopVirtualTimeGracefully64 w :
  exec StopVirtualTimeGracefully w
  = {| controller := if truthy (remaining w)
                     then set_remainingBudget_ (int 0) (controller w)
                     else controller w;
       outstanding := outstanding w;
       trace := trace w ++ [] |}.
Proof.
  unfold exec, call. rewrite stopVirtualTimeGracefully_run64. reflexivity.
Qed.

Lemma exec_CaptureScreenshot64 options data w :
  exec (CaptureScreenshot options data) w
  = {| controller := set_virtualTimeBase_ (add (timeBase w) literal_0_01) (controller w);
       outstanding := outstanding w;
       trace := trace w
                ++ [HeadlessExperimental_beginFrame
                      (currentFrameTime (controller w)) None (Some options)] |}.
Proof. reflexivity. Qed.

(** The expiry handler splits on whether the chunk that expired was the
    last one of the grant. *)
Lemma expired_last64 w :
  eqb (sub (remaining w) (chunk w)) (int 0) = true ->
  exec BudgetExpired w
  = {| controller := advanced (controller w); outstanding := None;
       trace := trace w ++ expired_call (advanced (controller w)) |}.
Proof.
  intros H. rewrite exec_BudgetExpired64. cbn zeta.
  change (remainingBudget_ (advanced (controller w)))
    with (sub (remaining w) (chunk w)).
  now rewrite H.
Qed.

Lemma expired_more64 w :
  eqb (sub (remaining w) (chunk w)) (int 0) = false ->
  exec BudgetExpired w
  = let c := advanced (controller w) in
    {| controller := scheduled c;
       outstanding := Some (next_chunk c);
       trace := trace w ++ frame_effects c ++ schedule_effects c |}.
Proof.
  intros H. rewrite exec_BudgetExpired64. cbn zeta.
  change (remainingBudget_ (advanced (controller w)))
    with (sub (remaining w) (chunk w)).
  now rewrite H.
Qed.

Lemma in_flight_scheduled64 c t :
  in_flight {| controller := scheduled c; outstanding := Some (next_chunk c);
               trace := t |}.
Proof. split; reflexivity. Qed.

Lemma expire_S64 n w : expire (S n) w = expire n (exec BudgetExpired w).
Proof. unfold expire. apply Nat.iter_succ_r. Qed.

End Steps64.

(** ** The chunks of a grant, as whole numbers *)

Section WholeChunks.
Import B64.
Variable A : Z.
Hypothesis A_pos : (0 < A)%Z.

Lemma total_app (l1 l2 : list Z) : total (l1 ++ l2) = (total l1 + total l2)%Z.
Proof. induction l1 as [|x l1 IH]; cbn [total foldr app] in *; [reflexivity|]. fold (total (l1 ++ l2)) (total l1). lia. Qed.

Lemma whole_chunks_S (fuel : nat) (e r : Z) :
  whole_chunks (S fuel) A e r
  = whole_chunk A e r
    :: (if (r - whole_chunk A e r =? 0)%Z then []
        else whole_chunks fuel A (e + whole_chunk A e r) (r - whole_chunk A e r)).
Proof. reflexivity. Qed.

Lemma whole_chunk_last (e r : Z) :
  (0 <= r)%Z -> (r - whole_chunk A e r = 0)%Z <-> (r <= A - e mod A)%Z.
Proof. intros Hr. unfold whole_chunk. lia. Qed.

Lemma whole_chunk_more (e r : Z) :
  (r - whole_chunk A e r <> 0)%Z -> whole_chunk A e r = (A - e mod A)%Z.
Proof. unfold whole_chunk. lia. Qed.

(** They sum to the budget. *)
Lemma whole_chunks_total (fuel : nat) (e r : Z) :
  (0 <= r)%Z -> (Z.to_nat r < fuel)%nat ->
  total (whole_chunks fuel A e r) = r.
Proof.
  revert e r. induction fuel as [|fuel IH]; intros e r Hr Hf; [lia|].
  rewrite whole_chunks_S.
  pose proof (whole_chunk_bounds A e r A_pos Hr) as (H1 & H2 & H3).
  destruct (Z.eqb_spec (r - whole_chunk A e r) 0) as [E|E].
  - cbn [total foldr]. lia.
  - cbn [total foldr]. fold (total (whole_chunks fuel A (e + whole_chunk A e r) (r - whole_chunk A e r))).
    rewrite IH; lia.
Qed.

(** Each is the chunk computed from the elapsed time and the remaining
    budget that the chunks before it leave. *)
Lemma whole_chunks_lookup (fuel : nat) (e r : Z) (i : nat) (c : Z) :
  (0 <= r)%Z -> (Z.to_nat r < fuel)%nat ->
  whole_chunks fuel A e r !! i = Some c ->
  c = whole_chunk A (e + total (take i (whole_chunks fuel A e r)))
                    (r - total (take i (whole_chunks fuel A e r)))
  /\ (0 <= r - total (take i (whole_chunks fuel A e r)))%Z.
Proof.
  revert e r i. induction fuel as [|fuel IH]; intros e r i Hr Hf; [lia|].
  rewrite whole_chunks_S.
  pose proof (whole_chunk_bounds A e r A_pos Hr) as (H1 & H2 & H3).
  destruct i as [|i].
  - cbn [lookup list_lookup take total foldr]. intros [= <-].
    rewrite Z.add_0_r, Z.sub_0_r. split; [reflexivity|lia].
  - cbn [lookup list_lookup take total foldr].
    destruct (Z.eqb_spec (r - whole_chunk A e r) 0) as [E|E]; [discriminate|].
    intros Hi.
    destruct (IH (e + whole_chunk A e r)%Z (r - whole_chunk A e r)%Z i
                ltac:(lia) ltac:(lia) Hi) as [Hc Hn].
    set (cs := whole_chunks fuel A (e + whole_chunk A e r) (r - whole_chunk A e r)) in *.
    fold (total (take i cs)).
    replace (e + (whole_chunk A e r + total (take i cs)))%Z
      with (e + whole_chunk A e r + total (take i cs))%Z by lia.
    replace (r - (whole_chunk A e r + total (take i cs)))%Z
      with (r - whole_chunk A e r - total (take i cs))%Z by lia.
    split; [exact Hc|exact Hn].
Qed.

(** A chunk that is not the last one is positive, smaller than what
    remains, and ends on a frame boundary. *)
Lemma whole_chunks_inner (fuel : nat) (e r : Z) (i : nat) (c : Z) :
  (0 <= r)%Z -> (Z.to_nat r < fuel)%nat ->
  whole_chunks fuel A e r !! i = Some c ->
  (S i < length (whole_chunks fuel A e r))%nat ->
  (0 < c < r - total (take i (whole_chunks fuel A e r)))%Z
  /\ ((e + total (take i (whole_chunks fuel A e r)) + c) mod A = 0)%Z.
Proof.
  revert e r i. induction fuel as [|fuel IH]; intros e r i Hr Hf; [lia|].
  rewrite whole_chunks_S.
  pose proof (whole_chunk_bounds A e r A_pos Hr) as (H1 & H2 & H3).
  destruct (Z.eqb_spec (r - whole_chunk A e r) 0) as [E|E].
  - destruct i; cbn [length]; lia.
  - pose proof (whole_chunk_more e r E) as Hm.
    destruct i as [|i].
    + cbn [lookup list_lookup take total foldr]. intros [= <-] _.
      rewrite Z.add_0_r, Z.sub_0_r. split; [lia|].
      rewrite Hm. replace (e + (A - e mod A))%Z with (e - e mod A + 1 * A)%Z by lia.
      rewrite Z.mod_add by lia.
      rewrite Zminus_mod_idemp_r, Z.sub_diag. now apply Z.mod_0_l; lia.
    + cbn [lookup list_lookup take total foldr length]. intros Hi Hl.
      destruct (IH (e + whole_chunk A e r)%Z (r - whole_chunk A e r)%Z i
                  ltac:(lia) ltac:(lia) Hi ltac:(lia)) as [Hc Hn].
      set (cs := whole_chunks fuel A (e + whole_chunk A e r) (r - whole_chunk A e r)) in *.
      fold (total (take i cs)).
      replace (e + (whole_chunk A e r + total (take i cs)) + c)%Z
        with (e + whole_chunk A e r + total (take i cs) + c)%Z by lia.
      split; [lia|exact Hn].
Qed.

(** A chunk computed from the elapsed time crosses no frame boundary. *)
Lemma whole_chunk_no_crossing (e r k : Z) :
  ~ (e < k * A < e + whole_chunk A e r)%Z.
Proof.
  unfold whole_chunk. intros [H1 H2].
  pose proof (Z.mod_pos_bound e A A_pos) as Hm.
  pose proof (Z.div_mod e A ltac:(lia)) as Hd.
  assert (H3 : (k * A < A * (e / A) + A)%Z) by lia.
  assert (H4 : (A * (e / A) < k * A)%Z) by lia.
  assert (e / A < k)%Z by nia.
  assert (k < e / A + 1)%Z by nia.
  lia.
Qed.

(** From a frame boundary on, a budget [r > 0] takes [ceil (r / A)]
    chunks. *)
Lemma whole_chunks_aligned (fuel : nat) (e r : Z) :
  (0 < r)%Z -> (Z.to_nat r < fuel)%nat -> (e mod A = 0)%Z ->
  Z.of_nat (length (whole_chunks fuel A e r)) = ((r + A - 1) / A)%Z.
Proof.
  revert e r. induction fuel as [|fuel IH]; intros e r Hr Hf He; [lia|].
  rewrite whole_chunks_S.
  assert (Hc : whole_chunk A e r = Z.min A r) by (unfold whole_chunk; rewrite He; f_equal; lia).
  rewrite Hc.
  destruct (Z.eqb_spec (r - Z.min A r) 0) as [E|E].
  - cbn [length]. assert (r <= A)%Z by lia.
    change (Z.of_nat 1) with 1%Z.
    apply Z.div_unique with (r := (r - 1)%Z); lia.
  - cbn [length]. assert (A < r)%Z by lia.
    replace (Z.min A r) with A in * by lia.
    rewrite Nat2Z.inj_succ, IH; [|lia|lia|].
    + replace (r + A - 1)%Z with (r - A + A - 1 + 1 * A)%Z by lia.
      rewrite Z.div_add by lia. lia.
    + replace (e + A)%Z with (e + 1 * A)%Z by lia.
      now rewrite Z.mod_add by lia.
Qed.

(** In all, a budget takes at most [ceil (r / A) + 1] chunks. *)
Lemma whole_chunks_length (fuel : nat) (e r : Z) :
  (0 <= r)%Z -> (Z.to_nat r < fuel)%nat ->
  (1 <= Z.of_nat (length (whole_chunks fuel A e r)) <= (r + A - 1) / A + 1)%Z.
Proof.
  intros Hr Hf. destruct fuel as [|fuel]; [lia|].
  rewrite whole_chunks_S.
  pose proof (whole_chunk_bounds A e r A_pos Hr) as (H1 & H2 & H3).
  assert (H0 : (0 <= (r + A - 1) / A)%Z) by (apply Z.div_pos; lia).
  destruct (Z.eqb_spec (r - whole_chunk A e r) 0) as [E|E].
  - cbn [length]. lia.
  - pose proof (whole_chunk_more e r E) as Hm.
    cbn [length]. rewrite Nat2Z.inj_succ.
    rewrite whole_chunks_aligned; [|lia|lia|].
    + assert ((r - whole_chunk A e r + A - 1) / A <= (r + A - 1) / A)%Z
        by (apply Z.div_le_mono; lia).
      assert (0 <= (r - whole_chunk A e r + A - 1) / A)%Z by (apply Z.div_pos; lia).
      lia.
    + rewrite Hm. replace (e + (A - e mod A))%Z with (e - e mod A + 1 * A)%Z by lia.
      rewrite Z.mod_add by lia.
      rewrite Zminus_mod_idemp_r, Z.sub_diag. now apply Z.mod_0_l; lia.
Qed.

End WholeChunks.

(** ** The chunking loop *)

Section Chunking64.
Import B64.
Context {CB : Type}.
Implicit Types (c : VirtualTimeController CB) (w : world CB).

Lemma expired_elapsed64 w :
  elapsed (exec BudgetExpired w) = add (elapsed w) (chunk w).
Proof.
  rewrite exec_BudgetExpired64. cbn zeta. destruct (eqb _ (int 0)); reflexivity.
Qed.

Lemma expired_remaining64 w :
  remaining (exec BudgetExpired w) = sub (remaining w) (chunk w).
Proof.
  rewrite exec_BudgetExpired64. cbn zeta. destruct (eqb _ (int 0)); reflexivity.
Qed.

Lemma expired_interval64 w : interval (exec BudgetExpired w) = interval w.
Proof.
  rewrite exec_BudgetExpired64. cbn zeta. destruct (eqb _ (int 0)); reflexivity.
Qed.

Lemma expired_timeBase64 w : timeBase (exec BudgetExpired w) = timeBase w.
Proof.
  rewrite exec_BudgetExpired64. cbn zeta. destruct (eqb _ (int 0)); reflexivity.
Qed.

Lemma expired_onExpired64 w :
  onExpired_ (controller (exec BudgetExpired w)) = onExpired_ (controller w).
Proof.
  rewrite exec_BudgetExpired64. cbn zeta. destruct (eqb _ (int 0)); reflexivity.
Qed.

Lemma expired_in_flight64 w :
  eqb (sub (remaining w) (chunk w)) (int 0) = false ->
  in_flight (exec BudgetExpired w).
Proof. intros H. rewrite (expired_more64 w H). apply in_flight_scheduled64. Qed.

Lemma flight_chunks_seq64 n w :
  flight_chunks n w = map (fun j => chunk (expire j w)) (seq 0 n).
Proof.
  revert w. induction n as [|n IH]; intros w; [reflexivity|].
  cbn [flight_chunks seq map]. f_equal.
  rewrite IH, <- seq_shift, map_map.
  apply map_ext. intros j. now rewrite expire_S64.
Qed.

Lemma completes_pos64 n w : completes n w -> (1 <= n)%nat.
Proof. destruct 1; lia. Qed.

Lemma completes_done64 n w :
  completes n w ->
  eqb (remaining (expire n w)) (int 0) = true
  /\ outstanding (expire n w) = None.
Proof.
  induction 1 as [w _ H|n w _ _ _ IH].
  - change (expire 1 w) with (exec BudgetExpired w). split.
    + now rewrite expired_remaining64.
    + now rewrite (expired_last64 w H).
  - now rewrite expire_S64.
Qed.

Lemma completes_in_flight64 n w j :
  completes n w -> (j < n)%nat -> in_flight (expire j w).
Proof.
  intros H. revert j.
  induction H as [w Hf _|n w Hf _ _ IH]; intros j Hj.
  - replace j with O by lia. exact Hf.
  - destruct j as [|j]; [exact Hf|]. rewrite expire_S64. apply IH. lia.
Qed.

Lemma expire_interval64 j w : interval (expire j w) = interval w.
Proof.
  revert w. induction j as [|j IH]; intros w; [reflexivity|].
  now rewrite expire_S64, IH, expired_interval64.
Qed.

Lemma expire_timeBase64 j w : timeBase (expire j w) = timeBase w.
Proof.
  revert w. induction j as [|j IH]; intros w; [reflexivity|].
  now rewrite expire_S64, IH, expired_timeBase64.
Qed.

Lemma expired_more_chunks64 w :
  eqb (sub (remaining w) (chunk w)) (int 0) = false ->
  chunks (trace (exec BudgetExpired w))
  = chunks (trace w) ++ [chunk (exec BudgetExpired w)].
Proof.
  intros H. rewrite (expired_more64 w H). cbn [trace].
  now rewrite !chunks_app64, chunks_frame_effects64, chunks_schedule_effects64.
Qed.

(** The chunks submitted while the grant runs are the chunks in flight
    after each expiry but the last. *)
Lemma completes_chunks64 n w :
  completes n w ->
  chunks (trace (expire n w)) = chunks (trace w) ++ tail (flight_chunks n w).
Proof.
  induction 1 as [w _ H|n w _ Hm Hn IH].
  - change (expire 1 w) with (exec BudgetExpired w).
    rewrite (expired_last64 w H). cbn [trace flight_chunks tail].
    now rewrite chunks_app64, chunks_expired_call64.
  - rewrite expire_S64, IH, (expired_more_chunks64 w Hm), <- app_assoc.
    cbn [flight_chunks tail]. apply completes_pos64 in Hn.
    destruct n as [|n]; [lia|reflexivity].
Qed.

Lemma filter_onExpired_frame64 c :
  List.filter is_onExpired (frame_effects c) = [].
Proof.
  unfold frame_effects.
  destruct (_ && _); [destruct (eqb _ _)|]; reflexivity.
Qed.

Lemma filter_onExpired_schedule64 c :
  List.filter is_onExpired (frame_effects c ++ schedule_effects c) = [].
Proof.
  rewrite List.filter_app, filter_onExpired_frame64.
  unfold schedule_effects, installed_call.
  destruct (onInstalled_ c); reflexivity.
Qed.

(** The callback is called by the last expiry, and only by it. *)
Lemma completes_callback64 n w j :
  completes n w -> (j < n)%nat ->
  List.filter is_onExpired (trace (expire j w))
  = List.filter is_onExpired (trace w).
Proof.
  intros H. revert j.
  induction H as [w _ _|n w _ Hm _ IH]; intros j Hj.
  - now replace j with O by lia.
  - destruct j as [|j]; [reflexivity|].
    rewrite expire_S64, IH by lia. rewrite (expired_more64 w Hm). cbn [trace].
    now rewrite List.filter_app, filter_onExpired_schedule64, app_nil_r.
Qed.

Lemma expire_onExpired64 j w :
  onExpired_ (controller (expire j w)) = onExpired_ (controller w).
Proof.
  revert w. induction j as [|j IH]; intros w; [reflexivity|].
  now rewrite expire_S64, IH, expired_onExpired64.
Qed.

Lemma completes_trace64 n w :
  completes n w ->
  exists n',
    n = S n'
    /\ trace (expire n w)
       = trace (expire n' w)
         ++ match onExpired_ (controller w) with
            | Some cb => [Call_onExpired cb (elapsed (expire n w))]
            | None => []
            end.
Proof.
  induction 1 as [w _ H|n w _ _ _ (n' & -> & IH)].
  - exists O. split; [reflexivity|].
    change (expire 1 w) with (exec BudgetExpired w).
    rewrite (expired_last64 w H). reflexivity.
  - exists (S n'). split; [reflexivity|].
    rewrite !(expire_S64 _ w), IH, expired_onExpired64. reflexivity.
Qed.

(** The state a grant leaves: its first chunk is in flight. *)
Lemma grant_starts64 (o : op CB) w :
  is_grant o = true ->
  in_flight (exec o w)
  /\ remaining (exec o w) = budget_of o
  /\ elapsed (exec o w) = elapsed w
  /\ interval (exec o w) = interval w
  /\ onExpired_ (controller (exec o w)) = onExpired_of o
  /\ chunks (trace (exec o w)) = chunks (trace w) ++ [chunk (exec o w)]
  /\ List.filter is_onExpired (trace (exec o w))
     = List.filter is_onExpired (trace w).
Proof.
  destruct o as [b v i e base|b e| | |]; try discriminate; intros _.
  - rewrite exec_GrantInitialTime64. cbn zeta.
    repeat split; cbn [trace].
    + rewrite chunks_app64. f_equal.
      change (chunks (_ :: _ :: ?t)) with (chunks t).
      now rewrite chunks_app64, chunks_frame_effects64, chunks_schedule_effects64.
    + rewrite List.filter_app. cbn [List.filter is_onExpired].
      rewrite filter_onExpired_schedule64. now rewrite app_nil_r.
  - rewrite exec_GrantTime64. cbn zeta.
    repeat split; cbn [trace].
    + now rewrite !chunks_app64, chunks_frame_effects64, chunks_schedule_effects64.
    + rewrite List.filter_app, filter_onExpired_schedule64. now rewrite app_nil_r.
Qed.

(** ** A grant on whole numbers *)

Lemma next_chunk_whole c (A e r : Z) :
  animationFrameInterval_ c = int A -> totalElapsedTime_ c = int e ->
  remainingBudget_ c = int r ->
  (0 < A <= 2 ^ 53)%Z -> (0 <= e)%Z ->
  next_chunk c = int (whole_chunk A e r).
Proof.
  intros HA He Hr HA' He'. unfold next_chunk, whole_chunk.
  rewrite HA, He, Hr, rem_int by lia.
  pose proof (Z.mod_pos_bound e A ltac:(lia)).
  rewrite sub_int by lia. apply min_int.
Qed.

Lemma whole_flight_chunk (A e r : Z) w :
  whole_flight A e r w -> chunk w = int (whole_chunk A e r).
Proof.
  intros [HA He Hr [_ Hc] HA' He' Hr' Hs]. rewrite Hc.
  now apply next_chunk_whole.
Qed.

(** The state a grant of a whole budget leaves. *)
Lemma grant_whole_flight (o : op CB) (A e B : Z) w :
  is_grant o = true -> budget_of o = int B ->
  interval w = int A -> elapsed w = int e ->
  (0 < A <= 2 ^ 53)%Z -> (0 <= e)%Z -> (0 <= B)%Z -> (e + B <= 2 ^ 53)%Z ->
  whole_flight A e B (exec o w).
Proof.
  intros Hg Hb HA He HA' He' HB Hs.
  destruct (grant_starts64 o w Hg) as (G1 & G2 & G3 & G4 & _).
  constructor; try assumption.
  - now rewrite G4.
  - now rewrite G3.
  - now rewrite G2.
Qed.

(** The expiry of the last chunk of the grant. *)
Lemma whole_expired_last (A e r : Z) w :
  whole_flight A e r w -> (r - whole_chunk A e r = 0)%Z ->
  eqb (sub (remaining w) (chunk w)) (int 0) = true
  /\ elapsed (exec BudgetExpired w) = int (e + r)
  /\ remaining (exec BudgetExpired w) = int 0.
Proof.
  intros Hw Hl. pose proof (whole_flight_chunk A e r w Hw) as Hc.
  destruct Hw as [HA He Hr Hf HA' He' Hr' Hs].
  assert (Hcr : whole_chunk A e r = r) by lia.
  rewrite Hcr in Hc.
  rewrite expired_elapsed64, expired_remaining64, He, Hr, Hc.
  rewrite add_int, sub_int by lia. rewrite Z.sub_diag.
  now repeat split.
Qed.

(** The expiry of a chunk that is not the last one. *)
Lemma whole_expired_more (A e r : Z) w :
  whole_flight A e r w -> (r - whole_chunk A e r <> 0)%Z ->
  eqb (sub (remaining w) (chunk w)) (int 0) = false
  /\ whole_flight A (e + whole_chunk A e r) (r - whole_chunk A e r)
       (exec BudgetExpired w).
Proof.
  intros Hw Hm. pose proof (whole_flight_chunk A e r w Hw) as Hc.
  destruct Hw as [HA He Hr Hf HA' He' Hr' Hs].
  pose proof (whole_chunk_bounds A e r ltac:(lia) Hr') as (H1 & H2 & H3).
  assert (Hne : eqb (sub (remaining w) (chunk w)) (int 0) = false).
  { rewrite Hr, Hc, sub_int, eqb_int by lia. now apply Z.eqb_neq. }
  split; [exact Hne|]. constructor; try lia.
  - now rewrite expired_interval64.
  - rewrite expired_elapsed64, He, Hc. apply add_int. lia.
  - rewrite expired_remaining64, Hr, Hc. apply sub_int. lia.
  - now apply expired_in_flight64.
Qed.

(** The grant is used up after one expiry for each of its chunks. *)
Lemma whole_completes (fuel : nat) (A e r : Z) w :
  whole_flight A e r w -> (Z.to_nat r < fuel)%nat ->
  completes (length (whole_chunks fuel A e r)) w
  /\ elapsed (expire (length (whole_chunks fuel A e r)) w) = int (e + r)
  /\ remaining (expire (length (whole_chunks fuel A e r)) w) = int 0.
Proof.
  revert e r w. induction fuel as [|fuel IH]; intros e r w Hw Hf; [lia|].
  rewrite whole_chunks_S.
  pose proof (whole_r _ _ _ _ Hw) as Hr.
  pose proof (whole_A _ _ _ _ Hw) as HA.
  pose proof (whole_chunk_bounds A e r ltac:(lia) Hr) as (H1 & H2 & H3).
  destruct (Z.eqb_spec (r - whole_chunk A e r) 0) as [E|E].
  - destruct (whole_expired_last A e r w Hw E) as (L1 & L2 & L3).
    cbn [length]. change (expire 1 w) with (exec BudgetExpired w).
    split; [|split; assumption].
    apply completes_last; [apply (whole_in_flight _ _ _ _ Hw)|exact L1].
  - destruct (whole_expired_more A e r w Hw E) as (M1 & M2).
    destruct (IH _ _ _ M2 ltac:(lia)) as (I1 & I2 & I3).
    cbn [length]. rewrite !expire_S64. split; [|split].
    + apply completes_more; [apply (whole_in_flight _ _ _ _ Hw)|exact M1|exact I1].
    + rewrite I2. f_equal. lia.
    + exact I3.
Qed.

(** The state after each expiry but the last: the chunk in flight is the
    next of the whole chunks. *)
Lemma whole_states (fuel : nat) (A e r : Z) w (i : nat) (c : Z) :
  whole_flight A e r w -> (Z.to_nat r < fuel)%nat ->
  whole_chunks fuel A e r !! i = Some c ->
  whole_flight A (e + total (take i (whole_chunks fuel A e r)))
                 (r - total (take i (whole_chunks fuel A e r)))
                 (expire i w)
  /\ chunk (expire i w) = int c.
Proof.
  revert e r w i. induction fuel as [|fuel IH]; intros e r w i Hw Hf; [lia|].
  rewrite whole_chunks_S.
  pose proof (whole_r _ _ _ _ Hw) as Hr.
  pose proof (whole_A _ _ _ _ Hw) as HA.
  pose proof (whole_chunk_bounds A e r ltac:(lia) Hr) as (H1 & H2 & H3).
  destruct i as [|i].
  - cbn [lookup list_lookup take total foldr]. intros [= <-].
    rewrite Z.add_0_r, Z.sub_0_r. split; [exact Hw|].
    now apply whole_flight_chunk.
  - cbn [lookup list_lookup take total foldr].
    destruct (Z.eqb_spec (r - whole_chunk A e r) 0) as [E|E]; [discriminate|].
    intros Hi.
    destruct (whole_expired_more A e r w Hw E) as (_ & M2).
    destruct (IH _ _ _ i M2 ltac:(lia) Hi) as [I1 I2].
    set (cs := whole_chunks fuel A (e + whole_chunk A e r) (r - whole_chunk A e r)) in *.
    fold (total (take i cs)). rewrite expire_S64.
    replace (e + (whole_chunk A e r + total (take i cs)))%Z
      with (e + whole_chunk A e r + total (take i cs))%Z by lia.
    replace (r - (whole_chunk A e r + total (take i cs)))%Z
      with (r - whole_chunk A e r - total (take i cs))%Z by lia.
    split; assumption.
Qed.

Lemma whole_flight_chunks (fuel : nat) (A e r : Z) w :
  whole_flight A e r w -> (Z.to_nat r < fuel)%nat ->
  flight_chunks (length (whole_chunks fuel A e r)) w
  = int <$> whole_chunks fuel A e r.
Proof.
  revert e r w. induction fuel as [|fuel IH]; intros e r w Hw Hf; [lia|].
  rewrite whole_chunks_S.
  pose proof (whole_r _ _ _ _ Hw) as Hr.
  pose proof (whole_flight_chunk A e r w Hw) as Hc.
  destruct (Z.eqb_spec (r - whole_chunk A e r) 0) as [E|E].
  - cbn [length flight_chunks fmap list_fmap]. now rewrite Hc.
  - destruct (whole_expired_more A e r w Hw E) as (_ & M2).
    pose proof (whole_A _ _ _ _ Hw) as HA.
    pose proof (whole_chunk_bounds A e r ltac:(lia) Hr) as (H1 & H2 & H3).
    cbn [length flight_chunks fmap list_fmap].
    rewrite Hc. f_equal. apply IH; [exact M2|lia].
Qed.

End Chunking64.

(** ** The claims about a single grant *)

Section GrantClaims64.
Import B64.
Context {CB : Type}.
Implicit Types (w : world CB) (o : op CB).

(** C1, as amended.  For a grant of a whole budget [B >= 0] on a
    controller whose interval [A > 0] and elapsed time [e >= 0] are whole
    numbers, with [A] and [e + B] at most [2 ^ 53] (so that binary64
    arithmetic is exact): one budget-expiry event for each chunk uses the
    grant up; the budgets submitted with [setVirtualTimePolicy] from the
    grant on are these chunks; they add up to [B], and elapsed time ends
    at [e + B].  While chunk [i] is in flight the elapsed time is [e] plus
    the chunks before it and the remaining budget is [B] minus them; the
    chunk is [min (A - elapsed mod A, remaining)] of these, and no
    multiple of [A] lies strictly between the elapsed time and the
    elapsed time plus the chunk. *)
Theorem whole_grant_chunks_sum_to_budget o (A e B : Z) w :
  is_grant o = true -> budget_of o = int B ->
  interval w = int A -> elapsed w = int e ->
  (0 < A <= 2 ^ 53)%Z -> (0 <= e)%Z -> (0 <= B)%Z -> (e + B <= 2 ^ 53)%Z ->
  exists cs : list Z,
    chunks (trace (expire (length cs) (exec o w)))
    = chunks (trace w) ++ (int <$> cs)
    /\ remaining (expire (length cs) (exec o w)) = int 0
    /\ outstanding (expire (length cs) (exec o w)) = None
    /\ elapsed (expire (length cs) (exec o w)) = int (e + B)
    /\ total cs = B
    /\ forall i c, cs !! i = Some c ->
         elapsed (expire i (exec o w)) = int (e + total (take i cs))
         /\ remaining (expire i (exec o w)) = int (B - total (take i cs))
         /\ outstanding (expire i (exec o w)) = Some (int c)
         /\ c = Z.min (A - (e + total (take i cs)) mod A) (B - total (take i cs))
         /\ forall k : Z,
              ~ (e + total (take i cs) < k * A
                 < e + total (take i cs) + c)%Z.
Proof.
  intros Hg Hb HA He HA' He' HB Hs.
  pose proof (grant_whole_flight o A e B w Hg Hb HA He HA' He' HB Hs) as Hw.
  destruct (grant_starts64 o w Hg) as (_ & _ & _ & _ & _ & G6 & _).
  set (w1 := exec o w) in *.
  set (fuel := S (Z.to_nat B)).
  assert (Hf : (Z.to_nat B < fuel)%nat) by (unfold fuel; lia).
  exists (whole_chunks fuel A e B).
  destruct (whole_completes fuel A e B w1 Hw Hf) as (C1 & C2 & C3).
  destruct (completes_done64 _ _ C1) as [_ C4].
  split; [|split; [exact C3|split; [exact C4|split; [exact C2|split]]]].
  - rewrite (completes_chunks64 _ _ C1), G6, <- app_assoc.
    rewrite (whole_flight_chunks fuel A e B w1 Hw Hf).
    rewrite (whole_flight_chunk A e B w1 Hw).
    unfold fuel. rewrite whole_chunks_S. reflexivity.
  - apply whole_chunks_total; lia.
  - intros i c Hi.
    destruct (whole_states fuel A e B w1 i c Hw Hf Hi) as [S1 S2].
    destruct (whole_chunks_lookup A ltac:(lia) fuel e B i c HB Hf Hi) as [L1 L2].
    split; [apply (whole_elapsed _ _ _ _ S1)|].
    split; [apply (whole_remaining _ _ _ _ S1)|].
    split; [|split; [exact L1|]].
    + destruct (whole_in_flight _ _ _ _ S1) as [-> _]. now rewrite S2.
    + intros k. rewrite L1. apply whole_chunk_no_crossing. lia.
Qed.

(** C10, as amended.  On the same whole numbers the chunking loop ends:
    the [n]-th budget-expiry event after the grant finds the remaining
    budget zero, for some [n] that is at most [ceil (B / A) + 1]; it
    schedules nothing more and calls [onExpired] with the elapsed time
    [e + B], the only such call since the grant; and every chunk but the
    last is positive and leaves a smaller, positive remaining budget. *)
Theorem whole_chunking_terminates o (A e B : Z) w :
  is_grant o = true -> budget_of o = int B ->
  interval w = int A -> elapsed w = int e ->
  (0 < A <= 2 ^ 53)%Z -> (0 <= e)%Z -> (0 <= B)%Z -> (e + B <= 2 ^ 53)%Z ->
  exists n : nat,
    (1 <= n)%nat /\ (Z.of_nat n <= (B + A - 1) / A + 1)%Z
    /\ completes n (exec o w)
    /\ remaining (expire n (exec o w)) = int 0
    /\ outstanding (expire n (exec o w)) = None
    /\ length (chunks (trace (expire n (exec o w))))
       = (length (chunks (trace w)) + n)%nat
    /\ (forall cb, onExpired_of o = Some cb ->
          List.filter is_onExpired (trace (expire n (exec o w)))
          = List.filter is_onExpired (trace w)
            ++ [Call_onExpired cb (int (e + B))])
    /\ (forall j, (S j < n)%nat ->
          exists c r r' : Z,
            chunk (expire j (exec o w)) = int c
            /\ remaining (expire j (exec o w)) = int r
            /\ remaining (expire (S j) (exec o w)) = int r'
            /\ (0 < c)%Z /\ (0 < r' < r)%Z).
Proof.
  intros Hg Hb HA He HA' He' HB Hs.
  pose proof (grant_whole_flight o A e B w Hg Hb HA He HA' He' HB Hs) as Hw.
  destruct (grant_starts64 o w Hg) as (_ & _ & _ & _ & G5 & G6 & G7).
  set (w1 := exec o w) in *.
  set (fuel := S (Z.to_nat B)).
  assert (Hf : (Z.to_nat B < fuel)%nat) by (unfold fuel; lia).
  set (cs := whole_chunks fuel A e B).
  exists (length cs).
  destruct (whole_completes fuel A e B w1 Hw Hf) as (C1 & C2 & C3).
  fold cs in C1, C2, C3.
  destruct (completes_done64 _ _ C1) as [_ C4].
  pose proof (whole_chunks_length A ltac:(lia) fuel e B HB Hf) as Hlen.
  fold cs in Hlen.
  split; [lia|]. split; [lia|]. split; [exact C1|].
  split; [exact C3|]. split; [exact C4|]. split; [|split].
  - pose proof (whole_flight_chunks fuel A e B w1 Hw Hf) as Hfc.
    fold cs in Hfc.
    rewrite (completes_chunks64 _ _ C1), G6, <- app_assoc, !length_app, Hfc.
    f_equal. clear -Hlen.
    destruct cs as [|c0 cs']; [cbn in Hlen; lia|].
    cbn [fmap list_fmap tail length app]. now rewrite length_fmap.
  - intros cb Hcb.
    destruct (completes_trace64 _ _ C1) as (n' & Hn & Ht).
    rewrite Ht, List.filter_app, (completes_callback64 _ _ n' C1) by lia.
    rewrite G7, G5, Hcb, C2. reflexivity.
  - intros j Hj.
    destruct (lookup_lt_is_Some_2 cs j ltac:(lia)) as [c Hc].
    destruct (lookup_lt_is_Some_2 cs (S j) ltac:(lia)) as [c' Hc'].
    destruct (whole_states fuel A e B w1 j c Hw Hf Hc) as [S1 S2].
    destruct (whole_states fuel A e B w1 (S j) c' Hw Hf Hc') as [S3 _].
    destruct (whole_chunks_inner A ltac:(lia) fuel e B j c HB Hf Hc Hj)
      as [I1 _].
    destruct (whole_chunks_inner A ltac:(lia) fuel e B j c HB Hf Hc Hj)
      as [_ I2].
    fold cs in S1, S3, I1.
    exists c, (B - total (take j cs))%Z, (B - total (take (S j) cs))%Z.
    split; [exact S2|]. split; [apply (whole_remaining _ _ _ _ S1)|].
    split; [apply (whole_remaining _ _ _ _ S3)|].
    rewrite (take_S_r cs j c Hc), total_app. cbn [total foldr]. lia.
Qed.

End GrantClaims64.

Section GrantWitnesses64.
Import B64.

Lemma whole_grant_chunks_sum_to_budget_witness :
  exists cs : list Z,
    chunks (trace (expire (length cs)
                     (exec (GrantTime (int 100) 7%nat)
                        (new_world (constructor None None)))))
    = int <$> cs
    /\ total cs = 100%Z.
Proof.
  destruct (whole_grant_chunks_sum_to_budget
              (GrantTime (int 100) 7%nat) 16 0 100
              (new_world (constructor None None)))
    as (cs & H1 & _ & _ & _ & H5 & _).
  - reflexivity.
  - reflexivity.
  - reflexivity.
  - reflexivity.
  - lia.
  - lia.
  - lia.
  - lia.
  - exists cs. split; [exact H1|exact H5].
Defined.

Lemma whole_chunking_terminates_witness :
  exists n : nat,
    (1 <= n)%nat /\ (Z.of_nat n <= 8)%Z
    /\ completes n (exec (GrantTime (int 100) 7%nat)
                      (new_world (constructor None None))).
Proof.
  destruct (whole_chunking_terminates
              (GrantTime (int 100) 7%nat) 16 0 100
              (new_world (constructor None None)))
    as (n & H1 & H2 & H3 & _).
  - reflexivity.
  - reflexivity.
  - reflexivity.
  - reflexivity.
  - lia.
  - lia.
  - lia.
  - lia.
  - exists n. split; [exact H1|]. split; [exact H2|exact H3].
Defined.

(** C1 as stated fails on a controller whose elapsed time is negative:
    after [grantTime(-5)] has expired, [grantTime(30)] submits a chunk of
    21 ms, from -5 to 16, across the boundary at 0.  It fails as well
    for a budget too large for its chunks to count: [grantTime(1e18)]
    submits chunks of 16 ms, and three expiries later the remaining
    budget is still what was granted. *)
Lemma grant_chunks_sum_to_budget_counterexample :
  interval (exec_all [GrantTime (int (-5)) 7%nat; BudgetExpired;
                      GrantTime (int 30) 8%nat]
              (new_world (constructor None None))) = int 16
  /\ elapsed (exec_all [GrantTime (int (-5)) 7%nat; BudgetExpired]
                (new_world (constructor None None))) = int (-5)
  /\ outstanding (exec_all [GrantTime (int (-5)) 7%nat; BudgetExpired;
                            GrantTime (int 30) 8%nat]
                    (new_world (constructor None None))) = Some (int 21)
  /\ ~ (forall k : Z, ~ (-5 < k * 16 < -5 + 21)%Z)
  /\ chunks (trace (expire 3 (exec (GrantTime (int (10 ^ 18)) 7%nat)
                                (new_world (constructor None None)))))
     = [int 16; int 16; int 16; int 16]
  /\ remaining (expire 3 (exec (GrantTime (int (10 ^ 18)) 7%nat)
                            (new_world (constructor None None))))
     = int (10 ^ 18).
Proof.
  split; [reflexivity|]. split; [reflexivity|]. split; [reflexivity|].
  split; [intros H; apply (H 0%Z); lia|].
  split; vm_compute; reflexivity.
Qed.

End GrantWitnesses64.

(** ** Sessions in whole milliseconds *)

Section Sessions64.
Import B64.
Context {CB : Type}.
Implicit Types (w : world CB) (o : op CB).

Lemma granted_app (ops1 ops2 : list (op CB)) :
  granted (ops1 ++ ops2) = (granted ops1 + granted ops2)%Z.
Proof. unfold granted. now rewrite map_app, total_app. Qed.

Lemma whole_budget_grant o (b : Z) :
  is_grant o = true -> whole (budget_of o) = Some b ->
  budget_of o = int b /\ whole_budget o = b.
Proof.
  intros _ H. split; [now apply whole_Some|].
  unfold whole_budget. now rewrite H.
Qed.

Lemma eqb_int_0 (r : Z) : eqb (int r) (int 0) = true -> r = 0%Z.
Proof. rewrite eqb_int. apply Z.eqb_eq. Qed.

(** A new controller is sound. *)
Lemma new_world_whole_sound (A S : option number) (a : Z) :
  interval (new_world (CB := CB) (constructor A S)) = int a ->
  (0 < a <= 2 ^ 53)%Z ->
  whole_sound a 0 0 (new_world (CB := CB) (constructor A S)).
Proof.
  intros Ha Ha'. constructor; try assumption; try reflexivity; try lia.
  intros b Hb. discriminate Hb.
Qed.

Lemma whole_sound_flight (A e r : Z) w b :
  whole_sound A e r w -> outstanding w = Some b -> whole_flight A e r w.
Proof.
  intros [HA He Hr Hf HA' He' Hr' Hs] Hb.
  constructor; try assumption. now apply (Hf b).
Qed.

(** A grant that the discipline allows starts from no remaining budget. *)
Lemma whole_sound_grant (A e r b : Z) w o :
  whole_sound A e r w -> is_grant o = true -> budget_of o = int b ->
  (0 <= b)%Z -> (e + b <= 2 ^ 53)%Z ->
  whole_sound A e b (exec o w).
Proof.
  intros [HA He Hr Hf HA' He' Hr' Hs] Hg Hb Hb' Hs'.
  destruct (grant_whole_flight o A e b w Hg Hb HA He HA' He' Hb' Hs')
    as [GA Ge Gr Gf _ _ _ _].
  constructor; try assumption. now intros _ _.
Qed.

(** One step of the discipline: the state stays in whole numbers, the sum
    of elapsed and remaining time grows by the budget granted, and
    elapsed time does not go down. *)
Lemma whole_allowed_step (A e r : Z) w o :
  whole_sound A e r w -> allowed w o = true ->
  (e + r + whole_budget o <= 2 ^ 53)%Z ->
  exists e' r' : Z,
    whole_sound A e' r' (exec o w)
    /\ (e' + r' = e + r + whole_budget o)%Z
    /\ (e <= e')%Z.
Proof.
  intros Hw Hal Hb.
  destruct o as [b v i ex base|b ex| | |opts data].
  - cbn [allowed] in Hal. apply andb_prop in Hal as [Hal1 Hal2].
    destruct (whole b) as [z|] eqn:Ez; [|discriminate].
    apply Z.leb_le in Hal1.
    rewrite (sound_remaining _ _ _ _ Hw) in Hal2. apply eqb_int_0 in Hal2.
    assert (Hz : whole_budget (GrantInitialTime b v i ex base) = z)
      by (unfold whole_budget; cbn [budget_of]; now rewrite Ez).
    rewrite Hz in *. exists e, z. split; [|lia].
    apply (whole_sound_grant A e r z w _ Hw); try reflexivity; try lia.
    now apply whole_Some.
  - cbn [allowed] in Hal. apply andb_prop in Hal as [Hal1 Hal2].
    destruct (whole b) as [z|] eqn:Ez; [|discriminate].
    apply Z.leb_le in Hal1.
    rewrite (sound_remaining _ _ _ _ Hw) in Hal2. apply eqb_int_0 in Hal2.
    assert (Hz : whole_budget (GrantTime b ex) = z)
      by (unfold whole_budget; cbn [budget_of]; now rewrite Ez).
    rewrite Hz in *. exists e, z. split; [|lia].
    apply (whole_sound_grant A e r z w _ Hw); try reflexivity; try lia.
    now apply whole_Some.
  - cbn [allowed] in Hal.
    destruct (outstanding w) as [b|] eqn:Eo; [|discriminate].
    pose proof (whole_sound_flight A e r w b Hw Eo) as Hf.
    change (whole_budget BudgetExpired) with 0%Z in *.
    pose proof (sound_A _ _ _ _ Hw) as HA.
    pose proof (sound_r _ _ _ _ Hw) as Hr.
    pose proof (sound_e _ _ _ _ Hw) as He.
    pose proof (whole_chunk_bounds A e r ltac:(lia) Hr) as (H1 & H2 & H3).
    destruct (Z.eq_dec (r - whole_chunk A e r)%Z 0%Z) as [E|E].
    + destruct (whole_expired_last A e r w Hf E) as (L1 & L2 & L3).
      exists (e + r)%Z, 0%Z. split; [|lia].
      constructor; try assumption; try lia.
      * rewrite expired_interval64. apply (sound_interval _ _ _ _ Hw).
      * intros b'. rewrite (expired_last64 w L1). discriminate.
    + destruct (whole_expired_more A e r w Hf E)
        as (M1 & [MA Me Mr Mf MA' Me' Mr' Ms]).
      exists (e + whole_chunk A e r)%Z, (r - whole_chunk A e r)%Z.
      split; [|lia].
      constructor; try assumption. now intros _ _.
  - cbn [allowed] in Hal. change (whole_budget _) with 0%Z in *.
    rewrite (sound_remaining _ _ _ _ Hw) in Hal. apply eqb_int_0 in Hal.
    exists e, r. split; [|lia].
    destruct Hw as [HA He Hr Hf HA' He' Hr' Hs].
    assert (Hx : exec StopVirtualTimeGracefully w
                 = {| controller := controller w; outstanding := outstanding w;
                      trace := trace w ++ [] |}).
    { rewrite exec_StopVirtualTimeGracefully64, Hr, Hal. reflexivity. }
    rewrite Hx. constructor; try assumption.
  - change (whole_budget _) with 0%Z in *.
    exists e, r. split; [|lia].
    destruct Hw as [HA He Hr Hf HA' He' Hr' Hs].
    rewrite exec_CaptureScreenshot64. constructor; try assumption.
Qed.

Lemma exec_all_app (ops1 ops2 : list (op CB)) w :
  exec_all (ops1 ++ ops2) w = exec_all ops2 (exec_all ops1 w).
Proof. apply foldl_app. Qed.

Lemma allowed_budget w o : allowed w o = true -> (0 <= whole_budget o)%Z.
Proof.
  destruct o as [b v i ex base|b ex| | |opts data];
    try (intros _; apply Z.le_refl);
    unfold whole_budget; cbn [allowed budget_of]; intros Hal;
    apply andb_prop in Hal as [Hal _];
    destruct (whole b); try discriminate; now apply Z.leb_le.
Qed.

Lemma admissible_granted (ops : list (op CB)) w :
  admissible w ops = true -> (0 <= granted ops)%Z.
Proof.
  revert w. induction ops as [|o ops IH]; intros w Had; [apply Z.le_refl|].
  cbn [admissible] in Had. apply andb_prop in Had as [Hal Had].
  change (granted (o :: ops)) with (whole_budget o + granted ops)%Z.
  pose proof (allowed_budget w o Hal). pose proof (IH _ Had). lia.
Qed.

(** A session that keeps to the discipline. *)
Lemma admissible_whole_sound (ops : list (op CB)) (A e r : Z) w :
  whole_sound A e r w -> admissible w ops = true ->
  (e + r + granted ops <= 2 ^ 53)%Z ->
  exists e' r' : Z,
    whole_sound A e' r' (exec_all ops w)
    /\ (e' + r' = e + r + granted ops)%Z
    /\ (e <= e')%Z.
Proof.
  revert e r w. induction ops as [|o ops IH]; intros e r w Hw Had Hb.
  - exists e, r. split; [exact Hw|]. unfold granted. cbn. lia.
  - cbn [admissible] in Had. apply andb_prop in Had as [Hal Had].
    change (granted (o :: ops)) with (whole_budget o + granted ops)%Z in *.
    pose proof (admissible_granted ops _ Had) as Hg.
    destruct (whole_allowed_step A e r w o Hw Hal ltac:(lia))
      as (e1 & r1 & Hw1 & Hs1 & Hle1).
    destruct (IH e1 r1 (exec o w) Hw1 Had ltac:(lia))
      as (e2 & r2 & Hw2 & Hs2 & Hle2).
    exists e2, r2. split; [exact Hw2|]. lia.
Qed.

(** An expiry event that calls [onExpired] has used up the budget, and
    passes the elapsed time. *)
Lemma expiry_callback64 w cb t :
  trace (exec BudgetExpired w) = trace w ++ [Call_onExpired cb t] ->
  t = elapsed (exec BudgetExpired w)
  /\ eqb (remaining (exec BudgetExpired w)) (int 0) = true.
Proof.
  rewrite expired_remaining64, expired_elapsed64, exec_BudgetExpired64.
  cbn zeta.
  change (remainingBudget_ (advanced (controller w)))
    with (sub (remaining w) (chunk w)).
  destruct (eqb (sub (remaining w) (chunk w)) (int 0)) eqn:E;
    cbn [trace]; intros Ht; apply app_inv_head in Ht.
  - split; [|reflexivity].
    unfold expired_call in Ht.
    destruct (onExpired_ (advanced (controller w))); [|discriminate].
    now injection Ht as _ <-.
  - apply (f_equal (List.filter is_onExpired)) in Ht.
    rewrite filter_onExpired_schedule64 in Ht. discriminate.
Qed.

End Sessions64.

Section SessionClaims64.
Import B64.
Context {CB : Type}.
Implicit Types (w : world CB) (o : op CB).

(** C2, as amended.  In a session in whole milliseconds that starts from
    a new controller whose animation-frame interval is a whole number
    between 1 and [2 ^ 53] and that keeps to the discipline (budgets are
    whole numbers that are not negative, each granted by [grantTime] or
    [grantInitialTime] once the previous one is used up;
    [stopVirtualTimeGracefully] only while no budget remains; expiry
    events only for a budget the browser was given; screenshots at any
    time), as long as the budgets granted add up to [2 ^ 53] at most:
    elapsed and remaining time are whole numbers that are not negative
    and add up to the cumulative sum of the budgets granted so far; when
    an expiry event calls [onExpired], the elapsed time it passes and the
    elapsed time of the controller are that sum; and no allowed step
    makes elapsed time smaller. *)
Theorem whole_budget_accounting (A S : option number) (a : Z)
    (ops : list (op CB)) :
  interval (new_world (CB := CB) (constructor A S)) = int a ->
  (0 < a <= 2 ^ 53)%Z ->
  admissible (new_world (constructor A S)) ops = true ->
  (granted ops <= 2 ^ 53)%Z ->
  exists E R : Z,
    elapsed (exec_all ops (new_world (constructor A S))) = int E
    /\ remaining (exec_all ops (new_world (constructor A S))) = int R
    /\ (0 <= E)%Z /\ (0 <= R)%Z /\ (E + R = granted ops)%Z
    /\ (forall cb t,
          allowed (exec_all ops (new_world (constructor A S))) BudgetExpired
          = true ->
          trace (exec BudgetExpired (exec_all ops (new_world (constructor A S))))
          = trace (exec_all ops (new_world (constructor A S)))
            ++ [Call_onExpired cb t] ->
          t = int (granted ops)
          /\ elapsed (exec BudgetExpired
                        (exec_all ops (new_world (constructor A S))))
             = int (granted ops))
    /\ (forall o,
          allowed (exec_all ops (new_world (constructor A S))) o = true ->
          (granted (ops ++ [o]) <= 2 ^ 53)%Z ->
          exists E' : Z,
            elapsed (exec o (exec_all ops (new_world (constructor A S))))
            = int E'
            /\ (E <= E')%Z).
Proof.
  intros Ha Ha' Had Hg.
  destruct (admissible_whole_sound ops a 0 0 _
              (new_world_whole_sound A S a Ha Ha') Had ltac:(lia))
    as (E & R & Hw & Hsum & HE).
  remember (exec_all ops (new_world (constructor A S))) as w eqn:Ew.
  clear Ew. exists E, R.
  split; [apply (sound_elapsed _ _ _ _ Hw)|].
  split; [apply (sound_remaining _ _ _ _ Hw)|].
  split; [exact HE|]. split; [apply (sound_r _ _ _ _ Hw)|].
  split; [lia|]. split.
  - intros cb t Hal Ht.
    destruct (whole_allowed_step a E R w BudgetExpired Hw Hal)
      as (E1 & R1 & Hw1 & Hs1 & _).
    { change (whole_budget BudgetExpired) with 0%Z. lia. }
    change (whole_budget BudgetExpired) with 0%Z in Hs1.
    destruct (expiry_callback64 w cb t Ht) as [-> Hzero].
    rewrite (sound_remaining _ _ _ _ Hw1) in Hzero.
    apply eqb_int_0 in Hzero.
    rewrite (sound_elapsed _ _ _ _ Hw1).
    assert (E1 = granted ops) as -> by lia. now split.
  - intros o Hal Hg'. rewrite granted_app in Hg'.
    change (granted [o]) with (whole_budget o + 0)%Z in Hg'.
    destruct (whole_allowed_step a E R w o Hw Hal ltac:(lia))
      as (E1 & R1 & Hw1 & _ & Hle).
    exists E1. split; [apply (sound_elapsed _ _ _ _ Hw1)|exact Hle].
Qed.

End SessionClaims64.

(** ** Screenshots and their frame times *)

Section Captures64.
Import B64.
Context {CB : Type}.
Implicit Types (w : world CB) (o : op CB).

(** The double that the literal [0.01] denotes. *)
Lemma literal_0_01_value :
  literal_0_01 = Finite (5764607523034235 # 576460752303423488).
Proof. vm_compute. reflexivity. Qed.

Lemma capture_times_app (t1 t2 : list (effect CB)) :
  capture_times (t1 ++ t2) = capture_times t1 ++ capture_times t2.
Proof. apply omap_app. Qed.

Lemma capture_times_frame_effects (c : VirtualTimeController CB) :
  capture_times (frame_effects c) = [].
Proof.
  unfold frame_effects.
  destruct (_ && _); [destruct (eqb _ _)|]; reflexivity.
Qed.

Lemma capture_times_schedule_effects (c : VirtualTimeController CB) :
  capture_times (schedule_effects c) = [].
Proof.
  unfold schedule_effects, installed_call. destruct (onInstalled_ c); reflexivity.
Qed.

Lemma capture_times_expired_call (c : VirtualTimeController CB) :
  capture_times (expired_call c) = [].
Proof. unfold expired_call. destruct (onExpired_ c); reflexivity. Qed.

(** A call that is neither a screenshot nor the initial grant requests no
    screenshot and leaves the time base alone. *)
Lemma quiet_step o w :
  is_capture_call o = false -> is_initial o = false ->
  timeBase (exec o w) = timeBase w
  /\ capture_times (trace (exec o w)) = capture_times (trace w).
Proof.
  destruct o as [b v i ex base|b ex| | |opts data]; try discriminate;
    intros _ _.
  - rewrite exec_GrantTime64. cbn zeta. split; [reflexivity|].
    cbn [trace].
    now rewrite !capture_times_app, capture_times_frame_effects,
      capture_times_schedule_effects, !app_nil_r.
  - rewrite exec_BudgetExpired64. cbn zeta.
    destruct (eqb _ _); (split; [reflexivity|]); cbn [trace].
    + now rewrite capture_times_app, capture_times_expired_call, app_nil_r.
    + now rewrite !capture_times_app, capture_times_frame_effects,
        capture_times_schedule_effects, !app_nil_r.
  - rewrite exec_StopVirtualTimeGracefully64. split.
    + unfold timeBase. cbn [controller].
      destruct (truthy (remaining w)); reflexivity.
    + cbn [trace]. now rewrite app_nil_r.
Qed.

Lemma quiet_steps (ops : list (op CB)) w :
  forallb (fun o => negb (is_capture_call o) && negb (is_initial o)) ops = true ->
  timeBase (exec_all ops w) = timeBase w
  /\ capture_times (trace (exec_all ops w)) = capture_times (trace w).
Proof.
  revert w. induction ops as [|o ops IH]; intros w H; [now split|].
  cbn [forallb] in H. apply andb_prop in H as [Ho H].
  apply andb_prop in Ho as [Ho1 Ho2].
  apply negb_true_iff in Ho1, Ho2.
  destruct (quiet_step o w Ho1 Ho2) as [Q1 Q2].
  destruct (IH (exec o w) H) as [I1 I2].
  change (exec_all (o :: ops) w) with (exec_all ops (exec o w)).
  now rewrite I1, I2, Q1, Q2.
Qed.

(** What a screenshot request does. *)
Lemma capture_fields options data w :
  trace (exec (CaptureScreenshot options data) w)
  = trace w ++ [HeadlessExperimental_beginFrame
                  (add (timeBase w) (elapsed w)) None (Some options)]
  /\ timeBase (exec (CaptureScreenshot options data) w)
     = add (timeBase w) literal_0_01
  /\ elapsed (exec (CaptureScreenshot options data) w) = elapsed w
  /\ remaining (exec (CaptureScreenshot options data) w) = remaining w
  /\ chunk (exec (CaptureScreenshot options data) w) = chunk w
  /\ interval (exec (CaptureScreenshot options data) w) = interval w
  /\ outstanding (exec (CaptureScreenshot options data) w) = outstanding w.
Proof. now rewrite exec_CaptureScreenshot64. Qed.

Lemma Qabs_bound (x b : Q) : Qabs x <= b -> - b <= x /\ x <= b.
Proof. intros H. now apply Qabs_Qle_condition. Qed.

(** Adding [0.01] to a time base below [2 ^ 47] moves it up. *)
Lemma nudge_increases (t : Q) :
  Qabs t <= inject_Z (2 ^ 47 - 1) ->
  exists t' : Q,
    add (Finite t) literal_0_01 = Finite t'
    /\ t < t'
    /\ Qabs (t' - (t + (5764607523034235 # 576460752303423488))) <= 1 # 128.
Proof.
  intros Ht. rewrite literal_0_01_value. cbn [add].
  set (c := 5764607523034235 # 576460752303423488).
  apply Qabs_bound in Ht as [Ht1 Ht2].
  assert (Hc : (1 # 128) < c /\ c < 1) by (split; reflexivity).
  assert (Hp : pow2 47 == inject_Z (2 ^ 47)) by (now apply pow2_Z).
  assert (Hi : inject_Z (2 ^ 47 - 1) == inject_Z (2 ^ 47) - 1).
  { rewrite <- inject_Z_sub. reflexivity. }
  destruct (round_error 47 (t + c)) as (r & Hr & He).
  - lia.
  - rewrite Hp. apply Qabs_Qlt_condition. rewrite Hi in Ht1, Ht2.
    destruct Hc. split; lra.
  - exists r. split; [exact Hr|].
    change (pow2 (47 - 54)) with (pow2 (-7)) in He.
    assert (H7 : pow2 (-7) == 1 # 128) by reflexivity.
    rewrite H7 in He. split; [|exact He].
    apply Qabs_bound in He as [He1 He2]. destruct Hc. lra.
Qed.

End Captures64.

Section CaptureClaims64.
Import B64.
Context {CB : Type}.
Implicit Types (w : world CB) (o : op CB).

(** C7, as amended.  [captureScreenshot] requests a frame at the double
    nearest to time base plus elapsed time and then sets the time base
    to the double nearest to the time base plus [0.01] (itself the double
    5764607523034235 / 2 ^ 59); [elapsedTime()], the remaining budget,
    the last chunk, the interval, the callbacks and the budget the
    browser holds are what they were.  For a time base below [2 ^ 47] in
    absolute value the new time base is strictly greater than the old
    one, and within 1/128 of the old one plus [0.01]. *)
Theorem captureScreenshot_nudges_time_base options data w :
  trace (exec (CaptureScreenshot options data) w)
  = trace w ++ [HeadlessExperimental_beginFrame
                  (currentFrameTime (controller w)) None (Some options)]
  /\ currentFrameTime (controller w) = add (timeBase w) (elapsed w)
  /\ timeBase (exec (CaptureScreenshot options data) w)
     = add (timeBase w) literal_0_01
  /\ literal_0_01 = Finite (5764607523034235 # 576460752303423488)
  /\ elapsedTime (controller (exec (CaptureScreenshot options data) w))
     = elapsedTime (controller w)
  /\ remaining (exec (CaptureScreenshot options data) w) = remaining w
  /\ chunk (exec (CaptureScreenshot options data) w) = chunk w
  /\ interval (exec (CaptureScreenshot options data) w) = interval w
  /\ onInstalled_ (controller (exec (CaptureScreenshot options data) w))
     = onInstalled_ (controller w)
  /\ onExpired_ (controller (exec (CaptureScreenshot options data) w))
     = onExpired_ (controller w)
  /\ outstanding (exec (CaptureScreenshot options data) w) = outstanding w
  /\ forall t : Q,
       timeBase w = Finite t -> Qabs t <= inject_Z (2 ^ 47 - 1) ->
       exists t' : Q,
         timeBase (exec (CaptureScreenshot options data) w) = Finite t'
         /\ t < t'
         /\ Qabs (t' - (t + (5764607523034235 # 576460752303423488)))
            <= 1 # 128.
Proof.
  rewrite exec_CaptureScreenshot64.
  repeat (split; [first [reflexivity|apply literal_0_01_value]|]).
  intros t Ht Hb. unfold timeBase at 1. cbn [controller virtualTimeBase_ set_virtualTimeBase_].
  rewrite Ht. now apply nudge_increases.
Qed.

(** C4, as amended.  Take two screenshot requests with, in between, any
    calls and events that are neither a screenshot nor the initial
    grant.  If elapsed time has not gone down in between, and time base
    and elapsed times are small enough (their absolute values add up to
    less than [2 ^ 45 - 1]), then the later request presents a frame
    time strictly greater than the earlier one; this covers two requests
    with nothing in between. *)
Theorem later_capture_has_later_frame_time (ops : list (op CB)) w
    options1 data1 options2 data2 (t e e' : Q) :
  forallb (fun o => negb (is_capture_call o) && negb (is_initial o)) ops = true ->
  timeBase w = Finite t -> elapsed w = Finite e ->
  elapsed (exec_all ops (exec (CaptureScreenshot options1 data1) w))
  = Finite e' ->
  e <= e' ->
  Qabs t + Qabs e + Qabs e' + 1 <= inject_Z (2 ^ 45) ->
  exists f1 f2 : Q,
    capture_times
      (trace (exec (CaptureScreenshot options2 data2)
                (exec_all ops (exec (CaptureScreenshot options1 data1) w))))
    = capture_times (trace w) ++ [Finite f1; Finite f2]
    /\ f1 < f2.
Proof.
  intros Hq Ht He He' Hle Hb.
  set (c := 5764607523034235 # 576460752303423488).
  assert (Hc : (3 # 512) < c /\ c < 1 # 2) by (split; reflexivity).
  assert (Hp : pow2 45 == inject_Z (2 ^ 45)) by (now apply pow2_Z).
  assert (H9 : pow2 (45 - 54) == 1 # 512) by reflexivity.
  pose proof (Qabs_nonneg t) as Nt. pose proof (Qabs_nonneg e) as Ne.
  pose proof (Qabs_nonneg e') as Ne'.
  pose proof (Qle_Qabs t) as Ut. pose proof (Qle_Qabs e) as Ue.
  pose proof (Qle_Qabs e') as Ue'.
  pose proof (Qle_Qabs (- t)) as Lt. rewrite Qabs_opp in Lt.
  pose proof (Qle_Qabs (- e)) as Le. rewrite Qabs_opp in Le.
  pose proof (Qle_Qabs (- e')) as Le'. rewrite Qabs_opp in Le'.
  destruct Hc as [Hc1 Hc2].
  destruct (round_error 45 (t + e)) as (f1 & Hf1 & Ef1); [lia| |].
  { rewrite Hp. apply Qabs_Qlt_condition. split; lra. }
  destruct (round_error 45 (t + c)) as (t1 & Ht1 & Et1); [lia| |].
  { rewrite Hp. apply Qabs_Qlt_condition. split; lra. }
  rewrite H9 in Ef1, Et1.
  apply Qabs_bound in Ef1 as [Ef1 Ef1'], Et1 as [Et1 Et1'].
  destruct (round_error 45 (t1 + e')) as (f2 & Hf2 & Ef2); [lia| |].
  { rewrite Hp. apply Qabs_Qlt_condition. split; lra. }
  rewrite H9 in Ef2. apply Qabs_bound in Ef2 as [Ef2 Ef2'].
  exists f1, f2. split; [|lra].
  destruct (capture_fields options1 data1 w) as (C1 & C2 & _).
  set (w1 := exec (CaptureScreenshot options1 data1) w) in *.
  destruct (quiet_steps ops w1 Hq) as [Q1 Q2].
  set (w2 := exec_all ops w1) in *.
  destruct (capture_fields options2 data2 w2) as (D1 & _).
  rewrite D1, capture_times_app, Q2, C1, capture_times_app, <- app_assoc.
  cbn [capture_times omap capture_time app list_omap].
  rewrite Q1, C2, He', Ht, He, literal_0_01_value. cbn [add].
  fold c. rewrite Hf1, Ht1. cbn [add]. now rewrite Hf2.
Qed.

End CaptureClaims64.

(** ** A grant too large for its chunks *)

Section Stalled64.
Import B64.
Context {CB : Type}.
Implicit Types (w : world CB) (o : op CB).

Lemma rne_near (y : Q) (n : Z) :
  Qabs (y - inject_Z n) < 1 # 2 -> rne y = n.
Proof.
  intros H. apply Qabs_Qlt_condition in H as [H1 H2].
  unfold rne.
  pose proof (Qfloor_le y) as F1. pose proof (Qlt_floor y) as F2.
  rewrite inject_Z_plus in F2. change (inject_Z 1) with 1 in F2.
  assert (Hf : (Qfloor y = n \/ Qfloor y = n - 1)%Z).
  { assert (L1 : inject_Z (n - 2) < inject_Z (Qfloor y)).
    { rewrite <- inject_Z_sub. change (inject_Z 2) with 2. lra. }
    assert (L2 : inject_Z (Qfloor y) < inject_Z (n + 1)).
    { rewrite inject_Z_plus. change (inject_Z 1) with 1. lra. }
    rewrite <- Zlt_Qlt in L1, L2. lia. }
  destruct Hf as [Hf|Hf]; rewrite Hf in *.
  - assert (E : Qcompare (y - inject_Z n) (1 # 2) = Lt) by now apply Qlt_alt.
    now rewrite E.
  - assert (E : Qcompare (y - inject_Z (n - 1)) (1 # 2) = Gt).
    { apply Qgt_alt. rewrite <- inject_Z_sub. change (inject_Z 1) with 1. lra. }
    rewrite E. lia.
Qed.

Lemma round_not_NaN (x : Q) : round x <> NaN.
Proof.
  unfold round. destruct (Qeq_bool _ 0); [discriminate|].
  destruct (Qle_bool _ _); discriminate.
Qed.

(** Below [10 ^ 18] the doubles are 128 apart: taking a chunk away
    changes nothing. *)
Lemma round_near_10_18 (c : Q) :
  Qabs c <= 34 -> round (inject_Z (10 ^ 18) - c) = int (10 ^ 18).
Proof.
  intros Hc. apply Qabs_Qle_condition in Hc as [Hc1 Hc2].
  unfold round.
  pose proof (Qred_correct (inject_Z (10 ^ 18) - c)) as Hr.
  set (q := Qred (inject_Z (10 ^ 18) - c)) in *.
  assert (H18 : inject_Z (10 ^ 18) == 1000000000000000000) by reflexivity.
  assert (Hlo : pow2 59 <= q).
  { rewrite (pow2_Z 59) by lia.
    assert (inject_Z (2 ^ 59) == 576460752303423488) by reflexivity. lra. }
  assert (Hhi : q < pow2 60).
  { rewrite (pow2_Z 60) by lia.
    assert (inject_Z (2 ^ 60) == 1152921504606846976) by reflexivity. lra. }
  pose proof (pow2_pos 59) as P59.
  assert (Hne : ~ q == 0) by lra.
  assert (E0 : Qeq_bool q 0 = false).
  { destruct (Qeq_bool q 0) eqn:E; [|reflexivity].
    apply Qeq_bool_iff in E. contradiction. }
  rewrite E0.
  assert (Habs : Qabs q == q) by (apply Qabs_pos; lra).
  assert (Hk : ilog2 q = 59%Z).
  { pose proof (ilog2_lt q 60 Hne ltac:(rewrite Habs; exact Hhi)).
    pose proof (ilog2_ge q 59 Hne ltac:(rewrite Habs; exact Hlo)). lia. }
  assert (He : fexp q = 7%Z) by (unfold fexp; rewrite Hk; reflexivity).
  rewrite He.
  assert (Hrn : rne (q / pow2 7) = 7812500000000000%Z).
  { apply rne_near. change (pow2 7) with 128.
    assert (Hq : q / 128 - inject_Z 7812500000000000
                 == (q - 1000000000000000000) / 128).
    { assert (inject_Z 7812500000000000 == 1000000000000000000 / 128)
        by reflexivity.
      rewrite H. field. }
    rewrite Hq. apply Qabs_Qlt_condition.
    split.
    - apply Qlt_shift_div_l; [reflexivity|]. lra.
    - apply Qlt_shift_div_r; [reflexivity|]. lra. }
  rewrite Hrn. vm_compute. reflexivity.
Qed.

Lemma Qtrunc_near (q : Q) : Qabs (q - inject_Z (JS.Qtrunc q)) < 1.
Proof.
  pose proof (Qtrunc_above q) as H1.
  apply Qabs_Qlt_condition. split; [|lra].
  unfold JS.Qtrunc. destruct (Qle_bool 0 q) eqn:E.
  - pose proof (Qfloor_le q). lra.
  - pose proof (Qceiling_lt q) as H.
    rewrite <- inject_Z_sub in H. change (inject_Z 1) with 1 in H. lra.
Qed.

(** The next chunk of a grant under way with interval 16 and
    [10 ^ 18] ms remaining: at most 34 ms, or no number. *)
Lemma next_chunk_stalled (x : number) :
  min (sub (int 16) (rem x (int 16))) (int (10 ^ 18)) = NaN
  \/ exists c : Q,
       min (sub (int 16) (rem x (int 16))) (int (10 ^ 18)) = Finite c
       /\ Qabs c <= 34.
Proof.
  destruct x as [q| |]; [|now left..].
  right. cbn [rem int].
  change (Qeq_bool (inject_Z 16) 0) with false. cbv iota.
  set (m := Qred (q - inject_Z 16 * inject_Z (JS.Qtrunc (q / inject_Z 16)))).
  assert (Hm : Qabs m < 16).
  { unfold m. rewrite Qred_correct. change (inject_Z 16) with 16.
    assert (E : q - 16 * inject_Z (JS.Qtrunc (q / 16))
                == 16 * (q / 16 - inject_Z (JS.Qtrunc (q / 16)))) by field.
    rewrite E, Qabs_Qmult. change (Qabs 16) with 16.
    pose proof (Qtrunc_near (q / 16)). lra. }
  cbn [sub]. apply Qabs_Qlt_condition in Hm as [Hm1 Hm2].
  destruct (round_error 5 (inject_Z 16 - m)) as (d & Hd & Ed); [lia| |].
  { change (pow2 5) with 32. change (inject_Z 16) with 16.
    apply Qabs_Qlt_condition. split; lra. }
  change (sub (int 16) (Finite m)) with (round (inject_Z 16 - m)).
  rewrite Hd. exists d.
  assert (H49 : pow2 (5 - 54) <= 1).
  { change 1 with (pow2 0). apply pow2_le. lia. }
  apply Qabs_Qle_condition in Ed as [Ed1 Ed2].
  change (inject_Z 16) with 16 in *.
  assert (Hd34 : Qabs d <= 34) by (apply Qabs_Qle_condition; split; lra).
  split; [|exact Hd34].
  unfold min. cbn [compare int].
  assert (E : Qcompare d (inject_Z (10 ^ 18)) = Lt).
  { apply Qlt_alt. apply Qabs_Qle_condition in Hd34 as [_ Hd34].
    assert (H18 : 34 < inject_Z (10 ^ 18)) by reflexivity.
    apply Qle_lt_trans with (1 := Hd34). exact H18. }
  now rewrite E.
Qed.

Lemma next_chunk_fields w :
  next_chunk (controller w)
  = min (sub (interval w) (rem (elapsed w) (interval w))) (remaining w).
Proof. reflexivity. Qed.

(** An expiry leaves such a grant as it was. *)
Lemma stalled_step w :
  stalled w ->
  eqb (sub (remaining w) (chunk w)) (int 0) = false
  /\ stalled (exec BudgetExpired w).
Proof.
  intros (Hf & HA & H).
  assert (Hr : sub (remaining w) (chunk w) = NaN
               \/ sub (remaining w) (chunk w) = int (10 ^ 18)).
  { destruct H as [->|[-> [->|(q & c & _ & -> & Hc)]]].
    - now left.
    - now left.
    - right. cbn [sub int]. now apply round_near_10_18. }
  assert (Hne : eqb (sub (remaining w) (chunk w)) (int 0) = false).
  { destruct Hr as [->| ->]; reflexivity. }
  split; [exact Hne|].
  pose proof (expired_in_flight64 w Hne) as Hf'.
  split; [exact Hf'|]. split; [now rewrite expired_interval64|].
  destruct Hr as [Hr|Hr]; [left; now rewrite expired_remaining64|].
  right. split; [now rewrite expired_remaining64|].
  destruct Hf' as [_ Hc']. rewrite Hc', next_chunk_fields.
  rewrite expired_interval64, HA, expired_remaining64, Hr.
  destruct (next_chunk_stalled (elapsed (exec BudgetExpired w)))
    as [E|(c & E & Hc)].
  - now left.
  - rewrite E. destruct (elapsed (exec BudgetExpired w)) as [q| |] eqn:Ee.
    + right. now exists q, c.
    + discriminate E.
    + discriminate E.
Qed.

Lemma stalled_expire (n : nat) w : stalled w -> stalled (expire n w).
Proof.
  revert w. induction n as [|n IH]; intros w H; [exact H|].
  rewrite expire_S64. apply IH. now apply stalled_step.
Qed.

Lemma stalled_remaining w : stalled w -> eqb (remaining w) (int 0) = false.
Proof. intros (_ & _ & [->|[-> _]]); reflexivity. Qed.

(** [grantTime(1e18)] on a new controller. *)
Lemma grant_10_18_stalled (cb : CB) :
  stalled (exec (GrantTime (int (10 ^ 18)) cb)
             (new_world (constructor None None))).
Proof.
  destruct (grant_starts64 (GrantTime (int (10 ^ 18)) cb)
              (new_world (constructor None None)) eq_refl)
    as (G1 & G2 & G3 & G4 & _).
  split; [exact G1|]. split; [now rewrite G4|].
  right. split; [now rewrite G2|]. right.
  exists 0, 16. split; [now rewrite G3|]. split; [|discriminate].
  destruct G1 as [_ ->]. rewrite next_chunk_fields, G4, G3, G2.
  vm_compute. reflexivity.
Qed.

End Stalled64.

(** * The capture loop over binary64 numbers *)

Section Installation64.
Import B64.
Context {CB : Type}.
Implicit Types (w : world CB) (o : op CB).

Lemma filter_onInstalled_schedule64 (c : VirtualTimeController CB) :
  onInstalled_ c = None ->
  List.filter is_onInstalled (frame_effects c ++ schedule_effects c) = [].
Proof.
  intros H. rewrite List.filter_app.
  unfold frame_effects, schedule_effects, installed_call. rewrite H.
  destruct (_ && _); [destruct (eqb _ _)|]; reflexivity.
Qed.

(** Once the callback has been called it is forgotten: an expiry does
    not call it again. *)
Lemma expired_onInstalled64 w :
  onInstalled_ (controller w) = None ->
  onInstalled_ (controller (exec BudgetExpired w)) = None.
Proof.
  intros Hi. rewrite exec_BudgetExpired64. cbn zeta.
  destruct (eqb _ (int 0)); [exact Hi|reflexivity].
Qed.

Lemma expire_onInstalled64 (n : nat) w :
  onInstalled_ (controller w) = None ->
  onInstalled_ (controller (expire n w)) = None.
Proof.
  intros H. induction n as [|n IH]; [exact H|].
  change (expire (S n) w) with (exec BudgetExpired (expire n w)).
  now apply expired_onInstalled64.
Qed.

End Installation64.

(** ** The capture loop, one callback at a time *)

Section RunSteps64.
Import B64.
Variable argv : Argv.
Variable browser : Browser.

Lemma invoke_grantTime64 (budget : number) (cb : callback) (s : session) :
  snd (invoke argv (grantTime budget cb) s)
  = {| page := exec (GrantTime budget cb) (page s);
       frameCounter := frameCounter s;
       allFrameFilenames := allFrameFilenames s;
       files := files s;
       threw := threw s;
       timeline :=
         timeline s
         ++ flat_map (react argv)
              (frame_effects (granting budget cb (controller (page s)))
               ++ schedule_effects (granting budget cb (controller (page s))))
    |}.
Proof.
  unfold invoke, exec, call. rewrite grantTime_run64. reflexivity.
Qed.

(** [timeExpired] when the browser sends the picture [screen]. *)
Lemma timeExpired_run64 (s : session) (screen : string) :
  render browser (currentFrameTime (controller (page s))) = Some screen ->
  timeExpired argv browser s
  = if ltb (frameCounter s) (totalFramesToCapture argv)
    then snd (invoke argv (grantTime (timeBetweenFramesInMilliseconds argv)
                        cb_timeExpired) (captured argv browser screen s))
    else finish argv (captured argv browser screen s).
Proof.
  intros H. unfold timeExpired, captured. cbn zeta.
  unfold invoke at 1 2. unfold call. rewrite captureScreenshot_run64, H.
  cbn [fst snd]. reflexivity.
Qed.

(** [timeExpired] when it does not: the exception escapes once the
    request has been made. *)
Lemma timeExpired_throws64 (s : session) :
  render browser (currentFrameTime (controller (page s))) = None ->
  timeExpired argv browser s
  = {| page :=
         exec (CaptureScreenshot (screenshotOptions argv) None) (page s);
       frameCounter := frameCounter s;
       allFrameFilenames := allFrameFilenames s;
       files := files s;
       threw := true;
       timeline :=
         timeline s
         ++ [Protocol (HeadlessExperimental_beginFrame
                         (currentFrameTime (controller (page s))) None
                         (Some (screenshotOptions argv)))] |}.
Proof.
  intros H. unfold timeExpired. cbn zeta.
  unfold invoke. unfold call. rewrite captureScreenshot_run64, H.
  reflexivity.
Qed.

Lemma dispatch_none64 (effects : list (effect callback)) (s : session) :
  List.filter is_onExpired effects = [] ->
  foldl (dispatch argv browser) s effects = s.
Proof.
  revert s. induction effects as [|e effects IH]; intros s H; [reflexivity|].
  cbn [foldl]. destruct e; cbn [List.filter is_onExpired] in H;
    try discriminate; cbn [dispatch]; now apply IH.
Qed.

Lemma budgetExpired_idle64 (s : session) :
  outstanding (page s) = None -> budgetExpired argv browser s = s.
Proof. intros H. unfold budgetExpired. now rewrite H. Qed.

(** An expiry in the middle of a grant only concerns the controller. *)
Lemma budgetExpired_more64 (s : session) :
  is_Some (outstanding (page s)) ->
  eqb (sub (remaining (page s)) (chunk (page s))) (int 0) = false ->
  budgetExpired argv browser s
  = {| page := exec BudgetExpired (page s);
       frameCounter := frameCounter s;
       allFrameFilenames := allFrameFilenames s;
       files := files s;
       threw := threw s;
       timeline :=
         timeline s
         ++ flat_map (react argv)
              (frame_effects (advanced (controller (page s)))
               ++ schedule_effects (advanced (controller (page s)))) |}.
Proof.
  intros [b Hb] Hne. unfold budgetExpired. rewrite Hb.
  rewrite (expired_more64 (page s) Hne). cbn zeta.
  unfold call, budget_consumed. cbn [controller outstanding trace].
  rewrite virtualTimeBudgetExpired_run64.
  change (remainingBudget_ (advanced (controller (page s))))
    with (sub (remaining (page s)) (chunk (page s))).
  rewrite Hne.
  cbn [fst snd]. rewrite dispatch_none64 by apply filter_onExpired_schedule64.
  rewrite browser_after_schedule64. reflexivity.
Qed.

(** The expiry that uses up the grant calls the callback stored with it. *)
Lemma budgetExpired_last64 (s : session) (cb : callback) :
  is_Some (outstanding (page s)) ->
  eqb (sub (remaining (page s)) (chunk (page s))) (int 0) = true ->
  onExpired_ (controller (page s)) = Some cb ->
  budgetExpired argv browser s
  = dispatch argv browser
      {| page := exec BudgetExpired (page s);
         frameCounter := frameCounter s;
         allFrameFilenames := allFrameFilenames s;
         files := files s;
         threw := threw s;
         timeline :=
           timeline s
           ++ [Protocol (Call_onExpired cb
                           (add (elapsed (page s)) (chunk (page s))))] |}
      (Call_onExpired cb (add (elapsed (page s)) (chunk (page s)))).
Proof.
  intros [b Hb] He Hcb. unfold budgetExpired. rewrite Hb.
  rewrite (expired_last64 (page s) He).
  unfold call, budget_consumed. cbn [controller outstanding trace].
  rewrite virtualTimeBudgetExpired_run64.
  change (remainingBudget_ (advanced (controller (page s))))
    with (sub (remaining (page s)) (chunk (page s))).
  rewrite He. cbn [fst snd].
  unfold expired_call.
  change (onExpired_ (advanced (controller (page s))))
    with (onExpired_ (controller (page s))).
  rewrite Hcb. reflexivity.
Qed.

End RunSteps64.

(** ** Frame file names *)

Section FrameNames64.
Import B64.

(** The name of frame [k] is the one written with whole numbers. *)
Lemma frameFilename_int (k : Z) (f : ScreenshotFormat) :
  frameFilename (int k) f
  = "frame-" +:+ padStart 7 "0" (pretty k) +:+ "." +:+ extension f.
Proof. unfold frameFilename, toString, int. now rewrite Qfloor_Z. Qed.

Lemma frame_number_frameFilename64 (k : Z) (f : ScreenshotFormat) :
  (1 <= k)%Z -> frame_number (frameFilename (int k) f) = Z.to_N k.
Proof.
  intros Hk. rewrite frameFilename_int.
  now apply (frame_number_frameFilename k f).
Qed.

Lemma frameFilename_inj64 (k k' : Z) (f f' : ScreenshotFormat) :
  (1 <= k)%Z -> (1 <= k')%Z ->
  frameFilename (int k) f = frameFilename (int k') f' -> k = k'.
Proof.
  intros Hk Hk' H. apply (f_equal frame_number) in H.
  rewrite !frame_number_frameFilename64 in H by assumption. lia.
Qed.

End FrameNames64.

(** ** Deleting the frames *)

Section Deleting64.
Import B64.

Lemma unlink_all_cons64 (f d : string) (names : list string) (s : session) :
  files s !! f = Some d -> threw s = false ->
  unlink_all (f :: names) s
  = unlink_all names
      (record [fs_unlinkSync f] (set_files (delete f (files s)) s)).
Proof.
  intros Hd Ht. cbn [unlink_all]. unfold unlinkSync. rewrite Hd.
  cbn zeta. cbn [threw record set_files]. now rewrite Ht.
Qed.

Lemma unlink_all_cons_missing64 (f : string) (names : list string)
    (s : session) :
  files s !! f = None -> unlink_all (f :: names) s = set_threw true s.
Proof.
  intros Hd. cbn [unlink_all]. unfold unlinkSync. now rewrite Hd.
Qed.

Lemma unlink_all_present64 (names : list string) (s : session) :
  threw s = false -> NoDup names ->
  (forall n, n ∈ names -> is_Some (files s !! n)) ->
  threw (unlink_all names s) = false
  /\ (forall n, n ∈ names -> files (unlink_all names s) !! n = None)
  /\ (forall n, n ∉ names -> files (unlink_all names s) !! n = files s !! n)
  /\ timeline (unlink_all names s) = timeline s ++ map fs_unlinkSync names
  /\ page (unlink_all names s) = page s
  /\ frameCounter (unlink_all names s) = frameCounter s
  /\ allFrameFilenames (unlink_all names s) = allFrameFilenames s.
Proof.
  revert s. induction names as [|f names IH]; intros s Ht Hnd Hin.
  - cbn [unlink_all map]. rewrite app_nil_r.
    repeat split; try assumption; try reflexivity.
    intros n Hn. now apply elem_of_nil in Hn.
  - apply NoDup_cons in Hnd as [Hf Hnd].
    destruct (Hin f) as [d Hd]; [apply elem_of_cons; now left|].
    rewrite (unlink_all_cons64 f d names s Hd Ht).
    set (s1 := record [fs_unlinkSync f] (set_files (delete f (files s)) s)).
    assert (Ht1 : threw s1 = false) by exact Ht.
    destruct (IH s1 Ht1 Hnd) as (H1 & H2 & H3 & H4 & H5 & H6 & H7).
    { intros n Hn. change (files s1) with (delete f (files s)).
      rewrite lookup_delete_ne by (intros ->; contradiction).
      apply Hin, elem_of_cons. now right. }
    split; [exact H1|]. split; [|split; [|split; [|repeat split]]];
      try assumption.
    + intros n Hn. apply elem_of_cons in Hn as [->|Hn]; [|now apply H2].
      rewrite H3 by exact Hf. apply lookup_delete_eq.
    + intros n Hn. apply not_elem_of_cons in Hn as [Hne Hn].
      rewrite H3 by exact Hn. change (files s1) with (delete f (files s)).
      now apply lookup_delete_ne.
    + rewrite H4. change (timeline s1) with (timeline s ++ [fs_unlinkSync f]).
      now rewrite <- app_assoc.
Qed.

End Deleting64.

(** ** What the events of a run show *)

Section Events64.
Import B64.

Lemma captures_app64 (t1 t2 : list event) :
  captures (t1 ++ t2) = (captures t1 + captures t2)%nat.
Proof. unfold captures. now rewrite List.filter_app, length_app. Qed.

Lemma run_capture_times_app64 (t1 t2 : list event) :
  run_capture_times (t1 ++ t2) = run_capture_times t1 ++ run_capture_times t2.
Proof. apply omap_app. Qed.

Lemma quiet_app64 (t1 t2 : list event) :
  quiet t1 -> quiet t2 -> quiet (t1 ++ t2).
Proof.
  intros (A1 & A2 & A3 & A4) (B1 & B2 & B3 & B4). unfold quiet.
  rewrite captures_app64, existsb_app, omap_app, List.filter_app.
  rewrite A1, A2, A3, A4, B1, B2, B3, B4. now repeat split.
Qed.

Lemma quiet_nil64 : quiet [].
Proof. now repeat split. Qed.

Lemma quiet_schedule64 (argv : Argv) (c : VirtualTimeController callback) :
  onInstalled_ c = None ->
  quiet (flat_map (react argv) (frame_effects c ++ schedule_effects c))
  /\ run_capture_times
       (flat_map (react argv) (frame_effects c ++ schedule_effects c)) = [].
Proof.
  intros H. unfold frame_effects, schedule_effects, installed_call.
  rewrite H.
  destruct (_ && _); [destruct (eqb _ _)|]; now repeat split.
Qed.

End Events64.

(** ** The end of the run *)

Section RunLoop64.
Import B64.
Variable argv : Argv.
Variable browser : Browser.

(** With a video to make, or frames to keep, [finish] shuts the browser
    down and leaves the files alone. *)
Lemma finish_video64 (s : session) :
  noVideo argv = false ->
  finish argv s
  = {| page := page s; frameCounter := frameCounter s;
       allFrameFilenames := allFrameFilenames s; files := files s;
       threw := threw s;
       timeline :=
         timeline s
         ++ [console_log "Finished capturing frames.";
             console_log_clock_time (elapsed (page s));
             newTarget_close; cri_close; launchedChrome_kill]
         ++ [ffmpeg_save
               ("frame-%07d." +:+ extension (format (screenshotOptions argv)))
               (div (int 1000) (timeBetweenFramesInMilliseconds argv))
               (outputMP4Filename argv);
             console_log "Finished"] |}.
Proof.
  intros Hv. unfold finish. rewrite Hv. cbn zeta. cbn [negb].
  unfold record. cbn [page frameCounter allFrameFilenames files threw timeline].
  f_equal. now rewrite <- !app_assoc.
Qed.

Lemma finish_kept64 (s : session) :
  noVideo argv = true -> keepFrames argv = true ->
  finish argv s
  = {| page := page s; frameCounter := frameCounter s;
       allFrameFilenames := allFrameFilenames s; files := files s;
       threw := threw s;
       timeline :=
         timeline s
         ++ [console_log "Finished capturing frames.";
             console_log_clock_time (elapsed (page s));
             newTarget_close; cri_close; launchedChrome_kill]
         ++ [console_log "Finished"] |}.
Proof.
  intros Hv Hk. unfold finish. rewrite Hv, Hk. cbn zeta. cbn [negb].
  unfold record. cbn [page frameCounter allFrameFilenames files threw timeline].
  f_equal. now rewrite <- !app_assoc.
Qed.

(** With neither, it deletes the frames, which are all there. *)
Lemma finish_deleted64 (s : session) :
  noVideo argv = true -> keepFrames argv = false ->
  threw s = false -> NoDup (allFrameFilenames s) ->
  (forall n, n ∈ allFrameFilenames s -> is_Some (files s !! n)) ->
  page (finish argv s) = page s
  /\ frameCounter (finish argv s) = frameCounter s
  /\ allFrameFilenames (finish argv s) = allFrameFilenames s
  /\ threw (finish argv s) = false
  /\ (forall n, n ∈ allFrameFilenames s -> files (finish argv s) !! n = None)
  /\ (forall n, n ∉ allFrameFilenames s ->
        files (finish argv s) !! n = files s !! n)
  /\ timeline (finish argv s)
     = timeline s
       ++ [console_log "Finished capturing frames.";
           console_log_clock_time (elapsed (page s));
           newTarget_close; cri_close; launchedChrome_kill]
       ++ (map fs_unlinkSync (allFrameFilenames s)
           ++ [console_log "Finished"]).
Proof.
  intros Hv Hk Ht Hnd Hin. unfold finish. cbn zeta. rewrite Hv, Hk.
  cbn [negb].
  match goal with
  | |- context [unlink_all ?l ?s0] =>
      destruct (unlink_all_present64 l s0 Ht Hnd Hin)
        as (H1 & H2 & H3 & H4 & H5 & H6 & H7);
      set (u := unlink_all l s0) in *
  end.
  rewrite H1. unfold record at 1 2 3 4 5 6 7.
  cbn [page frameCounter allFrameFilenames files threw timeline].
  split; [exact H5|]. split; [exact H6|]. split; [exact H7|].
  split; [exact H1|]. split; [exact H2|]. split; [exact H3|].
  rewrite H4. cbn [timeline record allFrameFilenames].
  now rewrite <- !app_assoc.
Qed.

End RunLoop64.

(** ** The capture loop as a whole *)

Section CaptureLoop64.
Import B64.
Variable argv : Argv.
Variable browser : Browser.

(** A grant that is used up after [n] expiries: the run sees [n - 1]
    expiries that only concern the controller, and then the callback. *)
Lemma grant_expires64 (n : nat) (w : world callback) :
  completes n w ->
  forall (s : session) (cb : callback),
    page s = w ->
    onInstalled_ (controller w) = None ->
    onExpired_ (controller w) = Some cb ->
    exists evs,
      quiet evs
      /\ run_capture_times evs = []
      /\ Nat.iter n (budgetExpired argv browser) s
         = dispatch argv browser
             {| page := expire n w;
                frameCounter := frameCounter s;
                allFrameFilenames := allFrameFilenames s;
                files := files s;
                threw := threw s;
                timeline :=
                  timeline s
                  ++ evs
                  ++ [Protocol (Call_onExpired cb (elapsed (expire n w)))] |}
             (Call_onExpired cb (elapsed (expire n w))).
Proof.
  induction 1 as [w Hf He|n w Hf Hne Hc IH]; intros s cb Hp Hi Hcb.
  - exists []. split; [apply quiet_nil64|]. split; [reflexivity|].
    change (expire 1 w) with (exec BudgetExpired w).
    rewrite expired_elapsed64. subst w. cbn [Nat.iter nat_rect app].
    apply budgetExpired_last64; [|exact He|exact Hcb].
    destruct Hf as [-> _]. now eexists.
  - subst w.
    assert (Hsome : is_Some (outstanding (page s))).
    { destruct Hf as [-> _]. now eexists. }
    rewrite Nat.iter_succ_r, (budgetExpired_more64 argv browser s Hsome Hne).
    pose proof (expired_onInstalled64 (page s) Hi) as Hi'.
    assert (Hcb' : onExpired_ (controller (exec BudgetExpired (page s)))
                   = Some cb) by now rewrite expired_onExpired64.
    match goal with
    | |- context [Nat.iter n _ ?s1] =>
        destruct (IH s1 cb eq_refl Hi' Hcb') as (evs & Hq & Hq' & Hiter)
    end.
    rewrite Hiter. cbn [frameCounter allFrameFilenames files threw timeline].
    destruct (quiet_schedule64 argv (advanced (controller (page s))) Hi)
      as [S1 S2].
    eexists. split; [|split].
    + apply quiet_app64; [exact S1|exact Hq].
    + now rewrite run_capture_times_app64, S2, Hq'.
    + rewrite <- !app_assoc, <- !expire_S64. reflexivity.
Qed.

Lemma frame_names_succ64 (k : Z) :
  (0 <= k)%Z ->
  frame_names argv (k + 1)
  = frame_names argv k
    ++ [frameFilename (int (k + 1)) (format (screenshotOptions argv))].
Proof.
  intros Hk. unfold frame_names.
  rewrite seqZ_app, fmap_app by lia. f_equal.
  rewrite seqZ_cons by lia. cbn [Z.pred].
  rewrite seqZ_nil by lia. cbn [fmap list_fmap]. do 3 f_equal. lia.
Qed.

Lemma frame_names_NoDup64 (k : Z) : NoDup (frame_names argv k).
Proof.
  unfold frame_names. apply NoDup_fmap_2_strong; [|apply NoDup_seqZ].
  intros x y Hx Hy. apply elem_of_seqZ in Hx, Hy.
  apply frameFilename_inj64; lia.
Qed.

Lemma frame_names_fresh64 (k : Z) :
  (0 <= k)%Z ->
  frameFilename (int (k + 1)) (format (screenshotOptions argv))
  ∉ frame_names argv k.
Proof.
  intros Hk Hin. unfold frame_names in Hin.
  apply list_elem_of_fmap in Hin as (j & Hj & Hin).
  apply elem_of_seqZ in Hin. apply frameFilename_inj64 in Hj; lia.
Qed.

Lemma elem_of_frame_names64 (k : Z) (x : string) :
  x ∈ frame_names argv k
  <-> exists j, (1 <= j <= k)%Z
        /\ x = frameFilename (int j) (format (screenshotOptions argv)).
Proof.
  unfold frame_names. rewrite list_elem_of_fmap. split.
  - intros (j & -> & Hj). apply elem_of_seqZ in Hj. exists j. split; [lia|easy].
  - intros (j & Hj & ->). exists j. split; [easy|]. apply elem_of_seqZ. lia.
Qed.

Lemma frame_times_succ64 (F k : Z) :
  (0 <= k)%Z ->
  frame_time browser F <$> seqZ 1 (k + 1)
  = (frame_time browser F <$> seqZ 1 k) ++ [frame_time browser F (k + 1)].
Proof.
  intros Hk. rewrite seqZ_app, fmap_app by lia. f_equal.
  rewrite seqZ_cons by lia. cbn [Z.pred].
  rewrite seqZ_nil by lia. cbn [fmap list_fmap]. do 2 f_equal. lia.
Qed.

Lemma time_base_after_S (k : nat) :
  time_base_after browser (S k)
  = add (time_base_after browser k) literal_0_01.
Proof. reflexivity. Qed.

End CaptureLoop64.

Section CaptureLoopSteps64.
Import B64.
Variable argv : Argv.
Variable browser : Browser.
Variable fs : gmap string string.
Variable F : Z.
Hypothesis interval_whole : timeBetweenFramesInMilliseconds argv = int F.
Hypothesis interval_nonneg : (0 <= F)%Z.
Hypothesis render_total : forall t, is_Some (render browser t).

Ltac observe :=
  rewrite ?captures_app64, ?existsb_app, ?omap_app, ?List.filter_app,
    ?run_capture_times_app64.

(** The grant that leads to the next frame. *)
Lemma shot_grant (k : Z) (s : session) :
  (0 <= k)%Z -> (1 + (k + 1) * F <= 2 ^ 53)%Z ->
  shot argv browser fs F k s ->
  capturing argv browser fs F k
    (snd (invoke argv (grantTime (timeBetweenFramesInMilliseconds argv)
                         cb_timeExpired) s)).
Proof.
  intros Hk Hb [Hidle HA He Hbase Hi Hcnt Hnames Hcap Hfin Hthrew Hwr Hinst
                Htimes Hother Hfiles].
  rewrite invoke_grantTime64, interval_whole.
  destruct (grant_starts64 (GrantTime (int F) cb_timeExpired) (page s) eq_refl)
    as (_ & _ & _ & _ & G5 & _).
  destruct (quiet_step (GrantTime (int F) cb_timeExpired) (page s)
              eq_refl eq_refl) as [Q1 _].
  destruct (quiet_schedule64 argv
              (granting (int F) cb_timeExpired (controller (page s))) Hi)
    as ((R1 & R2 & R3 & R4) & R5).
  constructor; unfold finished;
    cbn [page frameCounter allFrameFilenames files threw timeline].
  - apply grant_whole_flight; try reflexivity; try assumption; lia.
  - now rewrite Q1.
  - exact G5.
  - rewrite exec_GrantTime64. reflexivity.
  - exact Hcnt.
  - exact Hnames.
  - observe. rewrite Hcap, R1. lia.
  - observe. unfold finished in Hfin. now rewrite Hfin, R2.
  - exact Hthrew.
  - observe. now rewrite Hwr, R3, app_nil_r.
  - observe. now rewrite Hinst, R4, app_nil_r.
  - observe. now rewrite Htimes, R5, app_nil_r.
  - exact Hother.
  - exact Hfiles.
Qed.

(** From the grant to the next frame: the grant is used up after finitely
    many expiries, and [timeExpired] captures the frame, writes it under
    the next number and counts it. *)
Lemma capturing_shot (k : Z) (s : session) :
  (0 <= k)%Z -> (k + 2 <= 2 ^ 53)%Z ->
  capturing argv browser fs F k s ->
  exists (n : nat) (c : session),
    shot argv browser fs F (k + 1) c
    /\ Nat.iter n (budgetExpired argv browser) s
       = if ltb (int (k + 1)) (totalFramesToCapture argv)
         then snd (invoke argv
                     (grantTime (timeBetweenFramesInMilliseconds argv)
                        cb_timeExpired) c)
         else finish argv c.
Proof.
  intros Hk Hk2 [Hw Hbase Hcb Hi Hcnt Hnames Hcap Hfin Hthrew Hwr Hinst
                 Htimes Hother Hfiles].
  set (fuel := S (Z.to_nat F)).
  assert (Hfuel : (Z.to_nat F < fuel)%nat) by (unfold fuel; lia).
  destruct (whole_completes fuel 16 (1 + k * F) F (page s) Hw Hfuel)
    as (C1 & C2 & C3).
  set (n := length (whole_chunks fuel 16 (1 + k * F) F)) in *.
  exists n.
  destruct (grant_expires64 argv browser n (page s) C1 s cb_timeExpired
              eq_refl Hi Hcb) as (evs & (Q1 & Q2 & Q3 & Q4) & Q5 & Hiter).
  destruct (completes_done64 n (page s) C1) as [_ Hidle].
  pose proof (expire_onInstalled64 n (page s) Hi) as Hi'.
  pose proof (expire_interval64 n (page s)) as HA'.
  rewrite (whole_interval _ _ _ _ Hw) in HA'.
  pose proof (expire_timeBase64 n (page s)) as Hb'. rewrite Hbase in Hb'.
  set (w := expire n (page s)) in *.
  assert (He : elapsed w = int (1 + (k + 1) * F)).
  { rewrite C2. f_equal. lia. }
  assert (Hft : currentFrameTime (controller w)
                = frame_time browser F (k + 1)).
  { unfold frame_time.
    change (currentFrameTime (controller w))
      with (add (timeBase w) (elapsed w)).
    rewrite Hb', He. do 2 f_equal. lia. }
  destruct (render_total (currentFrameTime (controller w))) as [screen Hs].
  rewrite Hiter. cbn [dispatch].
  rewrite (timeExpired_run64 argv browser _ screen) by exact Hs.
  cbn [frameCounter]. rewrite Hcnt.
  eexists. split; [|reflexivity].
  pose proof (frame_names_succ64 argv k Hk) as Hsucc.
  pose proof (frame_names_fresh64 argv k Hk) as Hfresh.
  unfold captured.
  cbn [page frameCounter allFrameFilenames files threw timeline].
  rewrite ?Hcnt, Hs, Hft.
  set (name := frameFilename (int (k + 1)) (format (screenshotOptions argv)))
    in *.
  destruct (capture_fields (screenshotOptions argv) (Some screen) w)
    as (_ & K2 & K3 & _ & _ & K6 & K7).
  constructor; unfold finished;
    cbn [page frameCounter allFrameFilenames files threw timeline].
  - now rewrite K7.
  - now rewrite K6.
  - rewrite K3, He. reflexivity.
  - rewrite K2, Hb'. replace (Z.to_nat (k + 1)) with (S (Z.to_nat k)) by lia.
    reflexivity.
  - exact Hi'.
  - rewrite add_int by lia. do 2 f_equal.
  - now rewrite Hnames, Hsucc.
  - observe. rewrite Hcap, Q1. cbn. lia.
  - observe. unfold finished in Hfin. rewrite Hfin, Q2. reflexivity.
  - exact Hthrew.
  - observe. rewrite Hwr, Q3, Hsucc. cbn. now rewrite ?app_nil_r.
  - observe. rewrite Hinst, Q4. cbn. now rewrite ?app_nil_r.
  - observe. rewrite Htimes, Q5, frame_times_succ64 by exact Hk. cbn.
    now rewrite ?app_nil_r.
  - intros x Hx. rewrite Hsucc in Hx.
    apply not_elem_of_app in Hx as [Hx1 Hx2].
    rewrite lookup_insert_ne.
    + now apply Hother.
    + intros ->. apply Hx2. now apply list_elem_of_singleton.
  - intros j Hj. destruct (Z.eq_dec j (k + 1)%Z) as [->|Hne].
    + fold name. rewrite lookup_insert_eq. now rewrite <- Hft, Hs.
    + rewrite lookup_insert_ne.
      * apply Hfiles. lia.
      * intros H. apply frameFilename_inj64 in H; lia.
Qed.

End CaptureLoopSteps64.

Section Finishing64.
Import B64.
Variable argv : Argv.
Variable browser : Browser.
Variable fs : gmap string string.
Variable F : Z.
Hypothesis interval_whole : timeBetweenFramesInMilliseconds argv = int F.
Hypothesis interval_nonneg : (0 <= F)%Z.
Hypothesis render_total : forall t, is_Some (render browser t).

Ltac observe :=
  rewrite ?captures_app64, ?existsb_app, ?omap_app, ?List.filter_app,
    ?run_capture_times_app64.

(** Deleting files shows up as nothing else. *)
Lemma unlink_events (names : list string) :
  captures (map fs_unlinkSync names) = 0%nat
  /\ existsb is_kill (map fs_unlinkSync names) = false
  /\ omap written (map fs_unlinkSync names) = []
  /\ List.filter is_installation (map fs_unlinkSync names) = []
  /\ run_capture_times (map fs_unlinkSync names) = []
  /\ List.filter is_protocol (map fs_unlinkSync names) = [].
Proof.
  induction names as [|f names (H1 & H2 & H3 & H4 & H5 & H6)];
    [now repeat split|].
  repeat split; cbn; assumption.
Qed.

(** The end of the run after frame [k]. *)
Lemma shot_finish (k : Z) (s : session) :
  (0 <= k)%Z -> shot argv browser fs F k s ->
  completed argv browser fs F k (finish argv s).
Proof.
  intros Hk [Hidle HA He Hbase Hi Hcnt Hnames Hcap Hfin Hthrew Hwr Hinst
             Htimes Hother Hfiles].
  unfold finished in Hfin.
  destruct (noVideo argv) eqn:Ev; [destruct (keepFrames argv) eqn:Ek|].
  - rewrite (finish_kept64 argv s Ev Ek).
    constructor; unfold finished;
      cbn [page frameCounter allFrameFilenames files threw timeline];
      try assumption.
    + observe. rewrite Hcap. cbn. lia.
    + observe. cbn. now rewrite orb_true_r.
    + observe. rewrite Hwr. cbn. now rewrite ?app_nil_r.
    + observe. rewrite Hinst. cbn. now rewrite ?app_nil_r.
    + observe. rewrite Htimes. cbn. now rewrite ?app_nil_r.
    + intros _. exact Hfiles.
    + intros Hc1 Hc2. congruence.
    + exists (timeline s ++ [console_log "Finished capturing frames."]),
        [console_log "Finished"].
      rewrite He. split; [now rewrite <- !app_assoc|].
      observe. rewrite Hcap, Hwr. cbn. rewrite Nat.add_0_r, app_nil_r.
      repeat split; congruence.
  - assert (Hnd : NoDup (allFrameFilenames s))
      by (rewrite Hnames; apply frame_names_NoDup64).
    assert (Hin : forall n, n ∈ allFrameFilenames s -> is_Some (files s !! n)).
    { intros n Hn. rewrite Hnames in Hn.
      apply elem_of_frame_names64 in Hn as (j & Hj & ->).
      rewrite Hfiles by exact Hj. apply render_total. }
    destruct (finish_deleted64 argv s Ev Ek Hthrew Hnd Hin)
      as (D1 & D2 & D3 & D4 & D5 & D6 & D7).
    destruct (unlink_events (allFrameFilenames s))
      as (U1 & U2 & U3 & U4 & U5 & U6).
    constructor; unfold finished; rewrite ?D1, ?D2, ?D3, ?D4, ?D7;
      try assumption.
    + observe. rewrite Hcap, U1. cbn. lia.
    + observe. cbn. now rewrite orb_true_r.
    + reflexivity.
    + observe. rewrite Hwr, U3. cbn. now rewrite ?app_nil_r.
    + observe. rewrite Hinst, U4. cbn. now rewrite ?app_nil_r.
    + observe. rewrite Htimes, U5. cbn. now rewrite ?app_nil_r.
    + intros x Hx. rewrite D6 by now rewrite Hnames. now apply Hother.
    + intros [Hc|Hc]; congruence.
    + intros _ _ n Hn. apply D5. now rewrite Hnames.
    + exists (timeline s ++ [console_log "Finished capturing frames."]),
        (map fs_unlinkSync (allFrameFilenames s) ++ [console_log "Finished"]).
      rewrite He. split; [now rewrite <- !app_assoc|].
      observe. rewrite Hcap, Hwr, U3, U6, Hnames. cbn.
      rewrite Nat.add_0_r, app_nil_r.
      repeat split; congruence.
  - rewrite (finish_video64 argv s Ev).
    constructor; unfold finished;
      cbn [page frameCounter allFrameFilenames files threw timeline];
      try assumption.
    + observe. rewrite Hcap. cbn. lia.
    + observe. cbn. now rewrite orb_true_r.
    + observe. rewrite Hwr. cbn. now rewrite ?app_nil_r.
    + observe. rewrite Hinst. cbn. now rewrite ?app_nil_r.
    + observe. rewrite Htimes. cbn. now rewrite ?app_nil_r.
    + intros _. exact Hfiles.
    + intros Hc. congruence.
    + exists (timeline s ++ [console_log "Finished capturing frames."]),
        [ffmpeg_save
           ("frame-%07d." +:+ extension (format (screenshotOptions argv)))
           (div (int 1000) (timeBetweenFramesInMilliseconds argv))
           (outputMP4Filename argv);
         console_log "Finished"].
      rewrite He. split; [now rewrite <- !app_assoc|].
      observe. rewrite Hcap, Hwr. cbn. rewrite Nat.add_0_r, app_nil_r.
      repeat split; congruence.
Qed.

End Finishing64.

(** ** The whole run *)

Section WholeRun64.
Import B64.
Variable argv : Argv.
Variable browser : Browser.
Variable fs : gmap string string.
Variable F : Z.
Hypothesis interval_whole : timeBetweenFramesInMilliseconds argv = int F.
Hypothesis interval_nonneg : (0 <= F)%Z.
Hypothesis render_total : forall t, is_Some (render browser t).

Ltac observe :=
  rewrite ?captures_app64, ?existsb_app, ?omap_app, ?List.filter_app,
    ?run_capture_times_app64.

(** What [run] has done when [grantInitialTime] returns. *)
Lemma run_timeline64 :
  timeline (run argv browser fs)
  = [Protocol (Emulation_pause (int 10000));
     Protocol (HeadlessExperimental_beginFrame (virtualTimeTicksBase browser)
                 (Some false) None);
     Protocol (Emulation_setVirtualTimePolicy (int 1) (int 100000) true);
     Protocol (Call_onInstalled cb_onInstalled (virtualTimeTicksBase browser));
     Page_navigate (targetUrl argv)].
Proof. reflexivity. Qed.

Lemma run_page64 :
  page (run argv browser fs)
  = exec (GrantInitialTime (int 1) (int 10000) cb_onInstalled cb_onExpired
            (virtualTimeTicksBase browser))
         (new_world (constructor None None)).
Proof. reflexivity. Qed.

(** The first expiry ends the initial grant and starts the capture loop. *)
Lemma starts64 (r : session) :
  page r
  = exec (GrantInitialTime (int 1) (int 10000) cb_onInstalled cb_onExpired
            (virtualTimeTicksBase browser))
         (new_world (constructor None None)) ->
  timeline r
  = [Protocol (Emulation_pause (int 10000));
     Protocol (HeadlessExperimental_beginFrame (virtualTimeTicksBase browser)
                 (Some false) None);
     Protocol (Emulation_setVirtualTimePolicy (int 1) (int 100000) true);
     Protocol (Call_onInstalled cb_onInstalled (virtualTimeTicksBase browser));
     Page_navigate (targetUrl argv)] ->
  files r = fs -> threw r = false ->
  (1 + F <= 2 ^ 53)%Z ->
  capturing argv browser fs F 0 (budgetExpired argv browser r).
Proof.
  intros Hp Ht Hfs Hthrew Hb.
  assert (Hw : whole_flight 16 0 1 (page r)).
  { rewrite Hp. apply grant_whole_flight; try reflexivity; lia. }
  destruct (whole_expired_last 16 0 1 (page r) Hw eq_refl) as (L1 & L2 & L3).
  assert (Hsome : is_Some (outstanding (page r))).
  { destruct (whole_in_flight _ _ _ _ Hw) as [-> _]. now eexists. }
  assert (Hcb : onExpired_ (controller (page r)) = Some cb_onExpired).
  { rewrite Hp, exec_GrantInitialTime64. reflexivity. }
  assert (Hi : onInstalled_ (controller (page r)) = None).
  { rewrite Hp, exec_GrantInitialTime64. reflexivity. }
  assert (Hbase : timeBase (page r) = virtualTimeTicksBase browser).
  { rewrite Hp, exec_GrantInitialTime64. reflexivity. }
  rewrite (budgetExpired_last64 argv browser r cb_onExpired Hsome L1 Hcb).
  cbn [dispatch]. unfold onExpired.
  apply shot_grant; try assumption; try lia.
  constructor; unfold finished;
    cbn [page frameCounter allFrameFilenames files threw timeline
         set_frameCounter set_allFrameFilenames].
  - now rewrite (expired_last64 (page r) L1).
  - rewrite expired_interval64. apply (whole_interval _ _ _ _ Hw).
  - exact L2.
  - now rewrite expired_timeBase64.
  - now apply expired_onInstalled64.
  - reflexivity.
  - reflexivity.
  - rewrite Ht. reflexivity.
  - rewrite Ht. reflexivity.
  - exact Hthrew.
  - rewrite Ht. reflexivity.
  - rewrite Ht. reflexivity.
  - rewrite Ht. reflexivity.
  - intros x _. now rewrite Hfs.
  - intros j Hj. lia.
Qed.

Lemma run_starts64 :
  (1 + F <= 2 ^ 53)%Z ->
  capturing argv browser fs F 0 (run_for argv browser 1 fs).
Proof.
  intros Hb. unfold run_for. cbn [Nat.iter nat_rect].
  apply starts64; [apply run_page64|apply run_timeline64|reflexivity..|exact Hb].
Qed.

(** The loop runs until [timeExpired] finds the counter at the frame
    count or above: [d + 1] more frames from frame [k] on. *)
Lemma capture_loop64 (q : Q) (N : Z) (d : nat) :
  totalFramesToCapture argv = Finite q ->
  (forall j, (1 <= j < N)%Z -> inject_Z j < q) -> q <= inject_Z N ->
  (N + 1 <= 2 ^ 53)%Z -> (1 + N * F <= 2 ^ 53)%Z ->
  forall (k : Z) (s : session),
    (0 <= k)%Z -> (k + 1 + Z.of_nat d = N)%Z ->
    capturing argv browser fs F k s ->
    exists n, completed argv browser fs F N
                (Nat.iter n (budgetExpired argv browser) s).
Proof.
  intros HN Hlt Hge HN53 HNF. induction d as [|d IH]; intros k s Hk Hd Hc.
  - destruct (capturing_shot argv browser fs F render_total
                k s Hk ltac:(lia) Hc) as (n & c & Hshot & Hn).
    assert (E : ltb (int (k + 1)) (totalFramesToCapture argv) = false).
    { rewrite HN. unfold ltb, compare, int.
      destruct (Qcompare_spec (inject_Z (k + 1)) q) as [E|E|E]; try reflexivity.
      replace (k + 1)%Z with N in E by lia. lra. }
    rewrite E in Hn. exists n. rewrite Hn.
    replace N with (k + 1)%Z by lia.
    apply shot_finish; try assumption. lia.
  - destruct (capturing_shot argv browser fs F render_total
                k s Hk ltac:(lia) Hc) as (n & c & Hshot & Hn).
    assert (E : ltb (int (k + 1)) (totalFramesToCapture argv) = true).
    { rewrite HN. unfold ltb, compare, int.
      assert (Hq : inject_Z (k + 1) < q) by (apply Hlt; lia).
      destruct (Qcompare_spec (inject_Z (k + 1)) q) as [E|E|E];
        [|reflexivity|]; lra. }
    rewrite E in Hn.
    assert (Hc' : capturing argv browser fs F (k + 1)
                    (Nat.iter n (budgetExpired argv browser) s)).
    { rewrite Hn. apply shot_grant; try assumption; try lia; nia. }
    destruct (IH (k + 1)%Z _ ltac:(lia) ltac:(lia) Hc') as [n2 Hn2].
    exists (n2 + n)%nat. now rewrite Nat.iter_add.
Qed.

(** Once the run is over nothing happens any more. *)
Lemma completed_stable64 (k : Z) (s : session) (m : nat) :
  completed argv browser fs F k s ->
  Nat.iter m (budgetExpired argv browser) s = s.
Proof.
  intros [Hidle]. induction m as [|m IH]; [reflexivity|].
  cbn [Nat.iter nat_rect]. change (nat_rect _ _ _ m) with
    (Nat.iter m (budgetExpired argv browser) s).
  rewrite IH. now apply budgetExpired_idle64.
Qed.

(** The number of frames that a run captures. *)
Lemma frames_captured_spec (q : Q) :
  (1 <= frames_captured q)%Z
  /\ (forall j, (1 <= j < frames_captured q)%Z -> inject_Z j < q)
  /\ q <= inject_Z (frames_captured q).
Proof.
  unfold frames_captured. split; [lia|]. split.
  - intros j Hj. pose proof (Qceiling_lt q) as H.
    apply Qle_lt_trans with (2 := H). rewrite <- Zle_Qle. lia.
  - pose proof (Qle_ceiling q) as H.
    apply Qle_trans with (1 := H). rewrite <- Zle_Qle. lia.
Qed.

(** A run comes to an end with the frames captured. *)
Lemma run_completes64 (q : Q) :
  totalFramesToCapture argv = Finite q ->
  (frames_captured q + 1 <= 2 ^ 53)%Z ->
  (1 + frames_captured q * F <= 2 ^ 53)%Z ->
  exists n : nat,
    completed argv browser fs F (frames_captured q) (run_for argv browser n fs)
    /\ forall m, (n <= m)%nat ->
         run_for argv browser m fs = run_for argv browser n fs.
Proof.
  intros HN H53 HNF.
  destruct (frames_captured_spec q) as (S1 & S2 & S3).
  set (N := frames_captured q) in *.
  assert (Hb : (1 + F <= 2 ^ 53)%Z) by nia.
  destruct (capture_loop64 q N (Z.to_nat (N - 1)) HN S2 S3 H53 HNF 0
              (run_for argv browser 1 fs) ltac:(lia) ltac:(lia)
              (run_starts64 Hb)) as [n Hn].
  exists (n + 1)%nat.
  assert (Hrun : run_for argv browser (n + 1) fs
                 = Nat.iter n (budgetExpired argv browser)
                     (run_for argv browser 1 fs)).
  { unfold run_for. now rewrite Nat.iter_add. }
  rewrite Hrun. split; [exact Hn|].
  intros m Hm. rewrite <- Hrun.
  replace m with ((m - (n + 1)) + (n + 1))%nat by lia.
  unfold run_for. rewrite Nat.iter_add.
  fold (run_for argv browser (n + 1) fs). rewrite Hrun.
  apply (completed_stable64 N). exact Hn.
Qed.

End WholeRun64.

(** ** The claims about the run, over binary64 numbers *)

Section RunClaims64.
Import B64.





End RunClaims64.

(** * Further properties of the controller, over binary64 numbers *)

Section ControllerProperties64.
Import B64.
Context {CB : Type}.
Implicit Types (w : world CB) (o : op CB).

(** Between two chunks of a grant in whole milliseconds there is always
    an animation frame: when the chunk that expires is not the last one,
    elapsed time has reached a frame boundary, and the handler sends one
    [beginFrame] without display updates, at the present frame time,
    followed by the next chunk, which does not wait for a navigation. *)
Theorem whole_animation_frame_between_chunks (A e r : Z) w :
  whole_flight A e r w -> (r - whole_chunk A e r <> 0)%Z ->
  onInstalled_ (controller w) = None ->
  (0 < whole_chunk A e r)%Z
  /\ ((e + whole_chunk A e r) mod A = 0)%Z
  /\ elapsed (exec BudgetExpired w) = int (e + whole_chunk A e r)
  /\ trace (exec BudgetExpired w)
     = trace w
       ++ [HeadlessExperimental_beginFrame
             (add (timeBase w) (int (e + whole_chunk A e r))) (Some true) None;
           Emulation_setVirtualTimePolicy
             (int (whole_chunk A (e + whole_chunk A e r)
                     (r - whole_chunk A e r)))
             (maxTaskStarvationCount_ (controller w)) false].
Proof.
  intros Hw Hm Hi.
  pose proof (whole_flight_chunk A e r w Hw) as Hc.
  destruct (whole_expired_more A e r w Hw Hm) as (Hne & Hw').
  destruct Hw as [HA He Hr Hf HA' He' Hr' Hs].
  pose proof (whole_chunk_bounds A e r ltac:(lia) Hr') as (H1 & H2 & H3).
  set (c := whole_chunk A e r) in *.
  assert (Hpos : (0 < c)%Z) by lia.
  assert (Hal : ((e + c) mod A = 0)%Z).
  { unfold c. rewrite (whole_chunk_more A e r Hm).
    pose proof (Z.div_mod e A ltac:(lia)) as Hd.
    replace (e + (A - e mod A))%Z with ((e / A + 1) * A)%Z by lia.
    apply Z.mod_mul. lia. }
  split; [exact Hpos|]. split; [exact Hal|].
  split; [apply (whole_elapsed _ _ _ _ Hw')|].
  pose proof (whole_flight_chunk _ _ _ _ Hw') as Hc'.
  destruct (whole_in_flight _ _ _ _ Hw') as [_ Hn'].
  rewrite Hn' in Hc'.
  rewrite (expired_more64 w Hne) in Hc' |- *. cbn zeta in Hc' |- *.
  cbn [trace controller] in Hc' |- *.
  f_equal. unfold frame_effects, schedule_effects, installed_call.
  change (onInstalled_ (advanced (controller w)))
    with (onInstalled_ (controller w)). rewrite Hi.
  change (totalElapsedTime_ (advanced (controller w)))
    with (add (elapsed w) (chunk w)).
  change (remainingBudget_ (advanced (controller w)))
    with (sub (remaining w) (chunk w)).
  change (animationFrameInterval_ (advanced (controller w)))
    with (interval w).
  change (virtualTimeBase_ (advanced (controller w))) with (timeBase w).
  change (maxTaskStarvationCount_ (advanced (controller w)))
    with (maxTaskStarvationCount_ (controller w)).
  change (next_chunk (scheduled (advanced (controller w))))
    with (next_chunk (advanced (controller w))) in Hc'.
  rewrite Hc', He, Hr, Hc, HA, add_int, sub_int by lia.
  rewrite !gtb_int, rem_int, Hal, !eqb_int by lia.
  assert (G1 : (0 <? e + c)%Z = true) by (apply Z.ltb_lt; lia).
  assert (G2 : (0 <? r - c)%Z = true) by (apply Z.ltb_lt; lia).
  assert (G3 : (e + c =? 0)%Z = false) by (apply Z.eqb_neq; lia).
  rewrite G1, G2, G3. reflexivity.
Qed.

(** After a stop with a chunk of a grant in whole milliseconds in flight,
    the expiry of that chunk submits a chunk of minus its size, and
    [onExpired] is called only by the second expiry that follows, should
    the browser report the expiry of the negative budget it was sent;
    elapsed time is then back at what it was when the stop was made, the
    chunk that was in flight uncounted. *)
Theorem whole_stop_in_flight_calls_back_late (cb : CB) (A e r : Z) w :
  whole_flight A e r w -> (0 < r)%Z ->
  onExpired_ (controller w) = Some cb ->
  remaining (exec StopVirtualTimeGracefully w) = int 0
  /\ chunk (expire 1 (exec StopVirtualTimeGracefully w))
     = int (- whole_chunk A e r)
  /\ outstanding (expire 1 (exec StopVirtualTimeGracefully w))
     = Some (int (- whole_chunk A e r))
  /\ List.filter is_onExpired
       (trace (expire 1 (exec StopVirtualTimeGracefully w)))
     = List.filter is_onExpired (trace w)
  /\ elapsed (expire 2 (exec StopVirtualTimeGracefully w)) = int e
  /\ remaining (expire 2 (exec StopVirtualTimeGracefully w)) = int 0
  /\ outstanding (expire 2 (exec StopVirtualTimeGracefully w)) = None
  /\ trace (expire 2 (exec StopVirtualTimeGracefully w))
     = trace (expire 1 (exec StopVirtualTimeGracefully w))
       ++ [Call_onExpired cb (int e)].
Proof.
  intros Hw Hr0 Hcb.
  pose proof (whole_flight_chunk A e r w Hw) as Hc.
  destruct Hw as [HA He Hr Hf HA' He' Hr' Hs].
  pose proof (whole_chunk_bounds A e r ltac:(lia) Hr') as (H1 & H2 & H3).
  specialize (H3 Hr0).
  set (c := whole_chunk A e r) in *.
  assert (Hstop : exec StopVirtualTimeGracefully w
                  = {| controller := set_remainingBudget_ (int 0) (controller w);
                       outstanding := outstanding w;
                       trace := trace w ++ [] |}).
  { rewrite exec_StopVirtualTimeGracefully64, Hr, truthy_int.
    assert (E : (r =? 0)%Z = false) by (apply Z.eqb_neq; lia).
    now rewrite E. }
  set (w1 := exec StopVirtualTimeGracefully w) in *.
  assert (S1 : remaining w1 = int 0) by now rewrite Hstop.
  assert (S2 : chunk w1 = int c) by now rewrite Hstop.
  assert (S3 : elapsed w1 = int e) by now rewrite Hstop.
  assert (S4 : interval w1 = int A) by now rewrite Hstop.
  assert (S5 : onExpired_ (controller w1) = Some cb) by now rewrite Hstop.
  assert (S6 : trace w1 = trace w) by (rewrite Hstop; apply app_nil_r).
  assert (N1 : eqb (sub (remaining w1) (chunk w1)) (int 0) = false).
  { rewrite S1, S2, sub_int, eqb_int by lia. apply Z.eqb_neq. lia. }
  change (expire 1 w1) with (exec BudgetExpired w1).
  change (expire 2 w1) with (exec BudgetExpired (exec BudgetExpired w1)).
  pose proof (expired_in_flight64 w1 N1) as [F1 F2].
  set (w2 := exec BudgetExpired w1) in *.
  assert (E2 : elapsed w2 = int (e + c)).
  { unfold w2. rewrite expired_elapsed64, S3, S2. apply add_int. lia. }
  assert (R2 : remaining w2 = int (- c)).
  { unfold w2. rewrite expired_remaining64, S1, S2, sub_int by lia.
    reflexivity. }
  assert (A2 : interval w2 = int A).
  { unfold w2. now rewrite expired_interval64. }
  assert (C2 : chunk w2 = int (- c)).
  { rewrite F2, next_chunk_fields, A2, E2, R2, rem_int by lia.
    pose proof (Z.mod_pos_bound (e + c) A ltac:(lia)).
    rewrite sub_int, min_int by lia. f_equal. lia. }
  assert (L2 : eqb (sub (remaining w2) (chunk w2)) (int 0) = true).
  { rewrite R2, C2, sub_int, eqb_int by lia. apply Z.eqb_eq. lia. }
  split; [exact S1|]. split; [exact C2|].
  split; [now rewrite F1, C2|]. split.
  { unfold w2. rewrite (expired_more64 w1 N1). cbn zeta. cbn [trace].
    now rewrite List.filter_app, filter_onExpired_schedule64, app_nil_r, S6. }
  rewrite expired_elapsed64, expired_remaining64, (expired_last64 w2 L2).
  cbn [outstanding trace].
  rewrite E2, R2, C2, add_int, sub_int by lia.
  split; [f_equal; lia|]. split; [f_equal; lia|]. split; [reflexivity|].
  f_equal. unfold expired_call.
  change (onExpired_ (advanced (controller w2)))
    with (onExpired_ (controller w2)).
  change (totalElapsedTime_ (advanced (controller w2)))
    with (add (elapsed w2) (chunk w2)).
  unfold w2 at 1. rewrite expired_onExpired64, S5, E2, C2, add_int by lia.
  do 3 f_equal. lia.
Qed.

End ControllerProperties64.

(** * Further properties of the run, over binary64 numbers *)

Section RunProperties64.
Import B64.
Variable argv : Argv.
Variable browser : Browser.
Variable fs : gmap string string.

(** Whatever finite number [q] the frame count is, a whole number or
    not, positive or not: with frames a whole number [F >= 0] of
    milliseconds apart, on a browser that sends a picture with every
    screenshot, and short of [2 ^ 53], the run comes to an end, having
    captured and written the frames 1 to [frames_captured q]: the frame
    count rounded up to a whole number, and one frame at least.  For a
    whole frame count of one or more that is the frame count. *)
Theorem run_captures_rounded_up_frame_count (q : Q) (F : Z) :
  totalFramesToCapture argv = Finite q ->
  timeBetweenFramesInMilliseconds argv = int F -> (0 <= F)%Z ->
  (frames_captured q + 1 <= 2 ^ 53)%Z ->
  (1 + frames_captured q * F <= 2 ^ 53)%Z ->
  (forall t, is_Some (render browser t)) ->
  (1 <= frames_captured q)%Z
  /\ q <= inject_Z (frames_captured q)
  /\ ((1 < frames_captured q)%Z -> inject_Z (frames_captured q - 1) < q)
  /\ (forall N, q == inject_Z N -> (1 <= N)%Z -> frames_captured q = N)
  /\ exists n,
       finished (run_for argv browser n fs) = true
       /\ threw (run_for argv browser n fs) = false
       /\ captures (timeline (run_for argv browser n fs))
          = Z.to_nat (frames_captured q)
       /\ omap written (timeline (run_for argv browser n fs))
          = frame_names argv (frames_captured q).
Proof.
  intros HN HF HF0 H53 HNF Hrender.
  destruct (frames_captured_spec q) as (S1 & S2 & S3).
  split; [exact S1|]. split; [exact S3|]. split; [|split].
  - intros H1. apply S2. lia.
  - intros N Hq HN1. unfold frames_captured.
    rewrite (Qceiling_comp _ _ Hq), Qceiling_Z. lia.
  - destruct (run_completes64 argv browser fs F HF HF0 Hrender q HN H53 HNF)
      as (n & C & _).
    exists n. split; [apply (done_finished _ _ _ _ _ _ C)|].
    split; [apply (done_threw _ _ _ _ _ _ C)|].
    split; [apply (done_captures _ _ _ _ _ _ C)|].
    apply (done_written _ _ _ _ _ _ C).
Qed.

(** The run requests frame [j] at the double nearest to the sum of the
    time base then and the elapsed time [1 + j * F]: the initial grant
    of 1 ms and [j] grants of the [F] ms between frames.  The time base
    then is the one the browser reported with [0.01] added [j - 1]
    times, once by each earlier capture, each sum rounded to a double.
    When the run ends the controller's elapsed time is [1 + N * F] for
    the [N] frames captured. *)
Theorem run_frame_times_rounded (q : Q) (F : Z) :
  totalFramesToCapture argv = Finite q ->
  timeBetweenFramesInMilliseconds argv = int F -> (0 <= F)%Z ->
  (frames_captured q + 1 <= 2 ^ 53)%Z ->
  (1 + frames_captured q * F <= 2 ^ 53)%Z ->
  (forall t, is_Some (render browser t)) ->
  exists n,
    finished (run_for argv browser n fs) = true
    /\ run_capture_times (timeline (run_for argv browser n fs))
       = (fun j =>
            add (Nat.iter (Z.to_nat (j - 1)) (fun t => add t literal_0_01)
                   (virtualTimeTicksBase browser))
                (int (1 + j * F)))
         <$> seqZ 1 (frames_captured q)
    /\ elapsedTime (controller (page (run_for argv browser n fs)))
       = int (1 + frames_captured q * F).
Proof.
  intros HN HF HF0 H53 HNF Hrender.
  destruct (run_completes64 argv browser fs F HF HF0 Hrender q HN H53 HNF)
    as (n & C & _).
  exists n. split; [apply (done_finished _ _ _ _ _ _ C)|].
  split; [apply (done_times _ _ _ _ _ _ C)|].
  apply (done_elapsed _ _ _ _ _ _ C).
Qed.

(** When a video is made or the frames are kept, the run leaves on disk,
    under the name of frame [j], the picture that the browser sent for
    the frame time of frame [j], for every frame captured, replacing a
    file of that name that was there before; every file with another
    name is as it was before the run. *)
Theorem run_writes_frames_as_rendered (q : Q) (F : Z) :
  totalFramesToCapture argv = Finite q ->
  timeBetweenFramesInMilliseconds argv = int F -> (0 <= F)%Z ->
  (frames_captured q + 1 <= 2 ^ 53)%Z ->
  (1 + frames_captured q * F <= 2 ^ 53)%Z ->
  (forall t, is_Some (render browser t)) ->
  noVideo argv = false \/ keepFrames argv = true ->
  exists n,
    finished (run_for argv browser n fs) = true
    /\ threw (run_for argv browser n fs) = false
    /\ (forall j, (1 <= j <= frames_captured q)%Z ->
          files (run_for argv browser n fs)
          !! frameFilename (int j) (format (screenshotOptions argv))
          = render browser (frame_time browser F j)
          /\ run_capture_times (timeline (run_for argv browser n fs))
             !! Z.to_nat (j - 1)
             = Some (frame_time browser F j))
    /\ (forall x, x ∉ frame_names argv (frames_captured q) ->
          files (run_for argv browser n fs) !! x = fs !! x).
Proof.
  intros HN HF HF0 H53 HNF Hrender Hkeep.
  destruct (run_completes64 argv browser fs F HF HF0 Hrender q HN H53 HNF)
    as (n & C & _).
  exists n. split; [apply (done_finished _ _ _ _ _ _ C)|].
  split; [apply (done_threw _ _ _ _ _ _ C)|]. split.
  - intros j Hj. split; [apply (done_kept _ _ _ _ _ _ C Hkeep j Hj)|].
    rewrite (done_times _ _ _ _ _ _ C).
    rewrite list_lookup_fmap, lookup_seqZ_lt by lia.
    cbn [fmap option_fmap option_map]. do 2 f_equal. lia.
  - apply (done_other _ _ _ _ _ _ C).
Qed.

(** All the frames are captured and written before the browser is shut
    down: the timeline of the run splits at the report of the virtual
    time, [1 + N * F] for the [N] frames captured, which is followed by
    the closing of the two connections and the killing of the browser;
    every capture and every frame written comes before, and nothing that
    comes after is sent to the browser or writes a file: the encoder is
    started, or the frames are deleted, or neither, and ["Finished"] is
    logged. *)
Theorem run_shuts_down_after_the_last_frame (q : Q) (F : Z) :
  totalFramesToCapture argv = Finite q ->
  timeBetweenFramesInMilliseconds argv = int F -> (0 <= F)%Z ->
  (frames_captured q + 1 <= 2 ^ 53)%Z ->
  (1 + frames_captured q * F <= 2 ^ 53)%Z ->
  (forall t, is_Some (render browser t)) ->
  exists n t1 t2,
    timeline (run_for argv browser n fs)
    = t1 ++ [console_log_clock_time (int (1 + frames_captured q * F));
             newTarget_close; cri_close; launchedChrome_kill] ++ t2
    /\ captures t1 = Z.to_nat (frames_captured q)
    /\ omap written t1 = frame_names argv (frames_captured q)
    /\ List.filter is_protocol t2 = []
    /\ omap written t2 = []
    /\ (noVideo argv = false ->
        t2 = [ffmpeg_save
                ("frame-%07d." +:+ extension (format (screenshotOptions argv)))
                (div (int 1000) (timeBetweenFramesInMilliseconds argv))
                (outputMP4Filename argv);
              console_log "Finished"])
    /\ (noVideo argv = true -> keepFrames argv = false ->
        t2 = map fs_unlinkSync (frame_names argv (frames_captured q))
             ++ [console_log "Finished"])
    /\ (noVideo argv = true -> keepFrames argv = true ->
        t2 = [console_log "Finished"]).
Proof.
  intros HN HF HF0 H53 HNF Hrender.
  destruct (run_completes64 argv browser fs F HF HF0 Hrender q HN H53 HNF)
    as (n & C & _).
  destruct (done_shutdown _ _ _ _ _ _ C) as (t1 & t2 & H).
  now exists n, t1, t2.
Qed.

(** With [noVideo] and without [keepFrames] the run ends with none of
    its frame files on disk, nor any file that had the name of one of
    them before: the frames are deleted in the order in which they were
    written, once the browser has been shut down; no [unlinkSync]
    throws, ["Finished"] is logged last, and every file with another
    name is as it was before the run. *)
Theorem run_without_video_deletes_frames (q : Q) (F : Z) :
  totalFramesToCapture argv = Finite q ->
  timeBetweenFramesInMilliseconds argv = int F -> (0 <= F)%Z ->
  (frames_captured q + 1 <= 2 ^ 53)%Z ->
  (1 + frames_captured q * F <= 2 ^ 53)%Z ->
  (forall t, is_Some (render browser t)) ->
  noVideo argv = true -> keepFrames argv = false ->
  exists n t1,
    finished (run_for argv browser n fs) = true
    /\ threw (run_for argv browser n fs) = false
    /\ (forall j, (1 <= j <= frames_captured q)%Z ->
          files (run_for argv browser n fs)
          !! frameFilename (int j) (format (screenshotOptions argv)) = None)
    /\ (forall x, x ∉ frame_names argv (frames_captured q) ->
          files (run_for argv browser n fs) !! x = fs !! x)
    /\ timeline (run_for argv browser n fs)
       = t1 ++ [console_log_clock_time (int (1 + frames_captured q * F));
                newTarget_close; cri_close; launchedChrome_kill]
         ++ map fs_unlinkSync (frame_names argv (frames_captured q))
         ++ [console_log "Finished"].
Proof.
  intros HN HF HF0 H53 HNF Hrender Hv Hk.
  destruct (run_completes64 argv browser fs F HF HF0 Hrender q HN H53 HNF)
    as (n & C & _).
  destruct (done_shutdown _ _ _ _ _ _ C)
    as (t1 & t2 & H1 & _ & _ & _ & _ & _ & H7 & _).
  exists n, t1. split; [apply (done_finished _ _ _ _ _ _ C)|].
  split; [apply (done_threw _ _ _ _ _ _ C)|]. split; [|split].
  - intros j Hj. apply (done_deleted _ _ _ _ _ _ C Hv Hk).
    apply elem_of_frame_names64. now exists j.
  - apply (done_other _ _ _ _ _ _ C).
  - now rewrite H1, (H7 Hv Hk).
Qed.

(** A reply of the browser without a picture ends the run at once: when
    the reply to the first screenshot request carries none,
    [captureScreenshot] throws after the request has been made; no file
    is written, no further time is granted, the browser is never shut
    down, and nothing happens any more. *)
Theorem run_stops_without_screenshot_data (F : Z) :
  timeBetweenFramesInMilliseconds argv = int F -> (0 <= F)%Z ->
  (1 + F <= 2 ^ 53)%Z ->
  render browser (add (virtualTimeTicksBase browser) (int (1 + F))) = None ->
  exists n,
    threw (run_for argv browser n fs) = true
    /\ run_capture_times (timeline (run_for argv browser n fs))
       = [add (virtualTimeTicksBase browser) (int (1 + F))]
    /\ omap written (timeline (run_for argv browser n fs)) = []
    /\ files (run_for argv browser n fs) = fs
    /\ finished (run_for argv browser n fs) = false
    /\ outstanding (page (run_for argv browser n fs)) = None
    /\ forall m, (n <= m)%nat ->
         run_for argv browser m fs = run_for argv browser n fs.
Proof.
  intros HF HF0 Hb Hnone.
  pose proof (run_starts64 argv browser fs F HF HF0 Hb) as Hc.
  destruct Hc as [Hw Hbase Hcb Hi Hcnt Hnames Hcap Hfin Hthrew Hwr Hinst
                  Htimes Hother Hfiles].
  set (s := run_for argv browser 1 fs) in *.
  set (fuel := S (Z.to_nat F)).
  assert (Hfuel : (Z.to_nat F < fuel)%nat) by (unfold fuel; lia).
  destruct (whole_completes fuel 16 (1 + 0 * F) F (page s) Hw Hfuel)
    as (C1 & C2 & C3).
  set (n := length (whole_chunks fuel 16 (1 + 0 * F) F)) in *.
  destruct (grant_expires64 argv browser n (page s) C1 s cb_timeExpired
              eq_refl Hi Hcb) as (evs & (Q1 & Q2 & Q3 & Q4) & Q5 & Hiter).
  destruct (completes_done64 n (page s) C1) as [_ Hidle].
  pose proof (expire_timeBase64 n (page s)) as Hb'. rewrite Hbase in Hb'.
  set (w := expire n (page s)) in *.
  assert (Hft : currentFrameTime (controller w)
                = add (virtualTimeTicksBase browser) (int (1 + F))).
  { change (currentFrameTime (controller w))
      with (add (timeBase w) (elapsed w)).
    rewrite Hb', C2. repeat f_equal; lia. }
  assert (Hrun : run_for argv browser (n + 1) fs
                 = Nat.iter n (budgetExpired argv browser) s).
  { unfold run_for, s. now rewrite Nat.iter_add. }
  assert (Hend : outstanding (page (run_for argv browser (n + 1) fs)) = None).
  { rewrite Hrun, Hiter. cbn [dispatch].
    rewrite timeExpired_throws64 by (cbn [page]; now rewrite Hft).
    cbn [page]. now rewrite exec_CaptureScreenshot64. }
  exists (n + 1)%nat. split; [|split; [|split; [|split; [|split; [|split]]]]];
    try exact Hend.
  1-5: rewrite Hrun, Hiter; cbn [dispatch];
       rewrite timeExpired_throws64 by (cbn [page]; now rewrite Hft);
       unfold finished;
       cbn [page frameCounter allFrameFilenames files threw timeline].
  - reflexivity.
  - rewrite !run_capture_times_app64, Htimes, Q5, Hft. reflexivity.
  - rewrite !omap_app, Hwr, Q3. reflexivity.
  - apply map_eq. intros x. apply Hother. unfold frame_names. cbn.
    apply not_elem_of_nil.
  - unfold finished in Hfin. rewrite !existsb_app, Hfin, Q2. reflexivity.
  - intros m Hm.
    replace m with ((m - (n + 1)) + (n + 1))%nat by lia.
    unfold run_for. rewrite Nat.iter_add.
    fold (run_for argv browser (n + 1) fs).
    generalize (m - (n + 1))%nat. intros k.
    induction k as [|k IH]; [reflexivity|].
    cbn [Nat.iter nat_rect].
    change (nat_rect _ _ _ k) with
      (Nat.iter k (budgetExpired argv browser)
         (run_for argv browser (n + 1) fs)).
    rewrite IH. now apply budgetExpired_idle64.
Qed.



End RunProperties64.

(** * The binary64 properties at sample inputs *)

Section Samples64.
Import B64.

Lemma whole_budget_accounting_witness :
  exists E R : Z,
    elapsed (exec_all sample_session (new_world (constructor None None)))
    = int E
    /\ remaining (exec_all sample_session (new_world (constructor None None)))
       = int R
    /\ (E + R = 21)%Z.
Proof.
  destruct (whole_budget_accounting None None 16 sample_session)
    as (E & R & H1 & H2 & _ & _ & H5 & _).
  - reflexivity.
  - lia.
  - vm_compute. reflexivity.
  - vm_compute. discriminate.
  - exists E, R. split; [exact H1|]. split; [exact H2|exact H5].
Defined.

(** C2 as stated fails: revoking a grant that is under way leaves
    elapsed plus remaining time below the sum of the budgets granted;
    and a grant too large for its chunks to count is not used up by
    them: eight expiries into [grantTime(1e18)] the remaining budget is
    what it was, so that elapsed plus remaining time is above it. *)
Lemma budget_accounting_counterexample :
  ~ (add (elapsed (exec_all [GrantTime (int 100) 1%nat;
                             StopVirtualTimeGracefully]
                     (new_world (constructor None None))))
         (remaining (exec_all [GrantTime (int 100) 1%nat;
                               StopVirtualTimeGracefully]
                       (new_world (constructor None None))))
     = int (granted [GrantTime (int 100) 1%nat; StopVirtualTimeGracefully]))
  /\ ~ (add (elapsed (expire 8 (exec (GrantTime (int (10 ^ 18)) 1%nat)
                                   (new_world (constructor None None)))))
            (remaining (expire 8 (exec (GrantTime (int (10 ^ 18)) 1%nat)
                                      (new_world (constructor None None)))))
        = int (granted [GrantTime (int (10 ^ 18)) 1%nat])).
Proof.
  split; intros H; vm_compute in H; discriminate H.
Qed.

Lemma later_capture_has_later_frame_time_witness :
  exists f1 f2 : Q,
    capture_times
      (trace (exec (CaptureScreenshot sample_options (Some ""))
                (exec_all [GrantTime (int 20) 3%nat; BudgetExpired;
                           BudgetExpired]
                   (exec (CaptureScreenshot sample_options (Some ""))
                      (exec_all
                         [GrantInitialTime (int 1) (int 10000) 1%nat 2%nat
                            (int 10000);
                          BudgetExpired]
                         (new_world (constructor None None)))))))
    = [Finite f1; Finite f2]
    /\ f1 < f2.
Proof.
  apply (later_capture_has_later_frame_time
           [GrantTime (int 20) 3%nat; BudgetExpired; BudgetExpired]
           (exec_all
              [GrantInitialTime (int 1) (int 10000) 1%nat 2%nat (int 10000);
               BudgetExpired]
              (new_world (constructor None None)))
           sample_options (Some "") sample_options (Some "") 10000 1 21).
  - reflexivity.
  - reflexivity.
  - reflexivity.
  - vm_compute. reflexivity.
  - vm_compute. discriminate.
  - vm_compute. discriminate.
Defined.

(** C4 as stated fails.  At a time base of [10 ^ 15], where doubles are
    an eighth apart, two screenshots in a row present the same frame
    time; and a grant of a negative budget between two screenshots makes
    the later one present an earlier frame time. *)
Lemma capture_times_strictly_increase_counterexample :
  capture_times
    (trace (exec_all (late_session
                      ++ [CaptureScreenshot sample_options (Some "");
                          CaptureScreenshot sample_options (Some "")])
              (new_world (constructor None None))))
  = [int (10 ^ 15 + 1); int (10 ^ 15 + 1)]
  /\ exists f1 f2 : number,
       capture_times
         (trace (exec_all
                   [GrantInitialTime (int 1) (int 10000) 1%nat 2%nat
                      (int 10000);
                    BudgetExpired;
                    CaptureScreenshot sample_options (Some "");
                    GrantTime (int (-1)) 3%nat;
                    BudgetExpired;
                    CaptureScreenshot sample_options (Some "")]
                   (new_world (constructor None None))))
       = [f1; f2]
       /\ f1 = int 10001
       /\ ltb f2 f1 = true.
Proof.
  split; [vm_compute; reflexivity|].
  eexists _, _. split; [vm_compute; reflexivity|].
  split; vm_compute; reflexivity.
Qed.

Lemma captureScreenshot_nudges_time_base_witness :
  exists t' : Q,
    timeBase (exec (CaptureScreenshot sample_options (Some ""))
                (exec_all
                   [GrantInitialTime (int 1) (int 10000) 1%nat 2%nat
                      (int 10000)]
                   (new_world (constructor None None))))
    = Finite t'
    /\ 10000 < t'.
Proof.
  destruct (captureScreenshot_nudges_time_base sample_options (Some "")
              (exec_all
                 [GrantInitialTime (int 1) (int 10000) 1%nat 2%nat (int 10000)]
                 (new_world (constructor None None))))
    as (_ & _ & _ & _ & _ & _ & _ & _ & _ & _ & _ & H).
  destruct (H 10000) as (t' & H1 & H2 & _).
  - reflexivity.
  - vm_compute. discriminate.
  - exists t'. split; [exact H1|exact H2].
Defined.

(** C7 as stated fails at a time base of [10 ^ 15]: adding [0.01]
    leaves it where it was. *)
Lemma captureScreenshot_nudge_counterexample :
  timeBase (exec_all late_session (new_world (constructor None None)))
  = int (10 ^ 15)
  /\ timeBase (exec (CaptureScreenshot sample_options (Some ""))
                 (exec_all late_session (new_world (constructor None None))))
     = timeBase (exec_all late_session (new_world (constructor None None))).
Proof. split; vm_compute; reflexivity. Qed.

(** C10 as stated fails for [grantTime(1e18)] on a new controller, with
    the default interval of 16 ms: the first chunk is 16 ms, and its
    expiry leaves the remaining budget what it was, [1e18 - 16] being
    rounded to [1e18]; and so on: no number of expiries brings the
    remaining budget to zero, and the grant is never used up. *)
Lemma chunking_terminates_counterexample :
  chunk (exec (GrantTime (int (10 ^ 18)) 7%nat)
           (new_world (constructor None None))) = int 16
  /\ remaining (expire 1 (exec (GrantTime (int (10 ^ 18)) 7%nat)
                            (new_world (constructor None None))))
     = int (10 ^ 18)
  /\ ~ (exists n : nat,
          eqb (remaining (expire n (exec (GrantTime (int (10 ^ 18)) 7%nat)
                                      (new_world (constructor None None)))))
              (int 0) = true)
  /\ ~ (exists n : nat,
          completes n (exec (GrantTime (int (10 ^ 18)) 7%nat)
                         (new_world (constructor None None)))).
Proof.
  split; [vm_compute; reflexivity|]. split; [vm_compute; reflexivity|].
  assert (H : ~ (exists n : nat,
                   eqb (remaining
                          (expire n (exec (GrantTime (int (10 ^ 18)) 7%nat)
                                       (new_world (constructor None None)))))
                       (int 0) = true)).
  { intros [n Hn].
    pose proof (stalled_remaining _
                  (stalled_expire n _ (grant_10_18_stalled 7%nat))) as H.
    congruence. }
  split; [exact H|].
  intros [n Hn]. apply H. exists n.
  now destruct (completes_done64 _ _ Hn).
Qed.

Lemma whole_animation_frame_between_chunks_witness :
  elapsed (exec BudgetExpired sample_grant) = int 16
  /\ trace (exec BudgetExpired sample_grant)
     = trace sample_grant
       ++ [HeadlessExperimental_beginFrame (add (int 0) (int 16))
             (Some true) None;
           Emulation_setVirtualTimePolicy (int 16) (int 100000) false].
Proof.
  destruct (whole_animation_frame_between_chunks 16 0 100 sample_grant)
    as (_ & _ & H3 & H4).
  - constructor; try reflexivity; try lia. split; reflexivity.
  - vm_compute. discriminate.
  - reflexivity.
  - split; [exact H3|exact H4].
Defined.

Lemma whole_stop_in_flight_calls_back_late_witness :
  chunk (expire 1 (exec StopVirtualTimeGracefully sample_grant)) = int (-16)
  /\ elapsed (expire 2 (exec StopVirtualTimeGracefully sample_grant)) = int 0
  /\ trace (expire 2 (exec StopVirtualTimeGracefully sample_grant))
     = trace (expire 1 (exec StopVirtualTimeGracefully sample_grant))
       ++ [Call_onExpired 7%nat (int 0)].
Proof.
  destruct (whole_stop_in_flight_calls_back_late 7%nat 16 0 100 sample_grant)
    as (_ & H2 & _ & _ & H5 & _ & _ & H8).
  - constructor; try reflexivity; try lia. split; reflexivity.
  - lia.
  - reflexivity.
  - split; [exact H2|]. split; [exact H5|exact H8].
Defined.

Lemma run_captures_rounded_up_frame_count_witness :
  exists n,
    finished (run_for frames_only_argv sample_browser n ∅) = true
    /\ captures (timeline (run_for frames_only_argv sample_browser n ∅))
       = 3%nat
    /\ omap written (timeline (run_for frames_only_argv sample_browser n ∅))
       = ["frame-0000001.png"; "frame-0000002.png"; "frame-0000003.png"].
Proof.
  destruct (run_captures_rounded_up_frame_count frames_only_argv
              sample_browser ∅ (5 # 2) 40)
    as (_ & _ & _ & _ & n & H1 & _ & H3 & H4).
  - reflexivity.
  - reflexivity.
  - lia.
  - vm_compute. discriminate.
  - vm_compute. discriminate.
  - intros t. now exists "".
  - exists n. split; [exact H1|]. split; [exact H3|exact H4].
Defined.

Lemma run_without_video_deletes_frames_witness :
  exists n,
    finished (run_for frames_only_argv sample_browser n ∅) = true
    /\ files (run_for frames_only_argv sample_browser n ∅)
       !! "frame-0000002.png" = None.
Proof.
  destruct (run_without_video_deletes_frames frames_only_argv
              sample_browser ∅ (5 # 2) 40) as (n & t1 & H1 & _ & H3 & _).
  - reflexivity.
  - reflexivity.
  - lia.
  - vm_compute. discriminate.
  - vm_compute. discriminate.
  - intros t. now exists "".
  - reflexivity.
  - reflexivity.
  - exists n. split; [exact H1|].
    exact (H3 2%Z ltac:(vm_compute; split; discriminate)).
Defined.

Lemma run_stops_without_screenshot_data_witness :
  exists n,
    threw (run_for (default_argv (int 3)) silent_browser n ∅) = true
    /\ omap written (timeline (run_for (default_argv (int 3)) silent_browser n ∅))
       = []
    /\ finished (run_for (default_argv (int 3)) silent_browser n ∅) = false.
Proof.
  destruct (run_stops_without_screenshot_data (default_argv (int 3))
              silent_browser ∅ 1000) as (n & H1 & _ & H3 & _ & H5 & _).
  - reflexivity.
  - lia.
  - lia.
  - reflexivity.
  - exists n. split; [exact H1|]. split; [exact H3|exact H5].
Defined.

Lemma run_frame_times_rounded_witness :
  exists n,
    finished (run_for (default_argv (int 3)) sample_browser n ∅) = true
    /\ run_capture_times
         (timeline (run_for (default_argv (int 3)) sample_browser n ∅))
       = [add (int 10000) (int 1001);
          add (add (int 10000) literal_0_01) (int 2001);
          add (add (add (int 10000) literal_0_01) literal_0_01) (int 3001)]
    /\ elapsedTime
         (controller (page (run_for (default_argv (int 3)) sample_browser n ∅)))
       = int 3001.
Proof.
  destruct (run_frame_times_rounded (default_argv (int 3)) sample_browser ∅
              3 1000) as (n & H1 & H2 & H3).
  - reflexivity.
  - reflexivity.
  - lia.
  - vm_compute. discriminate.
  - vm_compute. discriminate.
  - intros t. now exists "".
  - exists n. split; [exact H1|]. split; [exact H2|exact H3].
Defined.

Lemma run_writes_frames_as_rendered_witness :
  exists n,
    finished (run_for (default_argv (int 3)) sample_browser n ∅) = true
    /\ files (run_for (default_argv (int 3)) sample_browser n ∅)
       !! "frame-0000002.jpg"
       = Some "".
Proof.
  destruct (run_writes_frames_as_rendered (default_argv (int 3))
              sample_browser ∅ 3 1000) as (n & H1 & _ & H3 & _).
  - reflexivity.
  - reflexivity.
  - lia.
  - vm_compute. discriminate.
  - vm_compute. discriminate.
  - intros t. now exists "".
  - now left.
  - exists n. split; [exact H1|].
    destruct (H3 2%Z ltac:(vm_compute; split; discriminate)) as [H _].
    exact H.
Defined.

Lemma run_shuts_down_after_the_last_frame_witness :
  exists n t1 t2,
    timeline (run_for (default_argv (int 3)) sample_browser n ∅)
    = t1 ++ [console_log_clock_time (int 3001); newTarget_close; cri_close;
             launchedChrome_kill] ++ t2
    /\ captures t1 = 3%nat
    /\ List.filter is_protocol t2 = [].
Proof.
  destruct (run_shuts_down_after_the_last_frame (default_argv (int 3))
              sample_browser ∅ 3 1000)
    as (n & t1 & t2 & H1 & H2 & _ & H4 & _).
  - reflexivity.
  - reflexivity.
  - lia.
  - vm_compute. discriminate.
  - vm_compute. discriminate.
  - intros t. now exists "".
  - exists n, t1, t2. split; [exact H1|]. split; [exact H2|exact H4].
Defined.


End Samples64.
